(** * The C2PA signing worker (src/actions/worker/index.js)

    A shallow embedding of the asset-compute worker and of its helpers.
    The worker is sequential glue around four collaborators that are not
    part of the repository: the file system, the [c2pa-node] library, the
    child process running the provenance CLI, and the HTTP client.  They
    are gathered in an environment record [Env]; every function of the
    source is a program in a state-and-exception monad over a [World]
    (the files on disk and the log of calls that left the process).

    Logging ([console], [logger]) is left out.  The constructors of the
    libraries ([createC2pa], [new ManifestBuilder], [new FormData] and
    its [append]) are taken to return; what the libraries then do is an
    answer of the environment, which may be a rejection.  The signing
    library may call back into the worker: the two methods of the remote
    signer are the worker's code and their requests are part of the
    worker's run. *)

From Stdlib Require Import ZArith String Ascii List Bool Lia.
From stdpp Require Import gmap strings list fin_maps pretty.

Open Scope string_scope.
#[local] Set Warnings "-register-all".

(** ** JavaScript values

    The instruction bag, the sign parameters, the provenance metadata and
    the JSON printed by the CLI are untyped JavaScript data.  Numbers are
    restricted to integers; a [Buffer] is a list of bytes (characters of
    an 8-bit string).  The worker's own code tests strings for emptiness
    and equality and puts them together; the two string methods it calls
    whose result depends on the character set, [trim] and [toUpperCase],
    are the engine's and are taken from the environment below. *)

Inductive value : Type :=
| VUndefined
| VNull
| VBool (b : bool)
| VNum (n : Z)
| VStr (s : string)
| VBuf (b : string)
| VArr (items : list value)
| VObj (fields : list (string * value)).

Inductive error : Type :=
| SourceCorruptError (msg : string)   (* from @adobe/asset-compute-sdk *)
| Error (msg : string)                (* new Error(msg) and Error(msg) *)
| TypeError (msg : string)            (* raised by the language itself *)
| SyntaxError (msg : string)          (* JSON.parse on malformed text   *)
| SystemError (code : string).        (* rejection coming from outside  *)

Inductive outcome (A : Type) : Type :=
| Ok (a : A)
| Throw (e : error).
Arguments Ok {A} a.
Arguments Throw {A} e.

(** [if (v)], [!v], [a || b], [a ?? b], [v === true]. *)
Definition truthy (v : value) : bool :=
  match v with
  | VUndefined | VNull => false
  | VBool b => b
  | VNum n => negb (n =? 0)%Z
  | VStr s => match s with EmptyString => false | String _ _ => true end
  | VBuf _ | VArr _ | VObj _ => true
  end.

Definition nullish (v : value) : bool :=
  match v with
  | VUndefined | VNull => true
  | _ => false
  end.

Definition js_or (a b : value) : value := if truthy a then a else b.
Definition js_and (a b : value) : value := if truthy a then b else a.
Definition js_coalesce (a b : value) : value := if nullish a then b else a.

Definition is_true (v : value) : bool :=
  match v with VBool true => true | _ => false end.

(** A default parameter [x = d] replaces only [undefined]. *)
Definition default_param (v d : value) : value :=
  match v with VUndefined => d | _ => v end.

Fixpoint assoc (k : string) (fields : list (string * value)) : value :=
  match fields with
  | [] => VUndefined
  | (k', v) :: rest => if String.eqb k k' then v else assoc k rest
  end.

(** [v.k] on a receiver that is not nullish: own properties of an object,
    [undefined] on anything else (no property of a primitive, of an array
    or of a buffer is read by the worker except through [Object.keys]). *)
Definition prop (v : value) (k : string) : value :=
  match v with
  | VObj fields => assoc k fields
  | _ => VUndefined
  end.

(** [v.k] in general: reading a property of [undefined] or [null] throws. *)
Definition member (v : value) (k : string) : outcome value :=
  if nullish v
  then Throw (TypeError ("Cannot read properties of " ++
                         (match v with VNull => "null" | _ => "undefined" end)
                         ++ " (reading '" ++ k ++ "')"))
  else Ok (prop v k).

(** [v?.k] *)
Definition opt_prop (v : value) (k : string) : value :=
  if nullish v then VUndefined else prop v k.

Definition indices (n : nat) : list string := map pretty (seq 0 n).

(** [Object.keys(v)] for a value that is not nullish. *)
Definition Object_keys (v : value) : list string :=
  match v with
  | VObj fields => map fst fields
  | VArr items => indices (length items)
  | VStr s => indices (String.length s)
  | VBuf b => indices (String.length b)
  | _ => []
  end.

(** [`${v}`] *)
Fixpoint js_toString (v : value) : string :=
  match v with
  | VUndefined => "undefined"
  | VNull => "null"
  | VBool true => "true"
  | VBool false => "false"
  | VNum n => pretty n
  | VStr s => s
  | VBuf b => b
  | VArr items =>
      (fix join (l : list value) : string :=
         match l with
         | [] => EmptyString
         | [x] => if nullish x then EmptyString else js_toString x
         | x :: rest =>
             (if nullish x then EmptyString else js_toString x) ++ "," ++ join rest
         end) items
  | VObj _ => "[object Object]"
  end.

(** ** The world outside the worker

    [files] is the disk: path to content.  [trace] logs, most recent
    first, every call that leaves the process together with whether it
    succeeded. *)

Inductive signer : Type :=
| LocalSigner (certificate privateKey : string) (algorithm tsaUrl : string)
| RemoteSigner.

(** The body of an HTTP request: none, a [FormData] object with the fields
    appended to it, or a value sent as it is. *)
Inductive body : Type :=
| NoBody
| FormData (fields : list (string * value))
| RawBody (data : value).

Inductive call : Type :=
| CStat (path : string)
| CReadFile (path : string)
| CWriteFile (path : string) (data : string)
| CCopyFile (src dest : string)
| CWriteJson (path : string) (obj : value)
| CUnlink (path : string)
| CExec (command : string)
| CFetch (url : string) (method : string) (headers : list (string * string)) (b : body)
| CC2paRead (buffer : string) (mimeType : value)
| CC2paSign (s : signer) (asset manifest : value).

Record event : Type := Event { ev_call : call; ev_ok : bool }.

Record World : Type := mkWorld {
  files : gmap string string;
  trace : list event
}.

(** What the operating system decides about a file-system call: let it
    proceed, or reject it.  A rejected write may already have put the
    first [n] bytes in place ([written = Some n]) or may have left the
    target untouched ([written = None]). *)
Inductive verdict : Type :=
| Proceed
| Reject (e : error) (written : option nat).

Record Response : Type := mkResponse {
  res_ok : bool;
  res_status : Z;
  res_statusText : string;
  res_json : outcome value;       (* [await res.json()] *)
  res_buffer : outcome string     (* [await res.buffer()] *)
}.

(** What [createC2pa({ signer }).sign({ asset, manifest })] does, seen from
    the worker: the library settles, or it first calls one of the two
    methods a signer object may carry and goes on with the way that call
    settled. *)
Inductive session : Type :=
| Settled (result : outcome value)
| CallReserveSize (k : outcome value -> session)
| CallSign (args : value) (k : outcome value -> session).

(** The collaborators.  [c2pa_sign] stands for [createC2pa({signer}).sign]:
    the library decides when to call the signer's methods and what to make
    of their answers; the methods themselves are the worker's code and run
    in the worker's world.  [child_process] may rewrite the disk: the CLI
    is started with an output path.  [trim] and [toUpperCase] are
    [String.prototype.trim] and [String.prototype.toUpperCase]. *)
Record Env : Type := mkEnv {
  fs_verdict : World -> call -> verdict;
  child_process : World -> string -> gmap string string * outcome string;
  http : World -> call -> outcome (option Response);
  c2pa_read : string -> value -> outcome value;
  c2pa_sign : signer -> value -> value -> session;
  Date_now : Z;
  JSON_parse : string -> option value;
  JSON_stringify : value -> string;
  trim : string -> string;
  toUpperCase : string -> string
}.

(** ** The monad of asynchronous functions: state and exceptions *)

Definition M (A : Type) : Type := World -> World * outcome A.

Definition ret {A} (a : A) : M A := fun w => (w, Ok a).
Definition throw {A} (e : error) : M A := fun w => (w, Throw e).
Definition bind {A B} (m : M A) (k : A -> M B) : M B :=
  fun w => match m w with
           | (w', Ok a) => k a w'
           | (w', Throw e) => (w', Throw e)
           end.
Definition try_catch {A} (m : M A) (handler : error -> M A) : M A :=
  fun w => match m w with
           | (w', Ok a) => (w', Ok a)
           | (w', Throw e) => handler e w'
           end.
Definition lift {A} (o : outcome A) : M A := fun w => (w, o).
(** Let a promise settle and look at how it settled. *)
Definition settle {A} (m : M A) : M (outcome A) :=
  fun w => match m w with (w', o) => (w', Ok o) end.

Notation "x <- m ;; k" := (bind m (fun x => k))
  (at level 90, m at next level, right associativity).
Notation "m ;;; k" := (bind m (fun _ => k))
  (at level 90, right associativity).

Definition record (c : call) (ok : bool) (w : World) : World :=
  mkWorld (files w) (Event c ok :: trace w).

Definition store (path data : string) (w : World) : World :=
  mkWorld (<[path := data]> (files w)) (trace w).

(** The part of [data] a rejected write leaves behind. *)
Definition leftover (path data : string) (written : option nat) (w : World) : World :=
  match written with
  | None => w
  | Some n => store path (substring 0 n data) w
  end.

Section Worker.

Variable env : Env.

(** *** Primitives: fs, fs-extra, child_process, fetch *)

Record Stats : Type := mkStats { size : nat }.

Definition fs_stat (path : string) : M Stats := fun w =>
  match fs_verdict env w (CStat path) with
  | Reject e _ => (record (CStat path) false w, Throw e)
  | Proceed =>
      match files w !! path with
      | None => (record (CStat path) false w, Throw (SystemError "ENOENT"))
      | Some content => (record (CStat path) true w, Ok (mkStats (String.length content)))
      end
  end.

Definition readFile (path : string) : M string := fun w =>
  match fs_verdict env w (CReadFile path) with
  | Reject e _ => (record (CReadFile path) false w, Throw e)
  | Proceed =>
      match files w !! path with
      | None => (record (CReadFile path) false w, Throw (SystemError "ENOENT"))
      | Some content => (record (CReadFile path) true w, Ok content)
      end
  end.

Definition write_bytes (c : call) (path data : string) : M unit := fun w =>
  match fs_verdict env w c with
  | Reject e written => (record c false (leftover path data written w), Throw e)
  | Proceed => (record c true (store path data w), Ok tt)
  end.

(** [fs.writeFile(path, data)]: the type of [data] is checked before the
    file is opened. *)
Definition fs_writeFile (path : string) (data : value) : M unit :=
  match data with
  | VBuf b => write_bytes (CWriteFile path b) path b
  | VStr s => write_bytes (CWriteFile path s) path s
  | _ => throw (TypeError "The data argument must be of type string or an instance of Buffer, TypedArray, or DataView")
  end.

Definition fs_copyFile (src dest : string) : M unit := fun w =>
  match files w !! src with
  | None => (record (CCopyFile src dest) false w, Throw (SystemError "ENOENT"))
  | Some content => write_bytes (CCopyFile src dest) dest content w
  end.

Definition newline : string := String (ascii_of_nat 10) EmptyString.

Definition fse_writeJson (path : string) (obj : value) : M unit :=
  write_bytes (CWriteJson path obj) path (JSON_stringify env obj ++ newline).

Definition fse_unlink (path : string) : M unit := fun w =>
  match fs_verdict env w (CUnlink path) with
  | Reject e _ => (record (CUnlink path) false w, Throw e)
  | Proceed =>
      match files w !! path with
      | None => (record (CUnlink path) false w, Throw (SystemError "ENOENT"))
      | Some _ => (record (CUnlink path) true (mkWorld (delete path (files w)) (trace w)), Ok tt)
      end
  end.

(** [const { stdout } = await exec(command)] *)
Definition exec (command : string) : M string := fun w =>
  match child_process env w command with
  | (disk, Ok stdout) => (record (CExec command) true (mkWorld disk (trace w)), Ok stdout)
  | (disk, Throw e) => (record (CExec command) false (mkWorld disk (trace w)), Throw e)
  end.

(** [fetch(url, { method, headers, body })]; [fetch(url)] is the request
    with the default method, no header and no body. *)
Definition fetch (url method : string) (headers : list (string * string)) (b : body)
    : M (option Response) :=
  fun w =>
    match http env w (CFetch url method headers b) with
    | Ok r => (record (CFetch url method headers b) true w, Ok r)
    | Throw e => (record (CFetch url method headers b) false w, Throw e)
    end.

(** [createC2pa().read({ buffer, mimeType })] *)
Definition c2pa_read_call (buffer : string) (mimeType : value) : M value := fun w =>
  match c2pa_read env buffer mimeType with
  | Ok v => (record (CC2paRead buffer mimeType) true w, Ok v)
  | Throw e => (record (CC2paRead buffer mimeType) false w, Throw e)
  end.

(** *** Constants of the source *)

Definition CLIENT_ID : string := "asset_compute_cai_integration".
Definition AUTH_GRANT_TYPE : string := "authorization_code".
Definition AUTH_STAGE_ENDPOINT : string := "https://ims-na1-stg1.adobelogin.com".
Definition AUTH_PROD_ENDPOINT : string := "https://ims-na1.adobelogin.com".
Definition STAGE_TIER : string := "STAGE".
Definition PROD_TIER : string := "PROD".

(** The double quote, and a path between double quotes as the command
    templates write it. *)
Definition dquote : string := String (ascii_of_nat 34) EmptyString.
Definition quoted (s : string) : string := dquote ++ s ++ dquote.

Definition is_string (v : value) (s : string) : bool :=
  match v with VStr s' => String.eqb s' s | _ => false end.

(** [v.toUpperCase()] on a truthy [v]: only strings have the method. *)
Definition call_toUpperCase (v : value) : outcome string :=
  match v with
  | VStr s => Ok (toUpperCase env s)
  | _ => Throw (TypeError "signParams.tier.toUpperCase is not a function")
  end.

(** *** Functions of the source, in the order of the file *)

Definition extractContentProvenanceActiveManifestContents (c2paMetadata : value) : value :=
  if negb (truthy c2paMetadata) then VNull
  else if truthy (prop c2paMetadata "active_manifest")
       then prop c2paMetadata "active_manifest"
       else VNull.

Definition JSON_parse_call (text : string) : outcome value :=
  match JSON_parse env text with
  | Some v => Ok v
  | None => Throw (SyntaxError "Unexpected token in JSON")
  end.

Definition executeJsonOutputCommand (command : string) : M value :=
  try_catch
    (stdout <- exec command ;;
     match stdout with
     | EmptyString => ret VNull
     | String _ _ =>
         let trimmed := trim env stdout in
         match trimmed with
         | EmptyString => ret VNull
         | String _ _ => lift (JSON_parse_call trimmed)
         end
     end)
    (fun _error => ret VNull).

Definition incomplete (signParams : value) : bool :=
  negb (truthy signParams)
  || negb (truthy (prop signParams "clientSecret"))
  || negb (truthy (prop signParams "accessCode"))
  || negb (truthy (prop signParams "tier")).

Definition exchangeServiceTokenForSignature (signParams : value) : M value :=
  if incomplete signParams
  then throw (Error "Incomplete C2PA signing information")
  else
    tier <- lift (call_toUpperCase (prop signParams "tier")) ;;
    adobeLoginHost <-
      (if String.eqb tier PROD_TIER then ret AUTH_PROD_ENDPOINT
       else if String.eqb tier STAGE_TIER then ret AUTH_STAGE_ENDPOINT
       else throw (Error ("Unable to exchange service token: "
                          ++ js_toString (prop signParams "tier")
                          ++ " is not a valid tier (only stage or prod are supported)"))) ;;
    let form := [("grant_type", VStr AUTH_GRANT_TYPE);
                 ("client_id", VStr CLIENT_ID);
                 ("client_secret", prop signParams "clientSecret");
                 ("code", prop signParams "accessCode")] in
    res <- fetch (adobeLoginHost ++ "/ims/token/v3") "post" [] (FormData form) ;;
    match res with
    | None => throw (Error "No response from token exchange service")
    | Some res =>
        if res_ok res then
          json <- lift (res_json res) ;;
          lift (member json "access_token")
        else
          json <- lift (res_json res) ;;
          if (res_status res =? 400)%Z
             && truthy json
             && is_string (prop json "error") "invalid_client"
             && is_string (prop json "error_description") "invalid client_secret parameter"
          then throw (Error "Unable to exchange service token, client_secret rejected")
          else throw (Error ("Unable to exchange service token: "
                             ++ pretty (res_status res) ++ " "
                             ++ res_statusText res ++ " "
                             ++ JSON_stringify env json))
    end.

Definition buildExtractionCommand (fileToProcess jsonManifestPath : string)
    (parentAsset signParams : value) : outcome string :=
  let parentAsset := default_param parentAsset VNull in
  let signParams := default_param signParams (VObj []) in
  if truthy parentAsset then
    match member signParams "useInternalTooling" with
    | Throw e => Throw e
    | Ok useInternalTooling =>
        if truthy useInternalTooling then
          Ok ("adobe_c2patool add-manifest --input " ++ quoted fileToProcess
              ++ " --embed --config " ++ quoted jsonManifestPath
              ++ " --force --output " ++ quoted fileToProcess
              ++ " --parent " ++ quoted (js_toString parentAsset))
        else
          Ok ("c2patool " ++ quoted fileToProcess
              ++ " --manifest " ++ quoted jsonManifestPath
              ++ " -f -o " ++ quoted fileToProcess
              ++ " -p " ++ quoted (js_toString parentAsset))
    end
  else
    match member signParams "useInternalTooling" with
    | Throw e => Throw e
    | Ok useInternalTooling =>
        if truthy useInternalTooling then
          Ok ("adobe_c2patool add-manifest --input " ++ quoted fileToProcess
              ++ " --embed --config " ++ quoted jsonManifestPath
              ++ " --force --output " ++ quoted fileToProcess)
        else
          Ok ("c2patool " ++ quoted fileToProcess
              ++ " --manifest " ++ quoted jsonManifestPath
              ++ " -f -o " ++ quoted fileToProcess)
    end.

Definition addAuthToCommand (inC2patoolCommand : string) (signParams : value) : M string :=
  if truthy (js_and signParams (prop signParams "useInternalTooling")) then
    nui_cai_auth_token <- exchangeServiceTokenForSignature signParams ;;
    ret (inC2patoolCommand ++ " --adobe-auth " ++ js_toString nui_cai_auth_token)
  else ret inC2patoolCommand.

Definition addC2PAManifest (fileToProcess jsonManifestPath : string)
    (parentAsset signParams : value) : M value :=
  let parentAsset := default_param parentAsset VNull in
  let signParams := default_param signParams (VObj []) in
  c2patoolCommand <-
    lift (buildExtractionCommand fileToProcess jsonManifestPath parentAsset signParams) ;;
  finalC2patoolCommand <-
    try_catch (addAuthToCommand c2patoolCommand signParams)
              (fun _error => throw (Error "Failed to add auth to C2PA command")) ;;
  jsonResult <- executeJsonOutputCommand finalC2patoolCommand ;;
  if truthy jsonResult && (0 <? length (Object_keys jsonResult))%nat
  then ret jsonResult
  else ret VNull.

Definition manifestPath (tmpDir : string) (renditionName : value) : string :=
  tmpDir ++ "/" ++ pretty (Date_now env) ++ "." ++ js_toString renditionName
         ++ ".manifest.json".

(** The local [addedManifest] starts as [null] and is assigned once; an
    exception before the assignment leaves [null], one after it would
    leave the assigned value. *)
Definition addAssetManifestToRendition (c2paMetadata : value) (renditionPath : string)
    (renditionName : value) (tmpDir : string) (signParams : value) : M value :=
  if negb (truthy c2paMetadata) then ret VNull
  else
    try_catch
      (let assetActiveManifestContent :=
         extractContentProvenanceActiveManifestContents c2paMetadata in
       if negb (truthy assetActiveManifestContent) then ret VNull
       else
         let assetActiveManifestPath := manifestPath tmpDir renditionName in
         fse_writeJson assetActiveManifestPath assetActiveManifestContent ;;;
         addedManifest <-
           addC2PAManifest renditionPath assetActiveManifestPath VNull signParams ;;
         try_catch
           ((if truthy signParams && is_true (prop signParams "cleanUpTmpFiles")
             then try_catch (fse_unlink assetActiveManifestPath) (fun _err => ret tt)
             else ret tt) ;;;
            ret addedManifest)
           (fun _error => ret addedManifest))
      (fun _error => ret VNull).

Inductive signerKind : Type := local | remote.

Definition kind_of (s : signer) : signerKind :=
  match s with LocalSigner _ _ _ _ => local | RemoteSigner => remote end.

(** [createRemoteSigner()] returns the object [{ type: 'remote',
    reserveSize, sign }].  The log shows it as [RemoteSigner]; its two
    methods are [reserveSize] and [remoteSign] (lines 168-173 and 174-184),
    and [c2pa_sign_call] below runs them each time the library calls them. *)
Definition reserveSize : M value :=
  let url := "https://my.signing.service/box-size" in
  res <- fetch url "GET" [] NoBody ;;
  match res with
  | None => throw (TypeError "Cannot read properties of undefined (reading 'json')")
  | Some res =>
      data <- lift (res_json res) ;;
      lift (member data "boxSize")
  end.

(** The method [sign({ reserveSize, toBeSigned })] of the remote signer. *)
Definition remoteSign (args : value) : M value :=
  reserveSize <- lift (member args "reserveSize") ;;
  toBeSigned <- lift (member args "toBeSigned") ;;
  let url := "https://my.signing.service/sign?boxSize=" ++ js_toString reserveSize in
  res <- fetch url "POST" [("Content-Type", "application/octet-stream")]
           (RawBody toBeSigned) ;;
  match res with
  | None => throw (TypeError "Cannot read properties of undefined (reading 'buffer')")
  | Some res =>
      buffer <- lift (res_buffer res) ;;
      ret (VBuf buffer)
  end.

Definition createRemoteSigner : signer := RemoteSigner.

(** [signer.reserveSize()] and [signer.sign(args)] as the library calls
    them: the object made by [createLocalSigner] has neither method. *)
Definition signer_reserveSize (s : signer) : M value :=
  match s with
  | RemoteSigner => reserveSize
  | LocalSigner _ _ _ _ => throw (TypeError "signer.reserveSize is not a function")
  end.

Definition signer_sign (s : signer) (args : value) : M value :=
  match s with
  | RemoteSigner => remoteSign args
  | LocalSigner _ _ _ _ => throw (TypeError "signer.sign is not a function")
  end.

(** The library at work on a signer: each call of a method runs in the
    world, and the library goes on with the way it settled. *)
Fixpoint drive (s : signer) (p : session) : M value :=
  match p with
  | Settled result => lift result
  | CallReserveSize k =>
      fun w => match signer_reserveSize s w with (w', r) => drive s (k r) w' end
  | CallSign args k =>
      fun w => match signer_sign s args w with (w', r) => drive s (k r) w' end
  end.

(** [createC2pa({ signer }).sign({ asset, manifest })]; the call is logged
    when it settles, after the requests the signer's methods have made. *)
Definition c2pa_sign_call (s : signer) (asset manifest : value) : M value := fun w =>
  match drive s (c2pa_sign env s asset manifest) w with
  | (w', Ok v) => (record (CC2paSign s asset manifest) true w', Ok v)
  | (w', Throw e) => (record (CC2paSign s asset manifest) false w', Throw e)
  end.

(** [Promise.all] starts both reads and rejects when either is rejected. *)
Definition createLocalSigner : M signer :=
  certificate <- settle (readFile "./certs/certificate.pem") ;;
  privateKey <- settle (readFile "./certs/private-key.pem") ;;
  certificate <- lift certificate ;;
  privateKey <- lift privateKey ;;
  ret (LocalSigner certificate privateKey "ES256" "http://timestamp.digicert.com").

(** [useLocalSigner ? await createLocalSigner() : createRemoteSigner()] *)
Definition selectSigner (useLocalSigner : value) : signerKind :=
  if truthy useLocalSigner then local else remote.

Definition createSigner (k : signerKind) : M signer :=
  match k with
  | local => createLocalSigner
  | remote => ret createRemoteSigner
  end.

Definition sign (asset manifest useLocalSigner : value) : M value :=
  let useLocalSigner := default_param useLocalSigner (VBool false) in
  signer <- createSigner (selectSigner useLocalSigner) ;;
  result <- c2pa_sign_call signer asset manifest ;;
  signedAsset <- lift (member result "signedAsset") ;;
  signedManifest <- lift (member result "signedManifest") ;;
  ret (VObj [("signedAsset", signedAsset); ("signedManifest", signedManifest)]).

Definition read (path : string) (mimeType : value) : M value :=
  buffer <- readFile path ;;
  result <- c2pa_read_call buffer mimeType ;;
  ret (js_or result VNull).

(** *** The worker entry point *)

Record Source : Type := mkSource {
  source_path : string;
  source_name : value;
  source_mimeType : value
}.

Record Rendition : Type := mkRendition {
  rendition_path : string;
  rendition_name : value;
  rendition_instructions : value
}.

(** [new ManifestBuilder(definition, { vendor: 'cai' })] *)
Definition manifestDefinition (source : Source) : value :=
  VObj [("definition",
         VObj [("claim_generator", VStr "htx-cai-asset-compute/1.0.0");
               ("format", js_or (source_mimeType source) (VStr "image/jpeg"));
               ("title", js_or (source_name source) (VStr "signed-asset"));
               ("assertions",
                VArr [VObj [("label", VStr "c2pa.actions");
                            ("data",
                             VObj [("actions",
                                    VArr [VObj [("action", VStr "c2pa.created")]])])];
                      VObj [("label", VStr "com.custom.my-assertion");
                            ("data",
                             VObj [("description", VStr "My custom test assertion");
                                   ("version", VStr "1.0.0")])]])]);
        ("options", VObj [("vendor", VStr "cai")])].

(** [{ buffer, mimeType: source.mimeType || 'image/jpeg' }] *)
Definition asset_of (source : Source) (buffer : string) : value :=
  VObj [("buffer", VBuf buffer);
        ("mimeType", js_or (source_mimeType source) (VStr "image/jpeg"))].

(** [rendition.instructions?.useLocalSigner ?? true] *)
Definition useLocalSigner_of (rendition : Rendition) : value :=
  js_coalesce (opt_prop (rendition_instructions rendition) "useLocalSigner") (VBool true).

(** Lines 242-247: read the provenance data of the source; the [var]
    stays [undefined] when the read throws. *)
Definition readSourceMetadata (source : Source) : M value :=
  try_catch
    (read (source_path source) (js_or (source_mimeType source) (VStr "image/jpeg")))
    (fun _error => ret VUndefined).

(** Lines 251-287: the body of the signing [try]. *)
Definition signAndWrite (source : Source) (rendition : Rendition) : M unit :=
  buffer <- readFile (source_path source) ;;
  let asset := asset_of source buffer in
  let manifest := manifestDefinition source in
  let useLocalSigner := useLocalSigner_of rendition in
  signed <- sign asset manifest useLocalSigner ;;
  signedAsset <- lift (member signed "signedAsset") ;;
  signedBuffer <- lift (member signedAsset "buffer") ;;
  fs_writeFile (rendition_path rendition) signedBuffer.

(** Lines 250-294: sign, or copy the source when signing throws. *)
Definition signOrCopy (source : Source) (rendition : Rendition) : M unit :=
  try_catch (signAndWrite source rendition)
            (fun _error => fs_copyFile (source_path source) (rendition_path rendition)).

Definition shouldPropagate (rendition : Rendition) (sourceC2paMetadata : value) : bool :=
  truthy (js_and (VBool (is_true (opt_prop (rendition_instructions rendition)
                                           "addSourceManifest")))
                 sourceC2paMetadata).

(** Lines 297-306. *)
Definition propagateSourceManifest (rendition : Rendition) (sourceC2paMetadata : value)
    : M unit :=
  try_catch
    (if shouldPropagate rendition sourceC2paMetadata then
       let tmpDir := "/tmp" in
       let signParams :=
         js_or (opt_prop (rendition_instructions rendition) "c2paSignParams") (VObj []) in
       addAssetManifestToRendition sourceC2paMetadata (rendition_path rendition)
         (js_or (rendition_name rendition) (VStr "rendition")) tmpDir signParams ;;;
       ret tt
     else ret tt)
    (fun _err => ret tt).

Definition main (source : Source) (rendition : Rendition) : M unit :=
  stats <- fs_stat (source_path source) ;;
  if (size stats =? 0)%nat
  then throw (SourceCorruptError "source file is empty")
  else
    sourceC2paMetadata <- readSourceMetadata source ;;
    signOrCopy source rendition ;;;
    propagateSourceManifest rendition sourceC2paMetadata.

End Worker.

(** * Vocabulary of the properties *)

(** ** Command variants *)

(** The four variants as the specification words them: a CLI name with
    its flag set, then the parent argument when there is a parent. *)
Definition cli_variant (internal : bool) (file manifest : string) : string :=
  if internal
  then "adobe_c2patool add-manifest --input " ++ quoted file
       ++ " --embed --config " ++ quoted manifest
       ++ " --force --output " ++ quoted file
  else "c2patool " ++ quoted file
       ++ " --manifest " ++ quoted manifest
       ++ " -f -o " ++ quoted file.

Definition parent_argument (internal : bool) (parent : option string) : string :=
  match parent with
  | None => EmptyString
  | Some p => (if internal then " --parent " else " -p ") ++ quoted p
  end.

Definition command_variant (internal : bool) (parent : option string)
    (file manifest : string) : string :=
  cli_variant internal file manifest ++ parent_argument internal parent.

Definition parent_of (parentAsset : value) : option string :=
  if truthy parentAsset then Some (js_toString parentAsset) else None.

Definition internal_of (signParams : value) : bool :=
  truthy (prop (default_param signParams (VObj [])) "useInternalTooling").

(** ** Executor and token exchange *)

(** What the executor returns, read off the subprocess.  The stdout is
    blank when it is empty or when the engine's [trim] leaves nothing of
    it. *)
Definition executor_result (env : Env) (command : string) (w : World) (v : value) : Prop :=
  (forall disk e, child_process env w command = (disk, Throw e) -> v = VNull)
  /\ (forall disk stdout, child_process env w command = (disk, Ok stdout) ->
        (stdout = EmptyString -> v = VNull)
        /\ (trim env stdout = EmptyString -> v = VNull)
        /\ (JSON_parse env (trim env stdout) = None -> v = VNull)
        /\ (forall json, stdout <> EmptyString -> trim env stdout <> EmptyString ->
                         JSON_parse env (trim env stdout) = Some json -> v = json)).

(** The identity endpoint of a tier: a string whose upper case, as the
    engine's [toUpperCase] gives it, is [PROD] or [STAGE]; no endpoint
    for anything else. *)
Definition identity_endpoint (env : Env) (tier : value) : option string :=
  match tier with
  | VStr t =>
      if String.eqb (toUpperCase env t) "PROD" then Some AUTH_PROD_ENDPOINT
      else if String.eqb (toUpperCase env t) "STAGE" then Some AUTH_STAGE_ENDPOINT
      else None
  | _ => None
  end.

(** The POST of the token exchange. *)
Definition token_request (host : string) (signParams : value) : call :=
  CFetch (host ++ "/ims/token/v3") "post" []
    (FormData [("grant_type", VStr "authorization_code");
               ("client_id", VStr "asset_compute_cai_integration");
               ("client_secret", prop signParams "clientSecret");
               ("code", prop signParams "accessCode")]).

(** The exchange once the validations have passed: one POST, then the
    reading of the response. *)
Definition after_validation (env : Env) (host : string) (signParams : value) : M value :=
  res <- (fun w => match http env w (token_request host signParams) with
                   | Ok r => (record (token_request host signParams) true w, Ok r)
                   | Throw e => (record (token_request host signParams) false w, Throw e)
                   end) ;;
  match res with
  | None => throw (Error "No response from token exchange service")
  | Some res =>
      json <- lift (res_json res) ;;
      if res_ok res then lift (member json "access_token")
      else if (res_status res =? 400)%Z && truthy json
              && is_string (prop json "error") "invalid_client"
              && is_string (prop json "error_description") "invalid client_secret parameter"
      then throw (Error "Unable to exchange service token, client_secret rejected")
      else throw (Error ("Unable to exchange service token: "
                         ++ pretty (res_status res) ++ " "
                         ++ res_statusText res ++ " "
                         ++ JSON_stringify env json))
  end.

(** The rejected credential: status 400 whose JSON body has error code
    [invalid_client] and the one description. *)
Definition credential_rejected (res : Response) (json : value) : Prop :=
  res_status res = 400%Z
  /\ prop json "error" = VStr "invalid_client"
  /\ prop json "error_description" = VStr "invalid client_secret parameter".

(** ** Sample collaborators, used to run the worker on concrete inputs *)

(** An engine for ASCII text, which is all the samples print: the
    letters [a] to [z] have an upper case, the white space is tab, line
    feed, vertical tab, form feed, carriage return and space. *)
Definition ascii_upper (c : ascii) : ascii :=
  let n := nat_of_ascii c in
  if (97 <=? n)%nat && (n <=? 122)%nat then ascii_of_nat (n - 32) else c.

Fixpoint ascii_toUpperCase (s : string) : string :=
  match s with
  | EmptyString => EmptyString
  | String c rest => String (ascii_upper c) (ascii_toUpperCase rest)
  end.

Definition ascii_whitespace (c : ascii) : bool :=
  let n := nat_of_ascii c in
  ((9 <=? n)%nat && (n <=? 13)%nat) || (n =? 32)%nat.

Fixpoint ascii_trim_start (s : string) : string :=
  match s with
  | EmptyString => EmptyString
  | String c rest => if ascii_whitespace c then ascii_trim_start rest else s
  end.

Fixpoint ascii_trim_end (s : string) : string :=
  match s with
  | EmptyString => EmptyString
  | String c rest =>
      match ascii_trim_end rest with
      | EmptyString => if ascii_whitespace c then EmptyString else String c EmptyString
      | t => String c t
      end
  end.

Definition ascii_trim (s : string) : string := ascii_trim_end (ascii_trim_start s).

(** A JSON reader for the few texts the samples print. *)
Definition sample_parse (text : string) : option value :=
  if String.eqb text "{}" then Some (VObj [])
  else if String.eqb text "null" then Some VNull
  else if String.eqb text "7" then Some (VNum 7)
  else if String.eqb text ("{" ++ quoted "manifest" ++ ":1}")
       then Some (VObj [("manifest", VNum 1)])
       else None.

(** A JSON printer without escapes. *)
Fixpoint sample_stringify (v : value) : string :=
  match v with
  | VUndefined => "undefined"
  | VNull => "null"
  | VBool true => "true"
  | VBool false => "false"
  | VNum n => pretty n
  | VStr s => quoted s
  | VBuf b => quoted b
  | VArr items =>
      "[" ++ (fix join (l : list value) : string :=
                match l with
                | [] => EmptyString
                | [x] => sample_stringify x
                | x :: rest => sample_stringify x ++ "," ++ join rest
                end) items ++ "]"
  | VObj fields =>
      "{" ++ (fix join (l : list (string * value)) : string :=
                match l with
                | [] => EmptyString
                | [(k, x)] => quoted k ++ ":" ++ sample_stringify x
                | (k, x) :: rest => quoted k ++ ":" ++ sample_stringify x ++ "," ++ join rest
                end) fields ++ "}"
  end.

(** A response whose body is the text of a JSON value. *)
Definition json_response (ok : bool) (status : Z) (statusText : string) (json : value)
    : Response :=
  mkResponse ok status statusText (Ok json) (Ok (sample_stringify json)).

(** A signing library that prefixes the asset with a manifest.  With a
    local signer it signs by itself; with a remote signer it asks the
    signer for a size, hands it the bytes to sign together with that
    size, and gives up when either call is rejected. *)
Definition sample_signed (asset : value) : value :=
  VObj [("signedAsset",
         VObj [("buffer", VBuf ("C2PA+" ++ js_toString (prop asset "buffer")));
               ("mimeType", prop asset "mimeType")]);
        ("signedManifest", VObj [("label", VStr "urn:uuid:1")])].

Definition sample_sign (s : signer) (asset manifest : value) : session :=
  match s with
  | LocalSigner _ _ _ _ => Settled (Ok (sample_signed asset))
  | RemoteSigner =>
      CallReserveSize (fun size =>
        match size with
        | Throw e => Settled (Throw e)
        | Ok size =>
            CallSign (VObj [("reserveSize", size); ("toBeSigned", prop asset "buffer")])
              (fun signature =>
                 match signature with
                 | Throw e => Settled (Throw e)
                 | Ok _ => Settled (Ok (sample_signed asset))
                 end)
        end)
  end.

(** Everything works; the source carries no provenance data; the CLI is
    not installed and the network is down. *)
Definition quiet_env : Env :=
  {| fs_verdict := fun _ _ => Proceed;
     child_process := fun w _ => (files w, Throw (SystemError "ENOENT"));
     http := fun _ _ => Throw (SystemError "ECONNREFUSED");
     c2pa_read := fun _ _ => Ok VNull;
     c2pa_sign := sample_sign;
     Date_now := 1700000000000;
     JSON_parse := sample_parse;
     JSON_stringify := sample_stringify;
     trim := ascii_trim;
     toUpperCase := ascii_toUpperCase |}.

(** The CLI prints a JSON object with one key and leaves the disk alone. *)
Definition printing_env : Env :=
  {| fs_verdict := fun _ _ => Proceed;
     child_process := fun w _ => (files w, Ok ("{" ++ quoted "manifest" ++ ":1}" ++ newline));
     http := fun _ _ => Throw (SystemError "ECONNREFUSED");
     c2pa_read := fun _ _ => Ok VNull;
     c2pa_sign := sample_sign;
     Date_now := 1700000000000;
     JSON_parse := sample_parse;
     JSON_stringify := sample_stringify;
     trim := ascii_trim;
     toUpperCase := ascii_toUpperCase |}.

(** The CLI prints the empty object. *)
Definition empty_object_env : Env :=
  {| fs_verdict := fun _ _ => Proceed;
     child_process := fun w _ => (files w, Ok ("  {}" ++ newline));
     http := fun _ _ => Throw (SystemError "ECONNREFUSED");
     c2pa_read := fun _ _ => Ok VNull;
     c2pa_sign := sample_sign;
     Date_now := 1700000000000;
     JSON_parse := sample_parse;
     JSON_stringify := sample_stringify;
     trim := ascii_trim;
     toUpperCase := ascii_toUpperCase |}.

(** The CLI prints text that is not JSON. *)
Definition chatty_env : Env :=
  {| fs_verdict := fun _ _ => Proceed;
     child_process := fun w _ => (files w, Ok "not json");
     http := fun _ _ => Throw (SystemError "ECONNREFUSED");
     c2pa_read := fun _ _ => Ok VNull;
     c2pa_sign := sample_sign;
     Date_now := 1700000000000;
     JSON_parse := sample_parse;
     JSON_stringify := sample_stringify;
     trim := ascii_trim;
     toUpperCase := ascii_toUpperCase |}.

Definition sample_disk : gmap string string :=
  <["/in/photo.jpg" := "JPEGDATA"]>
    (<["./certs/certificate.pem" := "CERT"]>
       (<["./certs/private-key.pem" := "KEY"]> ∅)).

Definition sample_world : World := mkWorld sample_disk [].

Definition sample_signParams : value :=
  VObj [("clientSecret", VStr "s3cret"); ("accessCode", VStr "code-1");
        ("tier", VStr "stage"); ("useInternalTooling", VBool true)].

Definition rejection_body : value :=
  VObj [("error", VStr "invalid_client");
        ("error_description", VStr "invalid client_secret parameter")].

(** The identity service rejects the client secret. *)
Definition rejecting_env : Env :=
  {| fs_verdict := fun _ _ => Proceed;
     child_process := fun w _ => (files w, Throw (SystemError "ENOENT"));
     http := fun _ _ => Ok (Some (json_response false 400 "Bad Request" rejection_body));
     c2pa_read := fun _ _ => Ok VNull;
     c2pa_sign := sample_sign;
     Date_now := 1700000000000;
     JSON_parse := sample_parse;
     JSON_stringify := sample_stringify;
     trim := ascii_trim;
     toUpperCase := ascii_toUpperCase |}.

(** A gateway in front of the identity service answers 502 with an HTML
    page: [res.json()] rejects. *)
Definition gateway_env : Env :=
  {| fs_verdict := fun _ _ => Proceed;
     child_process := fun w _ => (files w, Throw (SystemError "ENOENT"));
     http := fun _ _ =>
       Ok (Some (mkResponse false 502 "Bad Gateway"
                   (Throw (SystemError "invalid-json")) (Ok "<html>Bad Gateway</html>")));
     c2pa_read := fun _ _ => Ok VNull;
     c2pa_sign := sample_sign;
     Date_now := 1700000000000;
     JSON_parse := sample_parse;
     JSON_stringify := sample_stringify;
     trim := ascii_trim;
     toUpperCase := ascii_toUpperCase |}.

(** ** Footprints: what a program may do to the world *)

(** [grows Q]: the log is extended, and only by events that satisfy [Q]. *)
Definition grows (Q : event -> Prop) (w w' : World) : Prop :=
  exists evs, trace w' = (evs ++ trace w)%list /\ Forall Q evs.

Definition keeps_files (w w' : World) : Prop := files w' = files w.

Definition respects {A} (R : World -> World -> Prop) (m : M A) : Prop :=
  forall w w' r, m w = (w', r) -> R w w'.

(** The calls of the manifest propagation path: the scratch write, the
    CLI run, the unlink, and the form post of the token exchange. *)
Definition is_propagation_call (c : call) : bool :=
  match c with
  | CWriteJson _ _ | CExec _ | CUnlink _ => true
  | CFetch _ _ _ (FormData _) => true
  | _ => false
  end.

(** The two requests the methods of the remote signer make. *)
Definition signer_request (c : call) : Prop :=
  c = CFetch "https://my.signing.service/box-size" "GET" [] NoBody
  \/ exists reserveSize toBeSigned,
       c = CFetch ("https://my.signing.service/sign?boxSize=" ++ js_toString reserveSize)
             "POST" [("Content-Type", "application/octet-stream")] (RawBody toBeSigned).

Definition quiet (ev : event) : Prop := is_propagation_call (ev_call ev) = false.
Definition propagating (ev : event) : Prop := is_propagation_call (ev_call ev) = true.

(** The signer [main] asks for: [useLocalSigner_of] goes through the
    default parameter of [sign] and the conditional. *)
Definition selected_signer (rendition : Rendition) : signerKind :=
  selectSigner (default_param (useLocalSigner_of rendition) (VBool false)).

(** The calls of the signing step of [main]: reads, the library's [sign]
    with a signer of the selected kind, the requests of the remote
    signer's methods when that signer is selected, and the write or the
    copy onto the rendition. *)
Definition signing_event (source : Source) (rendition : Rendition) (ev : event) : Prop :=
  match ev_call ev with
  | CReadFile _ => True
  | CC2paSign s _ _ => kind_of s = selected_signer rendition
  | CFetch _ _ _ _ => selected_signer rendition = remote /\ signer_request (ev_call ev)
  | CWriteFile path _ => path = rendition_path rendition
  | CCopyFile src dest => src = source_path source /\ dest = rendition_path rendition
  | _ => False
  end.

(** The calls of the metadata read of [main]. *)
Definition is_reading_call (c : call) : bool :=
  match c with
  | CReadFile _ | CC2paRead _ _ => true
  | _ => false
  end.

(** ** The rendition on disk *)

(** A successful [fs.writeFile] or [fs.copyFile] onto [path]. *)
Definition writes_rendition (path : string) (ev : event) : bool :=
  match ev_call ev with
  | CWriteFile p _ => String.eqb p path && ev_ok ev
  | CCopyFile _ dest => String.eqb dest path && ev_ok ev
  | _ => false
  end.

Fixpoint count_events (p : event -> bool) (evs : list event) : nat :=
  match evs with
  | [] => 0
  | ev :: rest => (if p ev then 1 else 0) + count_events p rest
  end.

(** The bytes of [signedAsset.buffer] in what [c2pa.sign] resolved to. *)
Definition signed_bytes (result : value) : option string :=
  match prop (prop result "signedAsset") "buffer" with
  | VBuf b => Some b
  | VStr s => Some s
  | _ => None
  end.

(** Points of a run of [main] started in [w]: the world when the signing
    step starts, the metadata in hand, how the body of the signing [try]
    ends and in which world (the one the fallback copy starts in), the
    world when the signing step ends. *)
Definition before_signing (env : Env) (source : Source) (w : World) : World :=
  fst (readSourceMetadata env source (fst (fs_stat env (source_path source) w))).

Definition source_metadata (env : Env) (source : Source) (w : World) : value :=
  match snd (readSourceMetadata env source (fst (fs_stat env (source_path source) w))) with
  | Ok metadata => metadata
  | Throw _ => VUndefined
  end.

Definition signing_result (env : Env) (source : Source) (rendition : Rendition)
    (w : World) : outcome unit :=
  snd (signAndWrite env source rendition (before_signing env source w)).

Definition before_copy (env : Env) (source : Source) (rendition : Rendition)
    (w : World) : World :=
  fst (signAndWrite env source rendition (before_signing env source w)).

Definition after_signing (env : Env) (source : Source) (rendition : Rendition)
    (w : World) : World :=
  fst (signOrCopy env source rendition (before_signing env source w)).

(** Whether the propagator gets as far as its scratch file. *)
Definition propagation_runs (rendition : Rendition) (metadata : value) : bool :=
  shouldPropagate rendition metadata
  && truthy (extractContentProvenanceActiveManifestContents metadata).

(** A write that did not succeed: nothing, or a prefix, is in place. *)
Definition partial (path : string) (w w' : World) : Prop :=
  files w' = files w
  \/ exists data n, files w' = <[path := substring 0 n data]> (files w).

(** The file at [p] is as it was. *)
Definition keeps_path (p : string) (w w' : World) : Prop := files w' !! p = files w !! p.

(** The child process never changes the file at [p]. *)
Definition cli_spares (env : Env) (p : string) : Prop :=
  forall w command, fst (child_process env w command) !! p = files w !! p.

(** The scratch file of the propagation step of [main]. *)
Definition scratch_of (env : Env) (rendition : Rendition) : string :=
  manifestPath env "/tmp" (js_or (rendition_name rendition) (VStr "rendition")).

(** If the event is a call of the library's [sign], its signer is of kind
    [k]. *)
Definition signs_as (k : signerKind) (ev : event) : Prop :=
  match ev_call ev with
  | CC2paSign s _ _ => kind_of s = k
  | _ => True
  end.

(** The event has been logged between [w] and [w']. *)
Definition logged_since (w : World) (ev : event) (w' : World) : Prop :=
  exists evs, trace w' = (evs ++ trace w)%list /\ In ev evs.

(** The log of [w'] continues the log of [w]. *)
Definition extends (w w' : World) : Prop := exists evs, trace w' = (evs ++ trace w)%list.

(** ** The CLI runs of the worker *)

(** [rendition.instructions?.c2paSignParams || {}] *)
Definition signParams_of (rendition : Rendition) : value :=
  js_or (opt_prop (rendition_instructions rendition) "c2paSignParams") (VObj []).

(** The command the propagator builds for a rendition, before the auth
    flag: the rendition is the input and the forced output. *)
Definition propagation_command (env : Env) (rendition : Rendition) : string :=
  command_variant (internal_of (signParams_of rendition)) None
    (rendition_path rendition)
    (manifestPath env "/tmp" (js_or (rendition_name rendition) (VStr "rendition"))).

Definition runs_cli_on (base : string) (ev : event) : Prop :=
  match ev_call ev with
  | CExec command => exists auth, command = base ++ auth
  | _ => True
  end.

(** ** Sample runs of the worker *)

Definition sample_source : Source :=
  mkSource "/in/photo.jpg" (VStr "photo.jpg") (VStr "image/jpeg").

(** Instructions [{}]. *)
Definition plain_rendition : Rendition :=
  mkRendition "/out/rendition.jpg" (VStr "rendition.jpg") (VObj []).

(** Instructions [{ addSourceManifest: true }]. *)
Definition propagating_rendition : Rendition :=
  mkRendition "/out/rendition.jpg" (VStr "rendition.jpg")
    (VObj [("addSourceManifest", VBool true)]).

Definition sample_metadata : value :=
  VObj [("active_manifest", VObj [("label", VStr "urn:uuid:0")])].

(** The command the propagator builds for [propagating_rendition]. *)
Definition embed_command : string :=
  "c2patool " ++ quoted "/out/rendition.jpg"
  ++ " --manifest " ++ quoted "/tmp/1700000000000.rendition.jpg.manifest.json"
  ++ " -f -o " ++ quoted "/out/rendition.jpg".

(** A CLI that does what that command asks: it rewrites the output file,
    here the rendition itself, with the manifest embedded, and prints a
    JSON report. *)
Definition sample_cli (w : World) (command : string) : gmap string string * outcome string :=
  if String.eqb command embed_command then
    match files w !! "/out/rendition.jpg" with
    | Some bytes =>
        (<["/out/rendition.jpg" := bytes ++ "+MANIFEST"]> (files w),
         Ok ("{" ++ quoted "manifest" ++ ":1}"))
    | None => (files w, Throw (SystemError "exit 1"))
    end
  else (files w, Throw (SystemError "ENOENT")).

(** The source carries a manifest and the CLI is installed. *)
Definition embedding_env : Env :=
  {| fs_verdict := fun _ _ => Proceed;
     child_process := sample_cli;
     http := fun _ _ => Throw (SystemError "ECONNREFUSED");
     c2pa_read := fun _ _ => Ok sample_metadata;
     c2pa_sign := sample_sign;
     Date_now := 1700000000000;
     JSON_parse := sample_parse;
     JSON_stringify := sample_stringify;
     trim := ascii_trim;
     toUpperCase := ascii_toUpperCase |}.

(** The same, with a signing library that fails. *)
Definition unsigned_embedding_env : Env :=
  {| fs_verdict := fun _ _ => Proceed;
     child_process := sample_cli;
     http := fun _ _ => Throw (SystemError "ECONNREFUSED");
     c2pa_read := fun _ _ => Ok sample_metadata;
     c2pa_sign := fun _ _ _ => Settled (Throw (SystemError "signing failed"));
     Date_now := 1700000000000;
     JSON_parse := sample_parse;
     JSON_stringify := sample_stringify;
     trim := ascii_trim;
     toUpperCase := ascii_toUpperCase |}.

(** No manifest on the source, no CLI, and a signing library that fails. *)
Definition unsigned_env : Env :=
  {| fs_verdict := fun _ _ => Proceed;
     child_process := fun w _ => (files w, Throw (SystemError "ENOENT"));
     http := fun _ _ => Throw (SystemError "ECONNREFUSED");
     c2pa_read := fun _ _ => Ok VNull;
     c2pa_sign := fun _ _ _ => Settled (Throw (SystemError "signing failed"));
     Date_now := 1700000000000;
     JSON_parse := sample_parse;
     JSON_stringify := sample_stringify;
     trim := ascii_trim;
     toUpperCase := ascii_toUpperCase |}.

(** Signing fails and the rendition directory is not writable. *)
Definition locked_env : Env :=
  {| fs_verdict := fun _ c =>
       match c with
       | CCopyFile _ _ | CWriteFile _ _ => Reject (SystemError "EACCES") None
       | _ => Proceed
       end;
     child_process := fun w _ => (files w, Throw (SystemError "ENOENT"));
     http := fun _ _ => Throw (SystemError "ECONNREFUSED");
     c2pa_read := fun _ _ => Ok VNull;
     c2pa_sign := fun _ _ _ => Settled (Throw (SystemError "signing failed"));
     Date_now := 1700000000000;
     JSON_parse := sample_parse;
     JSON_stringify := sample_stringify;
     trim := ascii_trim;
     toUpperCase := ascii_toUpperCase |}.

(** The CLI prints a JSON object with one key, and the scratch directory
    does not allow its files to be removed. *)
Definition sticky_env : Env :=
  {| fs_verdict := fun _ c =>
       match c with
       | CUnlink _ => Reject (SystemError "EPERM") None
       | _ => Proceed
       end;
     child_process := fun w _ => (files w, Ok ("{" ++ quoted "manifest" ++ ":1}" ++ newline));
     http := fun _ _ => Throw (SystemError "ECONNREFUSED");
     c2pa_read := fun _ _ => Ok sample_metadata;
     c2pa_sign := sample_sign;
     Date_now := 1700000000000;
     JSON_parse := sample_parse;
     JSON_stringify := sample_stringify;
     trim := ascii_trim;
     toUpperCase := ascii_toUpperCase |}.

(** Instructions [{ useLocalSigner: false }] and [{ useLocalSigner: 0 }]. *)
Definition remote_rendition : Rendition :=
  mkRendition "/out/rendition.jpg" (VStr "rendition.jpg")
    (VObj [("useLocalSigner", VBool false)]).

Definition zero_rendition : Rendition :=
  mkRendition "/out/rendition.jpg" (VStr "rendition.jpg")
    (VObj [("useLocalSigner", VNum 0)]).

(** A signing service: a size for the size request, signature bytes for
    a request with a raw body; nothing else is reachable. *)
Definition signing_service (w : World) (c : call) : outcome (option Response) :=
  match c with
  | CFetch _ _ _ NoBody =>
      Ok (Some (json_response true 200 "OK" (VObj [("boxSize", VNum 20000)])))
  | CFetch _ _ _ (RawBody _) =>
      Ok (Some (mkResponse true 200 "OK" (Throw (SystemError "invalid-json"))
                  (Ok "SIGNATURE")))
  | _ => Throw (SystemError "ECONNREFUSED")
  end.

(** Everything works, the signing service included; the source carries
    no provenance data and the CLI is not installed. *)
Definition remote_env : Env :=
  {| fs_verdict := fun _ _ => Proceed;
     child_process := fun w _ => (files w, Throw (SystemError "ENOENT"));
     http := signing_service;
     c2pa_read := fun _ _ => Ok VNull;
     c2pa_sign := sample_sign;
     Date_now := 1700000000000;
     JSON_parse := sample_parse;
     JSON_stringify := sample_stringify;
     trim := ascii_trim;
     toUpperCase := ascii_toUpperCase |}.

(** The directory of the source cannot be searched: [stat] is rejected. *)
Definition hidden_env : Env :=
  {| fs_verdict := fun _ c =>
       match c with
       | CStat _ => Reject (SystemError "EACCES") None
       | _ => Proceed
       end;
     child_process := fun w _ => (files w, Throw (SystemError "ENOENT"));
     http := fun _ _ => Throw (SystemError "ECONNREFUSED");
     c2pa_read := fun _ _ => Ok VNull;
     c2pa_sign := sample_sign;
     Date_now := 1700000000000;
     JSON_parse := sample_parse;
     JSON_stringify := sample_stringify;
     trim := ascii_trim;
     toUpperCase := ascii_toUpperCase |}.

(** A disk whose source file is empty. *)
Definition empty_source_world : World :=
  mkWorld (<["/in/photo.jpg" := EmptyString]> ∅) [].

(** The identity service answers with a token. *)
Definition granting_env : Env :=
  {| fs_verdict := fun _ _ => Proceed;
     child_process := fun w _ => (files w, Throw (SystemError "ENOENT"));
     http := fun _ _ =>
       Ok (Some (json_response true 200 "OK" (VObj [("access_token", VStr "tok-1")])));
     c2pa_read := fun _ _ => Ok VNull;
     c2pa_sign := sample_sign;
     Date_now := 1700000000000;
     JSON_parse := sample_parse;
     JSON_stringify := sample_stringify;
     trim := ascii_trim;
     toUpperCase := ascii_toUpperCase |}.

(** The identity service answers success with a body without a token. *)
Definition tokenless_env : Env :=
  {| fs_verdict := fun _ _ => Proceed;
     child_process := fun w _ => (files w, Throw (SystemError "ENOENT"));
     http := fun _ _ => Ok (Some (json_response true 200 "OK" (VObj [])));
     c2pa_read := fun _ _ => Ok VNull;
     c2pa_sign := sample_sign;
     Date_now := 1700000000000;
     JSON_parse := sample_parse;
     JSON_stringify := sample_stringify;
     trim := ascii_trim;
     toUpperCase := ascii_toUpperCase |}.

(** The transport hands back no response object. *)
Definition silent_env : Env :=
  {| fs_verdict := fun _ _ => Proceed;
     child_process := fun w _ => (files w, Throw (SystemError "ENOENT"));
     http := fun _ _ => Ok None;
     c2pa_read := fun _ _ => Ok VNull;
     c2pa_sign := sample_sign;
     Date_now := 1700000000000;
     JSON_parse := sample_parse;
     JSON_stringify := sample_stringify;
     trim := ascii_trim;
     toUpperCase := ascii_toUpperCase |}.

(** A call to the identity service or a run of the CLI. *)
Definition is_fetch_or_exec (c : call) : bool :=
  match c with CFetch _ _ _ _ | CExec _ => true | _ => false end.

(** ** Sample runs of the propagator *)

(** The rendition is already in place, as after the signing step. *)
Definition signed_world : World :=
  mkWorld (<["/out/rendition.jpg" := "C2PA+JPEGDATA"]> sample_disk) [].

(** Sign parameters [{ cleanUpTmpFiles: true }]. *)
Definition tidy_signParams : value := VObj [("cleanUpTmpFiles", VBool true)].

(** Internal tooling on the staging tier, with cleanup. *)
Definition internal_signParams : value :=
  VObj [("clientSecret", VStr "s3cret"); ("accessCode", VStr "code-1");
        ("tier", VStr "stage"); ("useInternalTooling", VBool true);
        ("cleanUpTmpFiles", VBool true)].

Definition scratch_path : string := "/tmp/1700000000000.rendition.jpg.manifest.json".

(** ** What a run of main touches *)

(** Every file but the one at [path] is as it was. *)
Definition only_touches (path : string) (w w' : World) : Prop :=
  forall p, p <> path -> files w' !! p = files w !! p.

(** The network calls of a run of [main]: a request of the remote
    signer's methods, that signer being the selected one, or the token
    request for the rendition's sign parameters. *)
Definition network_call_of (env : Env) (rendition : Rendition) (ev : event) : Prop :=
  match ev_call ev with
  | CFetch _ _ _ _ =>
      (selected_signer rendition = remote /\ signer_request (ev_call ev))
      \/ (truthy (prop (signParams_of rendition) "useInternalTooling") = true
          /\ exists host,
               identity_endpoint env (prop (signParams_of rendition) "tier") = Some host
               /\ ev_call ev = token_request host (signParams_of rendition))
  | _ => True
  end.

(** A call to the network is the token request for these sign
    parameters, made with internal tooling requested. *)
Definition token_call_only (env : Env) (signParams : value) (ev : event) : Prop :=
  match ev_call ev with
  | CFetch _ _ _ _ =>
      truthy (prop signParams "useInternalTooling") = true
      /\ exists host,
           identity_endpoint env (prop signParams "tier") = Some host
           /\ ev_call ev = token_request host signParams
  | _ => True
  end.

(** ** A run with internal tooling *)

(** The form of the token request for [internal_signParams]. *)
Definition token_form : body :=
  FormData [("grant_type", VStr "authorization_code");
            ("client_id", VStr "asset_compute_cai_integration");
            ("client_secret", VStr "s3cret"); ("code", VStr "code-1")].

(** Instructions asking for propagation with internal tooling. *)
Definition internal_rendition : Rendition :=
  mkRendition "/out/rendition.jpg" (VStr "rendition.jpg")
    (VObj [("addSourceManifest", VBool true); ("c2paSignParams", internal_signParams)]).

(** The source carries a manifest and the identity service grants a
    token; the CLI is not installed. *)
Definition internal_env : Env :=
  {| fs_verdict := fun _ _ => Proceed;
     child_process := fun w _ => (files w, Throw (SystemError "ENOENT"));
     http := fun _ _ =>
       Ok (Some (json_response true 200 "OK" (VObj [("access_token", VStr "tok-1")])));
     c2pa_read := fun _ _ => Ok sample_metadata;
     c2pa_sign := sample_sign;
     Date_now := 1700000000000;
     JSON_parse := sample_parse;
     JSON_stringify := sample_stringify;
     trim := ascii_trim;
     toUpperCase := ascii_toUpperCase |}.

(** ** The remote signer's size request *)

(** The signing service answers 404 with a JSON body that has a size. *)
Definition misrouted_env : Env :=
  {| fs_verdict := fun _ _ => Proceed;
     child_process := fun w _ => (files w, Throw (SystemError "ENOENT"));
     http := fun _ _ =>
       Ok (Some (json_response false 404 "Not Found"
                   (VObj [("boxSize", VNum 20000)])));
     c2pa_read := fun _ _ => Ok VNull;
     c2pa_sign := sample_sign;
     Date_now := 1700000000000;
     JSON_parse := sample_parse;
     JSON_stringify := sample_stringify;
     trim := ascii_trim;
     toUpperCase := ascii_toUpperCase |}.

(** * Properties *)

(** ** Command Builder *)

Lemma append_cons (c : ascii) (a b : string) : String c a ++ b = String c (a ++ b).
Proof. reflexivity. Qed.

Lemma append_nil (b : string) : EmptyString ++ b = b.
Proof. reflexivity. Qed.

Lemma append_assoc (a b c : string) : (a ++ b) ++ c = a ++ b ++ c.
Proof.
  induction a as [|x a IH]; [reflexivity|].
  rewrite !append_cons. now rewrite IH.
Qed.

Lemma append_empty_r (a : string) : a ++ EmptyString = a.
Proof.
  induction a as [|x a IH]; [reflexivity|].
  rewrite append_cons. now rewrite IH.
Qed.

Ltac string_norm :=
  repeat (rewrite append_assoc || rewrite append_cons || rewrite append_nil).

Lemma truthy_default_null v : truthy (default_param v VNull) = truthy v.
Proof. now destruct v. Qed.

Lemma toString_default_null v :
  truthy v = true -> js_toString (default_param v VNull) = js_toString v.
Proof. now destruct v. Qed.

Lemma member_not_null v k :
  v <> VNull -> member (default_param v (VObj [])) k = Ok (prop (default_param v (VObj [])) k).
Proof. destruct v; try reflexivity. intros H; now elim H. Qed.

Lemma command_variant_eq internal parent file manifest :
  command_variant internal parent file manifest =
  match internal, parent with
  | true, Some p =>
      "adobe_c2patool add-manifest --input " ++ quoted file
      ++ " --embed --config " ++ quoted manifest
      ++ " --force --output " ++ quoted file ++ " --parent " ++ quoted p
  | false, Some p =>
      "c2patool " ++ quoted file ++ " --manifest " ++ quoted manifest
      ++ " -f -o " ++ quoted file ++ " -p " ++ quoted p
  | true, None =>
      "adobe_c2patool add-manifest --input " ++ quoted file
      ++ " --embed --config " ++ quoted manifest
      ++ " --force --output " ++ quoted file
  | false, None =>
      "c2patool " ++ quoted file ++ " --manifest " ++ quoted manifest
      ++ " -f -o " ++ quoted file
  end.
Proof.
  unfold command_variant, cli_variant, parent_argument.
  destruct internal, parent; rewrite ?append_empty_r; try reflexivity;
    unfold quoted; string_norm; reflexivity.
Qed.

Lemma buildExtractionCommand_eq (file manifest : string) (parentAsset signParams : value) :
  signParams <> VNull ->
  buildExtractionCommand file manifest parentAsset signParams
  = Ok (command_variant (internal_of signParams) (parent_of parentAsset) file manifest).
Proof.
  intros Hsp.
  rewrite command_variant_eq. unfold buildExtractionCommand, internal_of, parent_of.
  rewrite (member_not_null signParams "useInternalTooling" Hsp).
  rewrite truthy_default_null.
  destruct (truthy parentAsset) eqn:Hp.
  - rewrite (toString_default_null _ Hp).
    destruct (truthy (prop (default_param signParams (VObj [])) "useInternalTooling"));
      reflexivity.
  - destruct (truthy (prop (default_param signParams (VObj [])) "useInternalTooling"));
      reflexivity.
Qed.

(** C7. For each combination of (parent asset present, internal tooling
    requested) the builder returns the matching variant: the internal CLI
    name and flag set exactly when internal tooling is requested, the
    public ones otherwise, followed by the parent argument ([--parent] or
    [-p]) exactly when a parent asset is given; with no parent asset the
    command ends at the output path.  The sign parameters are an object
    (anything but [null], on which the builder's property read throws). *)
Theorem buildExtractionCommand_variants
    (file manifest : string) (parentAsset signParams : value) :
  signParams <> VNull ->
  buildExtractionCommand file manifest parentAsset signParams
    = Ok (command_variant (internal_of signParams) (parent_of parentAsset) file manifest)
  /\ (internal_of signParams = true -> parent_of parentAsset <> None ->
      exists p rest,
        command_variant (internal_of signParams) (parent_of parentAsset) file manifest
        = "adobe_c2patool " ++ rest ++ " --parent " ++ quoted p)
  /\ (parent_of parentAsset = None ->
      command_variant (internal_of signParams) (parent_of parentAsset) file manifest
      = cli_variant (internal_of signParams) file manifest).
Proof.
  intros Hsp. split; [|split].
  - now apply buildExtractionCommand_eq.
  - intros Hi Hpar. rewrite Hi. destruct (parent_of parentAsset) as [p|]; [|congruence].
    exists p.
    exists ("add-manifest --input " ++ quoted file ++ " --embed --config "
            ++ quoted manifest ++ " --force --output " ++ quoted file).
    rewrite command_variant_eq. unfold quoted. string_norm. reflexivity.
  - intros Hn. rewrite Hn. unfold command_variant, parent_argument.
    apply append_empty_r.
Qed.

(** Parent asset and internal tooling. *)
Lemma buildExtractionCommand_variants_witness :
  buildExtractionCommand "/out/r.jpg" "/tmp/m.json" (VStr "/in/s.jpg")
      (VObj [("useInternalTooling", VBool true)])
    = Ok ("adobe_c2patool add-manifest --input " ++ quoted "/out/r.jpg"
          ++ " --embed --config " ++ quoted "/tmp/m.json"
          ++ " --force --output " ++ quoted "/out/r.jpg"
          ++ " --parent " ++ quoted "/in/s.jpg").
Proof.
  destruct (buildExtractionCommand_variants "/out/r.jpg" "/tmp/m.json" (VStr "/in/s.jpg")
              (VObj [("useInternalTooling", VBool true)])) as [H _].
  - discriminate.
  - exact H.
Defined.

(** ** Command Executor *)

Lemma executor_cases (env : Env) (command : string) (w : World) :
  exists w' v,
    executeJsonOutputCommand env command w = (w', Ok v)
    /\ executor_result env command w v.
Proof.
  unfold executor_result.
  unfold executeJsonOutputCommand, try_catch, bind, exec, ret, lift, JSON_parse_call.
  destruct (child_process env w command) as [disk [stdout|e]] eqn:Hcp.
  - destruct stdout as [|c stdout].
    + eexists _, VNull. split; [reflexivity|]. split; [congruence|].
      intros d s [= <- <-]. repeat split; auto. intros json H. now elim H.
    + destruct (trim env (String c stdout)) as [|c' t] eqn:Ht.
      * eexists _, VNull. split; [reflexivity|]. split; [congruence|].
        intros d s [= <- <-]. repeat split; auto.
        intros json _ H. rewrite Ht in H. now elim H.
      * destruct (JSON_parse env (String c' t)) as [json|] eqn:Hp.
        -- eexists _, json. split; [reflexivity|]. split; [congruence|].
           intros d s [= <- <-]. rewrite Ht, Hp.
           repeat split; congruence.
        -- eexists _, VNull. split; [reflexivity|]. split; [congruence|].
           intros d s [= <- <-]. rewrite Ht, Hp. repeat split; congruence.
  - eexists _, VNull. split; [reflexivity|]. split; [reflexivity|]. congruence.
Qed.

(** C5. Whatever the command and the state of the world, the executor
    returns and never throws; the value is [null] when the subprocess
    fails, when its stdout is empty or nothing is left of it by [trim]
    (it is only white space), and when the trimmed stdout is not JSON;
    otherwise it is the JSON value of the trimmed stdout. *)
Theorem executeJsonOutputCommand_total (env : Env) (command : string) (w : World) :
  exists w' v,
    executeJsonOutputCommand env command w = (w', Ok v)
    /\ (forall disk e, child_process env w command = (disk, Throw e) -> v = VNull)
    /\ (forall disk stdout, child_process env w command = (disk, Ok stdout) ->
          (stdout = EmptyString -> v = VNull)
          /\ (trim env stdout = EmptyString -> v = VNull)
          /\ (JSON_parse env (trim env stdout) = None -> v = VNull)
          /\ (forall json, stdout <> EmptyString -> trim env stdout <> EmptyString ->
                           JSON_parse env (trim env stdout) = Some json -> v = json)).
Proof. exact (executor_cases env command w). Qed.

(** ** The add-manifest operation *)

Lemma executor_world (env : Env) (command : string) (w w' : World) (r : outcome value) :
  executeJsonOutputCommand env command w = (w', r) ->
  files w' = fst (child_process env w command)
  /\ exists ok, trace w' = Event (CExec command) ok :: trace w.
Proof.
  unfold executeJsonOutputCommand, try_catch, bind, exec, ret, lift.
  destruct (child_process env w command) as [disk [stdout|e]].
  - destruct stdout as [|c stdout]; [intros [= <- <-]; simpl; eauto|].
    destruct (trim env (String c stdout)); [intros [= <- <-]; simpl; eauto|].
    destruct (JSON_parse_call env _); intros [= <- <-]; simpl; eauto.
  - intros [= <- <-]; simpl; eauto.
Qed.

Lemma addC2PAManifest_cases (env : Env) (file manifest : string)
    (parentAsset signParams : value) (w w' : World) (r : value) :
  addC2PAManifest env file manifest parentAsset signParams w = (w', Ok r) ->
  exists command w1 json,
    executeJsonOutputCommand env command w1 = (w', Ok json)
    /\ executor_result env command w1 json
    /\ r = (if truthy json && (0 <? length (Object_keys json))%nat then json else VNull).
Proof.
  unfold addC2PAManifest, bind, lift, try_catch.
  destruct (buildExtractionCommand _ _ _ _) as [cmd|e]; [|discriminate].
  destruct (addAuthToCommand env cmd _ w) as [w1 [final|e]]; [|discriminate].
  destruct (executor_cases env final w1) as (w2 & json & Hrun & Hres).
  rewrite Hrun. intros H. exists final, w1, json.
  destruct (truthy json && (0 <? length (Object_keys json))%nat);
    unfold ret in H; injection H as <- <-; auto.
Qed.

(** C10. When the add-manifest operation returns, the CLI run is the
    last call it logged, and it returns [null] if the CLI failed, printed
    nothing or only white space, printed something that is not JSON, or
    printed a JSON object with no key; a value other than [null] is
    returned only when it is the JSON of the trimmed stdout of the CLI
    and [Object.keys] of it is not empty. *)
Theorem addC2PAManifest_needs_keys (env : Env) (file manifest : string)
    (parentAsset signParams : value) (w w' : World) (r : value) :
  addC2PAManifest env file manifest parentAsset signParams w = (w', Ok r) ->
  exists command w1 ok,
    trace w' = Event (CExec command) ok :: trace w1
    /\ files w' = fst (child_process env w1 command)
    /\ (forall disk e, child_process env w1 command = (disk, Throw e) -> r = VNull)
    /\ (forall disk stdout, child_process env w1 command = (disk, Ok stdout) ->
          (stdout = EmptyString -> r = VNull)
          /\ (trim env stdout = EmptyString -> r = VNull)
          /\ (JSON_parse env (trim env stdout) = None -> r = VNull)
          /\ (JSON_parse env (trim env stdout) = Some (VObj []) -> r = VNull)
          /\ (r <> VNull ->
              JSON_parse env (trim env stdout) = Some r /\ Object_keys r <> [])).
Proof.
  intros H. apply addC2PAManifest_cases in H as (command & w1 & json & Hrun & [Hf Hs] & ->).
  destruct (executor_world _ _ _ _ _ Hrun) as [Hfiles [ok Htrace]].
  exists command, w1, ok. split; [exact Htrace|]. split; [exact Hfiles|]. split.
  - intros disk e Hcp. rewrite (Hf _ _ Hcp). reflexivity.
  - intros disk stdout Hcp. destruct (Hs _ _ Hcp) as (Hempty & Hws & Hnone & Hsome).
    assert (Hblank : stdout = EmptyString \/ trim env stdout = EmptyString -> json = VNull)
      by (intros [E|E]; auto).
    assert (Hdec : (stdout = EmptyString \/ trim env stdout = EmptyString)
                   \/ (stdout <> EmptyString /\ trim env stdout <> EmptyString)).
    { destruct stdout; [auto|]. destruct (trim env (String a stdout)); [auto|].
      right. split; discriminate. }
    split; [|split; [|split; [|split]]].
    + intros E. rewrite (Hempty E). reflexivity.
    + intros E. rewrite (Hws E). reflexivity.
    + intros E. rewrite (Hnone E). reflexivity.
    + intros E. destruct Hdec as [B | [N1 N2]].
      * rewrite (Hblank B). reflexivity.
      * rewrite (Hsome _ N1 N2 E). reflexivity.
    + intros Hr.
      destruct (truthy json && (0 <? length (Object_keys json))%nat) eqn:G;
        [|congruence].
      apply andb_prop in G as [_ G]. apply Nat.ltb_lt in G.
      destruct Hdec as [B | [N1 N2]].
      { rewrite (Hblank B) in Hr. congruence. }
      destruct (JSON_parse env (trim env stdout)) as [j|] eqn:P.
      * rewrite (Hsome _ N1 N2 eq_refl) in *. split; [reflexivity|].
        destruct (Object_keys j); [simpl in G; lia|discriminate].
      * rewrite (Hnone eq_refl) in Hr. congruence.
Qed.

(** The CLI prints an object with one key: it is what add-manifest returns. *)
Lemma addC2PAManifest_needs_keys_witness :
  exists command w1 ok,
    trace (fst (addC2PAManifest printing_env "/out/r.jpg" "/tmp/m.json" VNull (VObj [])
                  sample_world))
    = Event (CExec command) ok :: trace w1
    /\ files (fst (addC2PAManifest printing_env "/out/r.jpg" "/tmp/m.json" VNull (VObj [])
                     sample_world))
       = fst (child_process printing_env w1 command)
    /\ (forall disk e, child_process printing_env w1 command = (disk, Throw e) ->
                    VObj [("manifest", VNum 1)] = VNull)
    /\ (forall disk stdout, child_process printing_env w1 command = (disk, Ok stdout) ->
          (stdout = EmptyString -> VObj [("manifest", VNum 1)] = VNull)
          /\ (trim printing_env stdout = EmptyString -> VObj [("manifest", VNum 1)] = VNull)
          /\ (JSON_parse printing_env (trim printing_env stdout) = None ->
              VObj [("manifest", VNum 1)] = VNull)
          /\ (JSON_parse printing_env (trim printing_env stdout) = Some (VObj []) ->
              VObj [("manifest", VNum 1)] = VNull)
          /\ (VObj [("manifest", VNum 1)] <> VNull ->
              JSON_parse printing_env (trim printing_env stdout)
              = Some (VObj [("manifest", VNum 1)])
              /\ Object_keys (VObj [("manifest", VNum 1)]) <> [])).
Proof.
  apply (addC2PAManifest_needs_keys printing_env "/out/r.jpg" "/tmp/m.json"
           VNull (VObj []) sample_world).
  vm_compute. reflexivity.
Defined.

(** ** Token Exchange Client *)

Lemma incomplete_iff (signParams : value) :
  incomplete signParams = true <->
  truthy signParams = false
  \/ truthy (prop signParams "clientSecret") = false
  \/ truthy (prop signParams "accessCode") = false
  \/ truthy (prop signParams "tier") = false.
Proof.
  unfold incomplete.
  destruct (truthy signParams), (truthy (prop signParams "clientSecret")),
    (truthy (prop signParams "accessCode")), (truthy (prop signParams "tier"));
    simpl; intuition congruence.
Qed.

Lemma exchange_cases (env : Env) (signParams : value) (w : World) :
  exchangeServiceTokenForSignature env signParams w =
  if incomplete signParams
  then (w, Throw (Error "Incomplete C2PA signing information"))
  else match prop signParams "tier" with
       | VStr t =>
           match identity_endpoint env (VStr t) with
           | Some host => after_validation env host signParams w
           | None =>
               (w, Throw (Error ("Unable to exchange service token: " ++ t
                                 ++ " is not a valid tier (only stage or prod are supported)")))
           end
       | _ => (w, Throw (TypeError "signParams.tier.toUpperCase is not a function"))
       end.
Proof.
  unfold exchangeServiceTokenForSignature.
  destruct (incomplete signParams); [reflexivity|].
  destruct (prop signParams "tier") as [| |b|n|t|b|l|l]; try reflexivity.
  unfold bind at 1. unfold call_toUpperCase, lift, identity_endpoint, PROD_TIER, STAGE_TIER.
  destruct (String.eqb (toUpperCase env t) "PROD").
  - unfold bind at 1, ret. unfold after_validation, bind, fetch, token_request,
      AUTH_GRANT_TYPE, CLIENT_ID.
    destruct (http env w _) as [[res|]|e]; try reflexivity.
    destruct (res_ok res); reflexivity.
  - destruct (String.eqb (toUpperCase env t) "STAGE").
    + unfold bind at 1, ret. unfold after_validation, bind, fetch, token_request,
        AUTH_GRANT_TYPE, CLIENT_ID.
      destruct (http env w _) as [[res|]|e]; try reflexivity.
      destruct (res_ok res); reflexivity.
    + reflexivity.
Qed.

Lemma after_validation_trace (env : Env) (host : string) (signParams : value)
    (w w' : World) (r : outcome value) :
  after_validation env host signParams w = (w', r) ->
  files w' = files w
  /\ exists ok, trace w' = Event (token_request host signParams) ok :: trace w.
Proof.
  unfold after_validation, bind, lift, throw.
  destruct (http env w _) as [[res|]|e].
  - destruct (res_json res) as [json|e].
    + destruct (res_ok res); [|destruct (_ && _)]; intros [= <- <-]; simpl; eauto.
    + intros [= <- <-]; simpl; eauto.
  - intros [= <- <-]; simpl; eauto.
  - intros [= <- <-]; simpl; eauto.
Qed.

(** C8. A call with a missing (falsy) [signParams], [clientSecret],
    [accessCode] or [tier], and a call whose tier is not a string that
    [toUpperCase] turns into [STAGE] or [PROD], fail with the world
    untouched, so without a network call; whenever the exchange does log
    a call, the fields were present, the tier has an identity endpoint,
    and the call is the one POST to that endpoint. *)
Theorem exchange_fails_before_network (env : Env) (signParams : value) (w : World) :
  (truthy signParams = false
   \/ truthy (prop signParams "clientSecret") = false
   \/ truthy (prop signParams "accessCode") = false
   \/ truthy (prop signParams "tier") = false ->
   exchangeServiceTokenForSignature env signParams w
   = (w, Throw (Error "Incomplete C2PA signing information")))
  /\ (identity_endpoint env (prop signParams "tier") = None ->
      exists e, exchangeServiceTokenForSignature env signParams w = (w, Throw e))
  /\ (forall w' r,
        exchangeServiceTokenForSignature env signParams w = (w', r) ->
        trace w' <> trace w ->
        incomplete signParams = false
        /\ exists host ok,
             identity_endpoint env (prop signParams "tier") = Some host
             /\ trace w' = Event (token_request host signParams) ok :: trace w).
Proof.
  rewrite exchange_cases. split; [|split].
  - intros H. apply incomplete_iff in H. now rewrite H.
  - intros H. destruct (incomplete signParams); [eauto|].
    destruct (prop signParams "tier"); eauto.
    rewrite H. eauto.
  - intros w' r. destruct (incomplete signParams); [intros [= <- <-]; congruence|].
    destruct (prop signParams "tier") as [| |b|n|t|b|l|l];
      try (intros [= <- <-]; congruence).
    destruct (identity_endpoint env (VStr t)) as [host|]; [|intros [= <- <-]; congruence].
    intros H _. split; [reflexivity|].
    apply after_validation_trace in H as [_ [ok H]]. eauto.
Qed.

Lemma is_string_spec (v : value) (s : string) : is_string v s = true <-> v = VStr s.
Proof.
  destruct v; simpl; try (split; [discriminate | discriminate]).
  rewrite String.eqb_eq. split; [now intros -> | now intros [= ->]].
Qed.

Lemma rejected_guard (res : Response) (json : value) :
  (res_status res =? 400)%Z && truthy json
  && is_string (prop json "error") "invalid_client"
  && is_string (prop json "error_description") "invalid client_secret parameter" = true
  <-> credential_rejected res json.
Proof.
  unfold credential_rejected. rewrite !andb_true_iff, !is_string_spec, Z.eqb_eq.
  split.
  - intros [[[H1 _] H2] H3]. auto.
  - intros (H1 & H2 & H3). repeat split; auto.
    destruct json; simpl in H2; try discriminate. reflexivity.
Qed.

Lemma exchange_after_validation (env : Env) (signParams : value) (w : World) (host : string) :
  incomplete signParams = false ->
  identity_endpoint env (prop signParams "tier") = Some host ->
  exchangeServiceTokenForSignature env signParams w = after_validation env host signParams w.
Proof.
  intros Hi Hh. rewrite exchange_cases, Hi.
  destruct (prop signParams "tier"); try discriminate. now rewrite Hh.
Qed.

(** C9 (as the code has it).  After a POST answered by a response that is
    not a success: when the body reads as JSON, status 400 with error code
    [invalid_client] and description [invalid client_secret parameter]
    gives the credential-rejected error, and every other response gives
    the generic error made of the status, the status text and the JSON
    body; when the body does not read as JSON, the exchange fails with the
    error of the body reader. *)
Theorem exchange_error_responses (env : Env) (signParams : value) (w : World)
    (host : string) (res : Response) :
  incomplete signParams = false ->
  identity_endpoint env (prop signParams "tier") = Some host ->
  http env w (token_request host signParams) = Ok (Some res) ->
  res_ok res = false ->
  (forall json, res_json res = Ok json ->
     (credential_rejected res json ->
      snd (exchangeServiceTokenForSignature env signParams w)
      = Throw (Error "Unable to exchange service token, client_secret rejected"))
     /\ (~ credential_rejected res json ->
         snd (exchangeServiceTokenForSignature env signParams w)
         = Throw (Error ("Unable to exchange service token: "
                         ++ pretty (res_status res) ++ " " ++ res_statusText res ++ " "
                         ++ JSON_stringify env json))))
  /\ (forall e, res_json res = Throw e ->
        snd (exchangeServiceTokenForSignature env signParams w) = Throw e).
Proof.
  intros Hi Hh Hhttp Hok.
  rewrite (exchange_after_validation env signParams w host Hi Hh).
  unfold after_validation, bind, lift, throw. rewrite Hhttp, Hok. split.
  - intros json ->. split.
    + intros Hr. apply rejected_guard in Hr. now rewrite Hr.
    + intros Hr.
      destruct ((res_status res =? 400)%Z && truthy json
                && is_string (prop json "error") "invalid_client"
                && is_string (prop json "error_description")
                     "invalid client_secret parameter") eqn:G; [|reflexivity].
      apply rejected_guard in G. contradiction.
  - intros e ->. reflexivity.
Qed.

(** The identity service rejects the client secret. *)
Lemma exchange_error_responses_witness :
  snd (exchangeServiceTokenForSignature rejecting_env sample_signParams sample_world)
  = Throw (Error "Unable to exchange service token, client_secret rejected").
Proof.
  refine (proj1 (proj1 (exchange_error_responses rejecting_env sample_signParams sample_world
                   AUTH_STAGE_ENDPOINT
                   (json_response false 400 "Bad Request" rejection_body)
                   eq_refl eq_refl eq_refl eq_refl) rejection_body eq_refl) _).
  repeat split.
Defined.

(** C9, the claim as stated fails: a 502 whose body is not JSON is a
    non-success response other than the credential rejection, and the
    exchange fails with the body reader's rejection, which is not the
    generic error and carries neither status nor status text. *)
Lemma exchange_non_json_error_body :
  http gateway_env sample_world (token_request AUTH_STAGE_ENDPOINT sample_signParams)
  = Ok (Some (mkResponse false 502 "Bad Gateway" (Throw (SystemError "invalid-json"))
                (Ok "<html>Bad Gateway</html>")))
  /\ snd (exchangeServiceTokenForSignature gateway_env sample_signParams sample_world)
     = Throw (SystemError "invalid-json")
  /\ (forall msg,
        snd (exchangeServiceTokenForSignature gateway_env sample_signParams sample_world)
        <> Throw (Error msg)).
Proof.
  split; [reflexivity|]. split; [reflexivity|].
  intros msg. vm_compute. discriminate.
Qed.

(** ** Footprints *)

Section Footprints.

Context (R : World -> World -> Prop) {Hrefl : Reflexive R} {Htrans : Transitive R}.

Lemma respects_ret {A} (a : A) : respects R (ret a).
Proof. intros w w' r [= <- <-]. reflexivity. Qed.

Lemma respects_throw {A} (e : error) : respects R (@throw A e).
Proof. intros w w' r [= <- <-]. reflexivity. Qed.

Lemma respects_lift {A} (o : outcome A) : respects R (lift o).
Proof. intros w w' r [= <- <-]. reflexivity. Qed.

Lemma respects_bind {A B} (m : M A) (k : A -> M B) :
  respects R m -> (forall a, respects R (k a)) -> respects R (bind m k).
Proof.
  intros Hm Hk w w' r. unfold bind.
  destruct (m w) as [w1 [a|e]] eqn:E.
  - intros H. transitivity w1; [eapply Hm | eapply Hk]; eauto.
  - intros [= <- <-]. eapply Hm; eauto.
Qed.

Lemma respects_try_catch {A} (m : M A) (h : error -> M A) :
  respects R m -> (forall e, respects R (h e)) -> respects R (try_catch m h).
Proof.
  intros Hm Hh w w' r. unfold try_catch.
  destruct (m w) as [w1 [a|e]] eqn:E.
  - intros [= <- <-]. eapply Hm; eauto.
  - intros H. transitivity w1; [eapply Hm | eapply Hh]; eauto.
Qed.

Lemma respects_settle {A} (m : M A) : respects R m -> respects R (settle m).
Proof.
  intros Hm w w' r. unfold settle. destruct (m w) as [w1 o] eqn:E.
  intros [= <- <-]. eapply Hm; eauto.
Qed.

End Footprints.

#[local] Instance grows_refl (Q : event -> Prop) : Reflexive (grows Q).
Proof. intros w. exists []. split; [reflexivity | constructor]. Qed.

#[local] Instance grows_trans (Q : event -> Prop) : Transitive (grows Q).
Proof.
  intros w1 w2 w3 (e1 & H1 & F1) (e2 & H2 & F2). exists (e2 ++ e1)%list. split.
  - rewrite H2, H1. now rewrite app_assoc.
  - apply Forall_app; auto.
Qed.

#[local] Instance keeps_files_refl : Reflexive keeps_files.
Proof. intros w. reflexivity. Qed.

#[local] Instance keeps_files_trans : Transitive keeps_files.
Proof. intros w1 w2 w3 H1 H2. unfold keeps_files in *. congruence. Qed.

Lemma grows_mono (Q Q' : event -> Prop) (w w' : World) :
  (forall ev, Q ev -> Q' ev) -> grows Q w w' -> grows Q' w w'.
Proof.
  intros H (evs & E & F). exists evs. split; [exact E|].
  eapply Forall_impl; eauto.
Qed.

Lemma grows_one (Q : event -> Prop) (c : call) (ok : bool) (w w' : World) :
  Q (Event c ok) -> trace w' = Event c ok :: trace w -> grows Q w w'.
Proof. intros H E. exists [Event c ok]. split; [exact E | repeat constructor; exact H]. Qed.

Section Primitives.

Variable env : Env.
Variable Q : event -> Prop.

Lemma fs_stat_grows path :
  (forall ok, Q (Event (CStat path) ok)) -> respects (grows Q) (fs_stat env path).
Proof.
  intros HQ w w' r. unfold fs_stat.
  destruct (fs_verdict env w _); [destruct (files w !! path)|];
    intros [= <- <-]; eapply grows_one; eauto; reflexivity.
Qed.

Lemma readFile_grows path :
  (forall ok, Q (Event (CReadFile path) ok)) -> respects (grows Q) (readFile env path).
Proof.
  intros HQ w w' r. unfold readFile.
  destruct (fs_verdict env w _); [destruct (files w !! path)|];
    intros [= <- <-]; eapply grows_one; eauto; reflexivity.
Qed.

Lemma write_bytes_grows c path data :
  (forall ok, Q (Event c ok)) -> respects (grows Q) (write_bytes env c path data).
Proof.
  intros HQ w w' r. unfold write_bytes.
  destruct (fs_verdict env w _) as [|e [n|]];
    intros [= <- <-]; eapply grows_one; eauto; reflexivity.
Qed.

Lemma fs_writeFile_grows path data :
  (forall bytes ok, Q (Event (CWriteFile path bytes) ok)) ->
  respects (grows Q) (fs_writeFile env path data).
Proof.
  intros HQ. destruct data; simpl;
    try apply respects_throw; try apply write_bytes_grows; auto; typeclasses eauto.
Qed.

Lemma fs_copyFile_grows src dest :
  (forall ok, Q (Event (CCopyFile src dest) ok)) ->
  respects (grows Q) (fs_copyFile env src dest).
Proof.
  intros HQ w w' r. unfold fs_copyFile. destruct (files w !! src).
  - apply write_bytes_grows; auto.
  - intros [= <- <-]. eapply grows_one; eauto; reflexivity.
Qed.

Lemma fse_writeJson_grows path obj :
  (forall ok, Q (Event (CWriteJson path obj) ok)) ->
  respects (grows Q) (fse_writeJson env path obj).
Proof. intros HQ. apply write_bytes_grows; auto. Qed.

Lemma fse_unlink_grows path :
  (forall ok, Q (Event (CUnlink path) ok)) -> respects (grows Q) (fse_unlink env path).
Proof.
  intros HQ w w' r. unfold fse_unlink.
  destruct (fs_verdict env w _); [destruct (files w !! path)|];
    intros [= <- <-]; eapply grows_one; eauto; reflexivity.
Qed.

Lemma exec_grows command :
  (forall ok, Q (Event (CExec command) ok)) -> respects (grows Q) (exec env command).
Proof.
  intros HQ w w' r. unfold exec.
  destruct (child_process env w command) as [disk [out|e]];
    intros [= <- <-]; eapply grows_one; eauto; reflexivity.
Qed.

Lemma fetch_grows url method headers b :
  (forall ok, Q (Event (CFetch url method headers b) ok)) ->
  respects (grows Q) (fetch env url method headers b).
Proof.
  intros HQ w w' r. unfold fetch.
  destruct (http env w _); intros [= <- <-]; eapply grows_one; eauto; reflexivity.
Qed.

Lemma c2pa_read_call_grows buffer mimeType :
  (forall ok, Q (Event (CC2paRead buffer mimeType) ok)) ->
  respects (grows Q) (c2pa_read_call env buffer mimeType).
Proof.
  intros HQ w w' r. unfold c2pa_read_call.
  destruct (c2pa_read env _ _); intros [= <- <-]; eapply grows_one; eauto; reflexivity.
Qed.

Lemma reserveSize_grows :
  (forall ev, signer_request (ev_call ev) -> Q ev) -> respects (grows Q) (reserveSize env).
Proof.
  intros HQ. unfold reserveSize. cbv zeta.
  apply respects_bind; try typeclasses eauto.
  - apply fetch_grows. intros ok. apply HQ. now left.
  - intros [res|]; [|apply respects_throw; typeclasses eauto].
    apply respects_bind; try typeclasses eauto; [|intro];
      apply respects_lift; typeclasses eauto.
Qed.

Lemma remoteSign_grows args :
  (forall ev, signer_request (ev_call ev) -> Q ev) -> respects (grows Q) (remoteSign env args).
Proof.
  intros HQ. unfold remoteSign.
  apply respects_bind; try typeclasses eauto; [apply respects_lift; typeclasses eauto|].
  intros size.
  apply respects_bind; try typeclasses eauto; [apply respects_lift; typeclasses eauto|].
  intros toBeSigned. cbv zeta.
  apply respects_bind; try typeclasses eauto.
  - apply fetch_grows. intros ok. apply HQ. right. eauto.
  - intros [res|]; [|apply respects_throw; typeclasses eauto].
    apply respects_bind; try typeclasses eauto;
      [apply respects_lift | intro; apply respects_ret]; typeclasses eauto.
Qed.

Lemma drive_grows s p :
  (s = RemoteSigner -> forall ev, signer_request (ev_call ev) -> Q ev) ->
  respects (grows Q) (drive env s p).
Proof.
  intros HQ. induction p as [result|k IH|args k IH]; simpl.
  - apply respects_lift. typeclasses eauto.
  - intros w w' r. destruct (signer_reserveSize env s w) as [w1 r1] eqn:E. intros H.
    transitivity w1; [|eapply IH; eauto].
    destruct s; simpl in E.
    + injection E as <- _. reflexivity.
    + eapply reserveSize_grows; eauto.
  - intros w w' r. destruct (signer_sign env s args w) as [w1 r1] eqn:E. intros H.
    transitivity w1; [|eapply IH; eauto].
    destruct s; simpl in E.
    + injection E as <- _. reflexivity.
    + eapply remoteSign_grows; eauto.
Qed.

Lemma c2pa_sign_call_grows s asset manifest :
  (forall ok, Q (Event (CC2paSign s asset manifest) ok)) ->
  (s = RemoteSigner -> forall ev, signer_request (ev_call ev) -> Q ev) ->
  respects (grows Q) (c2pa_sign_call env s asset manifest).
Proof.
  intros HQ Hreq w w' r. unfold c2pa_sign_call.
  destruct (drive env s _ w) as [w1 [v|e]] eqn:E; intros [= <- <-];
    (transitivity w1; [eapply drive_grows; eauto|]);
    eapply grows_one; eauto; reflexivity.
Qed.

End Primitives.

Create HintDb footprint discriminated.

Ltac footprint :=
  repeat first
    [ solve [ auto 1 with footprint nocore ]
    | apply respects_ret | apply respects_throw | apply respects_lift
    | apply respects_bind | apply respects_try_catch | apply respects_settle
    | apply fs_stat_grows | apply readFile_grows | apply fs_writeFile_grows
    | apply fs_copyFile_grows | apply fse_writeJson_grows | apply fse_unlink_grows
    | apply exec_grows | apply fetch_grows | apply c2pa_read_call_grows
    | typeclasses eauto
    | match goal with
      | |- respects _ (if ?b then _ else _) => destruct b
      | |- respects _ (match ?x with _ => _ end) => destruct x
      | |- respects _ (let _ := _ in _) => cbv zeta
      | |- forall _, _ => intro
      end ].

Section PropagationFootprint.

Variable env : Env.

Section AnyEvents.

Variable Q : event -> Prop.
Hypothesis Qfetch :
  forall url method headers form ok, Q (Event (CFetch url method headers (FormData form)) ok).

Lemma exchange_events signParams :
  respects (grows Q) (exchangeServiceTokenForSignature env signParams).
Proof. unfold exchangeServiceTokenForSignature. footprint; auto. Qed.

Lemma addAuthToCommand_events command signParams :
  respects (grows Q) (addAuthToCommand env command signParams).
Proof. unfold addAuthToCommand. footprint; auto using exchange_events. Qed.

Lemma executeJsonOutputCommand_events command :
  (forall ok, Q (Event (CExec command) ok)) ->
  respects (grows Q) (executeJsonOutputCommand env command).
Proof. intros Qexec. unfold executeJsonOutputCommand. footprint; auto. Qed.

End AnyEvents.

Lemma executeJsonOutputCommand_calls command :
  respects (grows propagating) (executeJsonOutputCommand env command).
Proof. apply executeJsonOutputCommand_events. reflexivity. Qed.

#[local] Hint Resolve executeJsonOutputCommand_calls : footprint.

Lemma exchange_calls signParams :
  respects (grows propagating) (exchangeServiceTokenForSignature env signParams).
Proof. apply exchange_events. reflexivity. Qed.

#[local] Hint Resolve exchange_calls : footprint.

Lemma addAuthToCommand_calls command signParams :
  respects (grows propagating) (addAuthToCommand env command signParams).
Proof. apply addAuthToCommand_events. reflexivity. Qed.

#[local] Hint Resolve addAuthToCommand_calls : footprint.

Lemma addC2PAManifest_calls file manifest parentAsset signParams :
  respects (grows propagating) (addC2PAManifest env file manifest parentAsset signParams).
Proof.
  unfold addC2PAManifest.
  footprint; try reflexivity;
    auto using addAuthToCommand_calls, executeJsonOutputCommand_calls.
Qed.

#[local] Hint Resolve addC2PAManifest_calls : footprint.

Lemma addAssetManifestToRendition_calls metadata path name tmpDir signParams :
  respects (grows propagating)
    (addAssetManifestToRendition env metadata path name tmpDir signParams).
Proof.
  unfold addAssetManifestToRendition.
  footprint; try reflexivity;
    auto using addC2PAManifest_calls, addAuthToCommand_calls,
      executeJsonOutputCommand_calls.
Qed.

#[local] Hint Resolve addAssetManifestToRendition_calls : footprint.

Lemma propagateSourceManifest_calls rendition metadata :
  respects (grows propagating) (propagateSourceManifest env rendition metadata).
Proof.
  unfold propagateSourceManifest.
  footprint; try reflexivity;
    auto using addAssetManifestToRendition_calls, addC2PAManifest_calls,
      addAuthToCommand_calls, executeJsonOutputCommand_calls.
Qed.

End PropagationFootprint.

Section SigningFootprint.

Variable env : Env.

Lemma read_calls path mimeType :
  respects (grows (fun ev => is_reading_call (ev_call ev) = true)) (read env path mimeType).
Proof. unfold read. footprint; reflexivity. Qed.

#[local] Hint Resolve read_calls : footprint.

Lemma readSourceMetadata_calls source :
  respects (grows (fun ev => is_reading_call (ev_call ev) = true))
           (readSourceMetadata env source).
Proof. unfold readSourceMetadata. footprint; try reflexivity; auto using read_calls. Qed.

Lemma createSigner_kind k w w' s :
  createSigner env k w = (w', Ok s) -> kind_of s = k.
Proof.
  destruct k; simpl.
  - unfold createLocalSigner, bind, settle, lift, ret.
    destruct (readFile env _ w) as [w1 [c|e]];
      destruct (readFile env _ w1) as [w2 [c'|e']]; intros [= <- <-]; reflexivity.
  - intros [= <- <-]. reflexivity.
Qed.

Lemma createSigner_events k (Q : event -> Prop) :
  (forall path ok, Q (Event (CReadFile path) ok)) ->
  respects (grows Q) (createSigner env k).
Proof. intros HQ. destruct k; simpl; [unfold createLocalSigner|]; footprint; auto. Qed.

Lemma remote_kind s : kind_of s = remote <-> s = RemoteSigner.
Proof. destruct s; simpl; split; congruence. Qed.

(** The calls of [sign]: reads while the signer is made, then the
    library's call with a signer of the kind asked for, the requests of
    the remote signer's methods coming only with that signer. *)
Lemma sign_events asset manifest useLocalSigner (Q : event -> Prop) :
  (forall path ok, Q (Event (CReadFile path) ok)) ->
  (forall s ok, kind_of s = selectSigner (default_param useLocalSigner (VBool false)) ->
                Q (Event (CC2paSign s asset manifest) ok)) ->
  (selectSigner (default_param useLocalSigner (VBool false)) = remote ->
   forall ev, signer_request (ev_call ev) -> Q ev) ->
  respects (grows Q) (sign env asset manifest useLocalSigner).
Proof.
  intros Hread Hsign Hreq. unfold sign. cbv zeta.
  intros w w' r. unfold bind at 1.
  destruct (createSigner env _ w) as [w1 [s|e]] eqn:Hs.
  - intros H. transitivity w1.
    + eapply createSigner_events; eauto.
    + revert H. apply createSigner_kind in Hs.
      generalize w1 w' r. apply respects_bind; try typeclasses eauto.
      * apply c2pa_sign_call_grows; [intros ok; now apply Hsign|].
        intros ->. apply Hreq. now rewrite <- Hs.
      * intros result. footprint.
  - intros [= <- <-]. eapply createSigner_events; eauto.
Qed.

Lemma sign_calls source rendition asset manifest :
  respects (grows (signing_event source rendition))
           (sign env asset manifest (useLocalSigner_of rendition)).
Proof.
  apply sign_events.
  - intros path ok. exact I.
  - intros s ok Hk. exact Hk.
  - intros Hk [c ok] Hc. simpl in Hc. unfold signing_event. simpl.
    destruct Hc as [-> | (size & bytes & ->)]; (split; [exact Hk|]); [now left|].
    right. eauto.
Qed.

#[local] Hint Resolve sign_calls : footprint.

Lemma signAndWrite_calls source rendition :
  respects (grows (signing_event source rendition)) (signAndWrite env source rendition).
Proof.
  unfold signAndWrite.
  footprint; try exact I; try reflexivity; auto using sign_calls.
Qed.

#[local] Hint Resolve signAndWrite_calls : footprint.

Lemma signOrCopy_calls source rendition :
  respects (grows (signing_event source rendition)) (signOrCopy env source rendition).
Proof.
  unfold signOrCopy.
  footprint; try exact I; try reflexivity; try (split; reflexivity);
    auto using signAndWrite_calls.
Qed.

End SigningFootprint.

(** ** Worker entry point: validation *)

Lemma fs_stat_keeps env path : respects keeps_files (fs_stat env path).
Proof.
  intros w w' r. unfold fs_stat.
  destruct (fs_verdict env w _); [destruct (files w !! path)|];
    intros [= <- <-]; reflexivity.
Qed.

Lemma readSourceMetadata_keeps env source : respects keeps_files (readSourceMetadata env source).
Proof.
  intros w w' r. unfold readSourceMetadata, try_catch, read, bind, readFile,
    c2pa_read_call, ret.
  destruct (fs_verdict env w _); [destruct (files w !! _)|];
    try (intros [= <- <-]; reflexivity).
  destruct (c2pa_read env _ _); intros [= <- <-]; reflexivity.
Qed.

Lemma readSourceMetadata_total env source w :
  exists w' metadata, readSourceMetadata env source w = (w', Ok metadata).
Proof.
  unfold readSourceMetadata, try_catch.
  destruct (read env _ _ w) as [w' [v|e]]; unfold ret; eauto.
Qed.

(** C3. When the source file has size zero, the entry point throws
    [SourceCorruptError] right after the [stat]: that call is the only one
    logged, the disk is untouched (no rendition is written), and nothing
    else of the worker runs. *)
Theorem main_empty_source (env : Env) (source : Source) (rendition : Rendition)
    (w : World) (content : string) :
  fs_verdict env w (CStat (source_path source)) = Proceed ->
  files w !! source_path source = Some content ->
  String.length content = 0 ->
  main env source rendition w
  = (mkWorld (files w) (Event (CStat (source_path source)) true :: trace w),
     Throw (SourceCorruptError "source file is empty")).
Proof.
  intros Hv Hf Hlen. unfold main, bind, fs_stat. rewrite Hv, Hf. simpl. rewrite Hlen.
  reflexivity.
Qed.

(** An empty source file on an otherwise healthy system. *)
Lemma main_empty_source_witness :
  main quiet_env sample_source plain_rendition empty_source_world
  = (mkWorld (files empty_source_world) [Event (CStat "/in/photo.jpg") true],
     Throw (SourceCorruptError "source file is empty")).
Proof.
  exact (main_empty_source quiet_env sample_source plain_rendition empty_source_world
           EmptyString eq_refl eq_refl eq_refl).
Defined.

(** ** Manifest propagation *)

Lemma shouldPropagate_iff (rendition : Rendition) (metadata : value) :
  shouldPropagate rendition metadata = true <->
  opt_prop (rendition_instructions rendition) "addSourceManifest" = VBool true
  /\ truthy metadata = true.
Proof.
  unfold shouldPropagate, js_and.
  destruct (opt_prop (rendition_instructions rendition) "addSourceManifest")
    as [| |[|]|n|s|b|l|l]; simpl; try (split; [discriminate | intros [H _]; discriminate]).
  split; [now intros H | now intros [_ H]].
Qed.

Lemma propagate_skipped (env : Env) (rendition : Rendition) (metadata : value) (w : World) :
  shouldPropagate rendition metadata = false ->
  propagateSourceManifest env rendition metadata w = (w, Ok tt).
Proof. intros H. unfold propagateSourceManifest, try_catch. now rewrite H. Qed.

Lemma propagate_total (env : Env) (rendition : Rendition) (metadata : value) (w : World) :
  exists w', propagateSourceManifest env rendition metadata w = (w', Ok tt).
Proof.
  unfold propagateSourceManifest, try_catch.
  match goal with |- context [?m w] => destruct (m w) as [w' [[]|e]] end;
    unfold ret; eauto.
Qed.

Lemma addAssetManifestToRendition_total (env : Env) (metadata : value) (path : string)
    (name : value) (tmpDir : string) (signParams : value) (w : World) :
  exists w' v,
    addAssetManifestToRendition env metadata path name tmpDir signParams w = (w', Ok v).
Proof.
  unfold addAssetManifestToRendition.
  destruct (negb (truthy metadata)); [unfold ret; eauto|].
  unfold try_catch at 1.
  match goal with |- context [?m w] => destruct (m w) as [w' [v|e]] end;
    unfold ret; eauto.
Qed.

Lemma quiet_not_propagating (evs : list event) (ev : event) :
  Forall quiet evs -> In ev evs -> propagating ev -> False.
Proof.
  intros F Hin Hp. rewrite Forall_forall in F.
  apply list_elem_of_In in Hin. specialize (F ev Hin).
  unfold quiet, propagating in *. congruence.
Qed.

Lemma reading_quiet (ev : event) : is_reading_call (ev_call ev) = true -> quiet ev.
Proof. unfold quiet. destruct ev as [[] ok]; simpl; congruence. Qed.

Lemma signer_request_quiet (c : call) : signer_request c -> is_propagation_call c = false.
Proof. intros [-> | (size & bytes & ->)]; reflexivity. Qed.

Lemma signing_quiet source rendition (ev : event) :
  signing_event source rendition ev -> quiet ev.
Proof.
  unfold quiet, signing_event. destruct ev as [c ok]. simpl.
  destruct c; try reflexivity; try tauto.
  intros [_ H]. now apply signer_request_quiet.
Qed.

(** Steps 1 to 3 of [main]. *)
Lemma main_steps (env : Env) (source : Source) (rendition : Rendition)
    (w w' : World) (r : outcome unit) :
  main env source rendition w = (w', r) ->
  (grows quiet w w' /\ r <> Ok tt)
  \/ exists stats w1 w2 metadata w3,
       fs_stat env (source_path source) w = (w1, Ok stats) /\ size stats <> 0
       /\ readSourceMetadata env source w1 = (w2, Ok metadata)
       /\ signOrCopy env source rendition w2 = (w3, Ok tt)
       /\ propagateSourceManifest env rendition metadata w3 = (w', r)
       /\ grows quiet w w3.
Proof.
  unfold main. unfold bind at 1.
  destruct (fs_stat env (source_path source) w) as [w1 [stats|e]] eqn:Hstat.
  2:{ intros [= <- <-]. left. split; [|discriminate].
      eapply fs_stat_grows; [|exact Hstat]. reflexivity. }
  assert (G1 : grows quiet w w1).
  { eapply fs_stat_grows; [|exact Hstat]. reflexivity. }
  destruct (size stats =? 0)%nat eqn:Hsize.
  { intros [= <- <-]. left. split; [exact G1 | discriminate]. }
  apply Nat.eqb_neq in Hsize.
  unfold bind at 1.
  destruct (readSourceMetadata_total env source w1) as (w2 & metadata & Hread).
  rewrite Hread.
  assert (G2 : grows quiet w1 w2).
  { eapply grows_mono; [apply reading_quiet|].
    eapply readSourceMetadata_calls; exact Hread. }
  unfold bind at 1.
  destruct (signOrCopy env source rendition w2) as [w3 [[]|e]] eqn:Hsign.
  - intros H. right. exists stats, w1, w2, metadata, w3.
    repeat split; auto.
    transitivity w1; [exact G1|]. transitivity w2; [exact G2|].
    eapply grows_mono; [apply (signing_quiet source rendition)|].
    eapply signOrCopy_calls; exact Hsign.
  - intros [= <- <-]. left. split; [|discriminate].
    transitivity w1; [exact G1|]. transitivity w2; [exact G2|].
    eapply grows_mono; [apply (signing_quiet source rendition)|].
    eapply signOrCopy_calls; exact Hsign.
Qed.

Lemma addAsset_writeJson_fails (env : Env) (metadata : value) (path : string)
    (name : value) (tmpDir : string) (signParams : value) (w w1 : World) (e : error) :
  truthy metadata = true ->
  truthy (extractContentProvenanceActiveManifestContents metadata) = true ->
  fse_writeJson env (manifestPath env tmpDir name)
    (extractContentProvenanceActiveManifestContents metadata) w = (w1, Throw e) ->
  addAssetManifestToRendition env metadata path name tmpDir signParams w = (w1, Ok VNull).
Proof.
  intros Hm Hc Hw. unfold addAssetManifestToRendition. rewrite Hm. simpl.
  unfold try_catch at 1. cbv zeta. rewrite Hc. simpl.
  unfold bind at 1. rewrite Hw. reflexivity.
Qed.

Lemma addAsset_addManifest_fails (env : Env) (metadata : value) (path : string)
    (name : value) (tmpDir : string) (signParams : value) (w w1 w2 : World) (e : error) :
  truthy metadata = true ->
  truthy (extractContentProvenanceActiveManifestContents metadata) = true ->
  fse_writeJson env (manifestPath env tmpDir name)
    (extractContentProvenanceActiveManifestContents metadata) w = (w1, Ok tt) ->
  addC2PAManifest env path (manifestPath env tmpDir name) VNull signParams w1
    = (w2, Throw e) ->
  addAssetManifestToRendition env metadata path name tmpDir signParams w = (w2, Ok VNull).
Proof.
  intros Hm Hc Hw Ha. unfold addAssetManifestToRendition. rewrite Hm. simpl.
  unfold try_catch at 1. cbv zeta. rewrite Hc. simpl.
  unfold bind at 1. rewrite Hw. unfold bind at 1. rewrite Ha. reflexivity.
Qed.

Lemma addAsset_addManifest_returns (env : Env) (metadata : value) (path : string)
    (name : value) (tmpDir : string) (signParams : value) (w w1 w2 : World)
    (added : value) :
  truthy metadata = true ->
  truthy (extractContentProvenanceActiveManifestContents metadata) = true ->
  fse_writeJson env (manifestPath env tmpDir name)
    (extractContentProvenanceActiveManifestContents metadata) w = (w1, Ok tt) ->
  addC2PAManifest env path (manifestPath env tmpDir name) VNull signParams w1
    = (w2, Ok added) ->
  addAssetManifestToRendition env metadata path name tmpDir signParams w
  = (if truthy signParams && is_true (prop signParams "cleanUpTmpFiles")
     then fst (fse_unlink env (manifestPath env tmpDir name) w2)
     else w2,
     Ok added).
Proof.
  intros Hm Hc Hw Ha. unfold addAssetManifestToRendition. rewrite Hm. simpl.
  unfold try_catch at 1. cbv zeta. rewrite Hc. simpl.
  unfold bind at 1. rewrite Hw. unfold bind at 1. rewrite Ha.
  unfold try_catch, bind, ret.
  destruct (truthy signParams && is_true (prop signParams "cleanUpTmpFiles")).
  - destruct (fse_unlink env _ w2) as [w3 [[]|e]]; reflexivity.
  - reflexivity.
Qed.

Lemma main_propagation_gated (env : Env) (source : Source) (rendition : Rendition)
    (w w' : World) (r : outcome unit) (evs : list event) (ev : event) :
  main env source rendition w = (w', r) ->
  trace w' = (evs ++ trace w)%list ->
  In ev evs -> propagating ev ->
  opt_prop (rendition_instructions rendition) "addSourceManifest" = VBool true
  /\ exists stats w1 w2 metadata,
       fs_stat env (source_path source) w = (w1, Ok stats)
       /\ readSourceMetadata env source w1 = (w2, Ok metadata)
       /\ truthy metadata = true.
Proof.
  intros Hmain Htr Hin Hp.
  apply main_steps in Hmain as [[(evs0 & E & F) _] | Hright].
  - rewrite Htr in E. apply app_inv_tail in E. subst evs0.
    exfalso. eapply quiet_not_propagating; eauto.
  - destruct Hright as (stats & w1 & w2 & metadata & w3 & Hstat & _ & Hread & _ & Hprop & G).
    destruct (shouldPropagate rendition metadata) eqn:Hgate.
    + apply shouldPropagate_iff in Hgate as [Hflag Hmd].
      split; [exact Hflag|]. eauto 10.
    + rewrite (propagate_skipped _ _ _ _ Hgate) in Hprop. injection Hprop as <- <-.
      destruct G as (evs0 & E & F). rewrite Htr in E. apply app_inv_tail in E. subst evs0.
      exfalso. eapply quiet_not_propagating; eauto.
Qed.

(** C4 (as the code has it).  Propagation is gated: unless
    [addSourceManifest === true] and the metadata read gave a truthy
    value, the propagation step leaves the world as it is (no scratch
    file, no call), and a run of [main] that logs a scratch-file write, a
    CLI run, a token request or an unlink had the flag set and metadata
    in hand.  Propagation is best effort: the propagator always returns
    and so does the propagation step of [main].  What the propagator
    returns after an exception depends on where it was thrown: [null]
    when writing the scratch file or adding the manifest throws; the
    result of add-manifest, as if nothing had happened, when the cleanup
    [unlink] throws. *)
Theorem propagation_gated_and_best_effort (env : Env) (source : Source)
    (rendition : Rendition) :
  (forall metadata w,
      ~ (opt_prop (rendition_instructions rendition) "addSourceManifest" = VBool true
         /\ truthy metadata = true) ->
      propagateSourceManifest env rendition metadata w = (w, Ok tt))
  /\ (forall w w' r evs ev,
        main env source rendition w = (w', r) ->
        trace w' = (evs ++ trace w)%list ->
        In ev evs -> propagating ev ->
        opt_prop (rendition_instructions rendition) "addSourceManifest" = VBool true
        /\ exists stats w1 w2 metadata,
             fs_stat env (source_path source) w = (w1, Ok stats)
             /\ readSourceMetadata env source w1 = (w2, Ok metadata)
             /\ truthy metadata = true)
  /\ (forall metadata path name tmpDir signParams w,
        exists w' v,
          addAssetManifestToRendition env metadata path name tmpDir signParams w
          = (w', Ok v))
  /\ (forall metadata path name tmpDir signParams w w1 e,
        truthy metadata = true ->
        truthy (extractContentProvenanceActiveManifestContents metadata) = true ->
        fse_writeJson env (manifestPath env tmpDir name)
          (extractContentProvenanceActiveManifestContents metadata) w = (w1, Throw e) ->
        addAssetManifestToRendition env metadata path name tmpDir signParams w
        = (w1, Ok VNull))
  /\ (forall metadata path name tmpDir signParams w w1 w2 e,
        truthy metadata = true ->
        truthy (extractContentProvenanceActiveManifestContents metadata) = true ->
        fse_writeJson env (manifestPath env tmpDir name)
          (extractContentProvenanceActiveManifestContents metadata) w = (w1, Ok tt) ->
        addC2PAManifest env path (manifestPath env tmpDir name) VNull signParams w1
          = (w2, Throw e) ->
        addAssetManifestToRendition env metadata path name tmpDir signParams w
        = (w2, Ok VNull))
  /\ (forall metadata path name tmpDir signParams w w1 w2 added,
        truthy metadata = true ->
        truthy (extractContentProvenanceActiveManifestContents metadata) = true ->
        fse_writeJson env (manifestPath env tmpDir name)
          (extractContentProvenanceActiveManifestContents metadata) w = (w1, Ok tt) ->
        addC2PAManifest env path (manifestPath env tmpDir name) VNull signParams w1
          = (w2, Ok added) ->
        (truthy signParams && is_true (prop signParams "cleanUpTmpFiles") = false ->
         addAssetManifestToRendition env metadata path name tmpDir signParams w
         = (w2, Ok added))
        /\ (truthy signParams && is_true (prop signParams "cleanUpTmpFiles") = true ->
            forall w3 cleanup,
              fse_unlink env (manifestPath env tmpDir name) w2 = (w3, cleanup) ->
              addAssetManifestToRendition env metadata path name tmpDir signParams w
              = (w3, Ok added)))
  /\ (forall metadata w,
        exists w', propagateSourceManifest env rendition metadata w = (w', Ok tt)).
Proof.
  split; [|split; [|split; [|split; [|split; [|split]]]]].
  - intros metadata w Hgate. apply propagate_skipped.
    destruct (shouldPropagate rendition metadata) eqn:E; [|reflexivity].
    apply shouldPropagate_iff in E. contradiction.
  - intros w w' r evs ev. apply main_propagation_gated.
  - intros. apply addAssetManifestToRendition_total.
  - intros. eapply addAsset_writeJson_fails; eauto.
  - intros. eapply addAsset_addManifest_fails; eauto.
  - intros metadata path name tmpDir signParams w w1 w2 added Hm Hc Hw Ha.
    rewrite (addAsset_addManifest_returns _ _ _ _ _ _ _ _ _ _ Hm Hc Hw Ha).
    split; intros G; rewrite G; [reflexivity|].
    intros w3 cleanup Hu. now rewrite Hu.
  - intros. apply propagate_total.
Qed.

(** C4, the claim as stated fails.  Cleanup is requested and the
    operating system refuses the [unlink] of the scratch file: that is an
    exception in the propagator's sequence, yet the propagator returns
    the object the CLI printed, not [null], and the scratch file stays. *)
Lemma propagator_returns_manifest_when_unlink_throws :
  hd_error (trace (fst (addAssetManifestToRendition sticky_env sample_metadata
                          "/out/rendition.jpg" (VStr "rendition.jpg") "/tmp"
                          tidy_signParams signed_world)))
  = Some (Event (CUnlink scratch_path) false)
  /\ snd (addAssetManifestToRendition sticky_env sample_metadata
            "/out/rendition.jpg" (VStr "rendition.jpg") "/tmp" tidy_signParams
            signed_world)
     = Ok (VObj [("manifest", VNum 1)])
  /\ VObj [("manifest", VNum 1)] <> VNull
  /\ files (fst (addAssetManifestToRendition sticky_env sample_metadata
                   "/out/rendition.jpg" (VStr "rendition.jpg") "/tmp" tidy_signParams
                   signed_world)) !! scratch_path
     = Some (sample_stringify (VObj [("label", VStr "urn:uuid:0")]) ++ newline).
Proof.
  split; [vm_compute; reflexivity|]. split; [vm_compute; reflexivity|].
  split; [discriminate | vm_compute; reflexivity].
Qed.

(** ** Signing step *)

Lemma readFile_keeps env path : respects keeps_files (readFile env path).
Proof.
  intros w w' r. unfold readFile.
  destruct (fs_verdict env w _); [destruct (files w !! path)|];
    intros [= <- <-]; reflexivity.
Qed.

Lemma readFile_ok env path w w' content :
  readFile env path w = (w', Ok content) -> files w !! path = Some content.
Proof.
  unfold readFile. destruct (fs_verdict env w _); [destruct (files w !! path)|];
    intros [= <- <-]; reflexivity.
Qed.

Lemma readFile_run env path w content :
  fs_verdict env w (CReadFile path) = Proceed ->
  files w !! path = Some content ->
  readFile env path w = (record (CReadFile path) true w, Ok content).
Proof. intros Hv Hf. unfold readFile. now rewrite Hv, Hf. Qed.

Lemma fetch_keeps env url method headers b :
  respects keeps_files (fetch env url method headers b).
Proof.
  intros w w' r. unfold fetch. destruct (http env w _); intros [= <- <-]; reflexivity.
Qed.

Ltac keeps :=
  repeat first
    [ apply fetch_keeps | apply readFile_keeps
    | apply respects_bind | apply respects_lift | apply respects_settle
    | apply respects_ret | apply respects_throw | typeclasses eauto
    | match goal with
      | |- respects _ (if ?b then _ else _) => destruct b
      | |- respects _ (match ?x with _ => _ end) => destruct x
      | |- respects _ (let _ := _ in _) => cbv zeta
      | |- forall _, _ => intro
      end ].

Lemma reserveSize_keeps env : respects keeps_files (reserveSize env).
Proof. unfold reserveSize. keeps. Qed.

Lemma remoteSign_keeps env args : respects keeps_files (remoteSign env args).
Proof. unfold remoteSign. keeps. Qed.

Lemma drive_keeps env s p : respects keeps_files (drive env s p).
Proof.
  induction p as [result|k IH|args k IH]; simpl.
  - apply respects_lift. typeclasses eauto.
  - intros w w' r. destruct (signer_reserveSize env s w) as [w1 r1] eqn:E. intros H.
    transitivity w1; [|eapply IH; eauto].
    destruct s; simpl in E; [injection E as <- _; reflexivity|].
    eapply reserveSize_keeps; eauto.
  - intros w w' r. destruct (signer_sign env s args w) as [w1 r1] eqn:E. intros H.
    transitivity w1; [|eapply IH; eauto].
    destruct s; simpl in E; [injection E as <- _; reflexivity|].
    eapply remoteSign_keeps; eauto.
Qed.

Lemma c2pa_sign_call_keeps env s asset manifest :
  respects keeps_files (c2pa_sign_call env s asset manifest).
Proof.
  intros w w' r. unfold c2pa_sign_call.
  destruct (drive env s _ w) as [w1 [v|e]] eqn:E; intros [= <- <-];
    (transitivity w1; [eapply drive_keeps; eauto | reflexivity]).
Qed.

(** The log of the library's [sign]: the call itself, logged last, and
    before it requests of the signer's methods, which only the remote
    signer has. *)
Lemma c2pa_sign_call_trace env s asset manifest w w' r :
  c2pa_sign_call env s asset manifest w = (w', r) ->
  exists ok evs,
    trace w' = (Event (CC2paSign s asset manifest) ok :: evs ++ trace w)%list
    /\ Forall (fun ev => s = RemoteSigner /\ signer_request (ev_call ev)) evs.
Proof.
  unfold c2pa_sign_call.
  destruct (drive env s _ w) as [w1 [v|e]] eqn:E; intros [= <- <-];
    (destruct (drive_grows env (fun ev => s = RemoteSigner /\ signer_request (ev_call ev))
                 s _ (fun Hs ev Hr => conj Hs Hr) _ _ _ E) as (evs & Ht & F));
    eexists _, evs; simpl; rewrite Ht; auto.
Qed.

Lemma createSigner_keeps env k : respects keeps_files (createSigner env k).
Proof. destruct k; simpl; [unfold createLocalSigner|]; keeps. Qed.

Lemma sign_keeps env asset manifest useLocalSigner :
  respects keeps_files (sign env asset manifest useLocalSigner).
Proof.
  unfold sign. cbv zeta.
  repeat first [ apply createSigner_keeps | apply c2pa_sign_call_keeps
               | apply respects_bind | apply respects_lift
               | apply respects_ret | typeclasses eauto | intro ].
Qed.

(** [sign] changes the world through the making of the signer and the
    library's call, in that order, and through nothing else. *)
Lemma sign_world env asset manifest useLocalSigner w w1 s :
  createSigner env (selectSigner (default_param useLocalSigner (VBool false))) w
  = (w1, Ok s) ->
  fst (sign env asset manifest useLocalSigner w)
  = fst (c2pa_sign_call env s asset manifest w1).
Proof.
  intros Hs. unfold sign. cbv zeta. unfold bind at 1. rewrite Hs.
  unfold bind at 1.
  destruct (c2pa_sign_call env s asset manifest w1) as [w2 [result|e]]; [|reflexivity].
  unfold bind, lift, ret.
  destruct (member result "signedAsset"); [|reflexivity].
  destruct (member result "signedManifest"); reflexivity.
Qed.

Lemma sign_ok env asset manifest useLocalSigner w w' signed :
  sign env asset manifest useLocalSigner w = (w', Ok signed) ->
  exists s w1 result,
    c2pa_sign_call env s asset manifest w1 = (w', Ok result)
    /\ nullish result = false
    /\ kind_of s = selectSigner (default_param useLocalSigner (VBool false))
    /\ signed = VObj [("signedAsset", prop result "signedAsset");
                      ("signedManifest", prop result "signedManifest")].
Proof.
  unfold sign. cbv zeta. unfold bind at 1.
  destruct (createSigner env _ w) as [w1 [s|e]] eqn:Hs; [|discriminate].
  apply createSigner_kind in Hs.
  unfold bind at 1.
  destruct (c2pa_sign_call env s asset manifest w1) as [w2 [result|e]] eqn:Hr;
    [|discriminate].
  unfold bind, lift, member, ret.
  destruct (nullish result) eqn:Hn; [discriminate|].
  intros [= <- <-]. exists s, w1, result. auto.
Qed.

Lemma fs_writeFile_cases env path v w w' r :
  fs_writeFile env path v w = (w', r) ->
  (exists data,
      r = Ok tt /\ (v = VBuf data \/ v = VStr data)
      /\ files w' = <[path := data]> (files w)
      /\ trace w' = Event (CWriteFile path data) true :: trace w)
  \/ (exists e,
        r = Throw e /\ partial path w w'
        /\ grows (fun ev => writes_rendition path ev = false) w w').
Proof.
  unfold fs_writeFile, partial.
  destruct v as [| |b0|n0|data|data|l|l];
    try (intros [= <- <-]; right; eexists; split; [reflexivity|];
         split; [now left | reflexivity]);
    unfold write_bytes; destruct (fs_verdict env w _) as [|e [n|]]; intros [= <- <-];
    try (left; exists data; simpl; now auto);
    right; exists e; (split; [reflexivity|]);
    (split; [first [now left | right; simpl; now eauto]|]);
    (eapply grows_one; [|reflexivity]); apply andb_false_r.
Qed.

Lemma signer_request_not_write path (ev : event) :
  signer_request (ev_call ev) -> writes_rendition path ev = false.
Proof.
  unfold writes_rendition. intros [-> | (size & bytes & ->)]; reflexivity.
Qed.

Lemma sign_not_write env asset manifest useLocalSigner path :
  respects (grows (fun ev => writes_rendition path ev = false))
           (sign env asset manifest useLocalSigner).
Proof.
  apply sign_events.
  - reflexivity.
  - reflexivity.
  - intros _ ev. apply signer_request_not_write.
Qed.

Lemma count_events_app p (a b : list event) :
  count_events p (a ++ b)%list = count_events p a + count_events p b.
Proof. induction a as [|x a IH]; simpl; [reflexivity | rewrite IH; lia]. Qed.

Lemma count_events_none p (evs : list event) :
  Forall (fun ev => p ev = false) evs -> count_events p evs = 0.
Proof. induction 1 as [|x l Hx _ IH]; simpl; [reflexivity | now rewrite Hx, IH]. Qed.

Lemma partial_trans_keeps path w w1 w2 :
  keeps_files w w1 -> partial path w1 w2 -> partial path w w2.
Proof. unfold keeps_files, partial. intros ->. auto. Qed.

Lemma member_signed (signedAsset signedManifest : value) :
  member (VObj [("signedAsset", signedAsset); ("signedManifest", signedManifest)])
         "signedAsset" = Ok signedAsset.
Proof. reflexivity. Qed.

Lemma signAndWrite_cases env source rendition w w' r :
  signAndWrite env source rendition w = (w', r) ->
  (exists buffer s w1 w2 result data evs,
      r = Ok tt
      /\ files w !! source_path source = Some buffer
      /\ c2pa_sign_call env s (asset_of source buffer) (manifestDefinition source) w1
         = (w2, Ok result)
      /\ kind_of s = selected_signer rendition
      /\ signed_bytes result = Some data
      /\ files w' = <[rendition_path rendition := data]> (files w)
      /\ trace w' = (Event (CWriteFile (rendition_path rendition) data) true
                     :: evs ++ trace w)%list
      /\ Forall (fun ev => writes_rendition (rendition_path rendition) ev = false) evs)
  \/ (exists e,
        r = Throw e
        /\ partial (rendition_path rendition) w w'
        /\ grows (fun ev => writes_rendition (rendition_path rendition) ev = false) w w').
Proof.
  set (Q := fun ev => writes_rendition (rendition_path rendition) ev = false).
  unfold signAndWrite. unfold bind at 1.
  destruct (readFile env (source_path source) w) as [wa [buffer|e]] eqn:Hread.
  2:{ intros [= <- <-]. right. exists e. split; [reflexivity|]. split.
      - left. eapply readFile_keeps; eauto.
      - eapply (readFile_grows env Q); [|exact Hread]. reflexivity. }
  assert (Ka : keeps_files w wa) by (eapply readFile_keeps; eauto).
  assert (Ga : grows Q w wa).
  { eapply (readFile_grows env Q); [|exact Hread]. reflexivity. }
  apply readFile_ok in Hread.
  cbv zeta. unfold bind at 1.
  destruct (sign env _ _ _ wa) as [wb [signed|e]] eqn:Hsign.
  2:{ intros [= <- <-]. right. exists e. split; [reflexivity|]. split.
      - left. transitivity (files wa); [|exact Ka]. eapply sign_keeps; eauto.
      - transitivity wa; [exact Ga|]. eapply sign_not_write; eauto. }
  assert (Kb : keeps_files w wb).
  { transitivity wa; [exact Ka|]. eapply sign_keeps; eauto. }
  assert (Gb : grows Q w wb).
  { transitivity wa; [exact Ga|]. eapply sign_not_write; eauto. }
  apply sign_ok in Hsign as (s & w1 & result & Hres & _ & Hkind & Hsigned). subst signed.
  unfold bind at 1, lift at 1. rewrite member_signed.
  unfold bind at 1, lift at 1, member.
  destruct (nullish (prop result "signedAsset")) eqn:Hn.
  { intros [= <- <-]. right. eexists. split; [reflexivity|]. split; [now left | exact Gb]. }
  intros Hw. apply fs_writeFile_cases in Hw as [(data & -> & Hv & Hf & Ht) | (e & -> & Hp & G)].
  - left. destruct Gb as (evs & E & F).
    exists buffer, s, w1, wb, result, data, evs. repeat split; auto.
    + unfold signed_bytes. destruct Hv as [-> | ->]; reflexivity.
    + rewrite Hf. now rewrite Kb.
    + rewrite Ht, E. reflexivity.
  - right. exists e. split; [reflexivity|]. split.
    + eapply partial_trans_keeps; eauto.
    + transitivity wb; [exact Gb | exact G].
Qed.

Lemma fs_copyFile_run env src dest w bytes :
  files w !! src = Some bytes ->
  fs_copyFile env src dest w
  = match fs_verdict env w (CCopyFile src dest) with
    | Proceed => (record (CCopyFile src dest) true (store dest bytes w), Ok tt)
    | Reject e written =>
        (record (CCopyFile src dest) false (leftover dest bytes written w), Throw e)
    end.
Proof. intros H. unfold fs_copyFile, write_bytes. now rewrite H. Qed.

Lemma writes_rendition_copy src path : writes_rendition path (Event (CCopyFile src path) true) = true.
Proof. unfold writes_rendition. simpl. now rewrite String.eqb_refl. Qed.

Lemma writes_rendition_write path data :
  writes_rendition path (Event (CWriteFile path data) true) = true.
Proof. unfold writes_rendition. simpl. now rewrite String.eqb_refl. Qed.

(** The source file when the body of the signing [try] has thrown: it is
    still there, and untouched unless it is the rendition itself. *)
Lemma partial_source path src w w' content :
  partial path w w' ->
  files w !! src = Some content ->
  exists bytes,
    files w' !! src = Some bytes
    /\ (src <> path ->
        bytes = content /\ <[path := content]> (files w') = <[path := content]> (files w)).
Proof.
  intros [Hp | (data & n & Hp)] Hs; rewrite Hp.
  - exists content. split; [exact Hs|]. auto.
  - destruct (decide (path = src)) as [E|N].
    + subst path. exists (substring 0 n data). split; [apply lookup_insert_eq|].
      intros Hne. now elim Hne.
    + exists content. split; [now rewrite lookup_insert_ne|].
      intros _. split; [reflexivity | apply insert_insert_eq].
Qed.

(** The signing step of [main], case by case: the body succeeds; it
    throws and the copy goes through; it throws and the copy is
    rejected. *)
Lemma signOrCopy_cases env source rendition w content :
  files w !! source_path source = Some content ->
  exists evs,
    trace (fst (signAndWrite env source rendition w)) = (evs ++ trace w)%list
    /\ Forall (fun ev => writes_rendition (rendition_path rendition) ev = false)
              (match snd (signAndWrite env source rendition w) with
               | Ok _ => tl evs
               | Throw _ => evs
               end)
    /\ match snd (signAndWrite env source rendition w) with
       | Ok _ =>
           signOrCopy env source rendition w
           = (fst (signAndWrite env source rendition w), Ok tt)
           /\ exists s w1 w2 result data,
                c2pa_sign_call env s (asset_of source content) (manifestDefinition source) w1
                = (w2, Ok result)
                /\ kind_of s = selected_signer rendition
                /\ signed_bytes result = Some data
                /\ hd_error evs = Some (Event (CWriteFile (rendition_path rendition) data) true)
                /\ files (fst (signAndWrite env source rendition w))
                   = <[rendition_path rendition := data]> (files w)
       | Throw _ =>
           exists bytes,
             files (fst (signAndWrite env source rendition w)) !! source_path source
             = Some bytes
             /\ (source_path source <> rendition_path rendition ->
                 bytes = content
                 /\ <[rendition_path rendition := content]>
                      (files (fst (signAndWrite env source rendition w)))
                    = <[rendition_path rendition := content]> (files w))
             /\ signOrCopy env source rendition w
                = fs_copyFile env (source_path source) (rendition_path rendition)
                    (fst (signAndWrite env source rendition w))
       end.
Proof.
  intros Hsrc. unfold signOrCopy, try_catch.
  destruct (signAndWrite env source rendition w) as [w1 r1] eqn:Hsw. simpl.
  destruct (signAndWrite_cases _ _ _ _ _ _ Hsw)
    as [(buffer & s & wa & wb & result & data & evs & -> & Hb & Hres & Hk & Hd & Hf & Ht & F)
       | (e & -> & Hp & (evs & Ht & F))].
  - rewrite Hsrc in Hb. injection Hb as <-.
    exists (Event (CWriteFile (rendition_path rendition) data) true :: evs).
    split; [exact Ht|]. split; [exact F|]. split; [reflexivity|].
    exists s, wa, wb, result, data. auto.
  - exists evs. split; [exact Ht|]. split; [exact F|].
    destruct (partial_source _ _ _ _ _ Hp Hsrc) as (bytes & Hb & Hne).
    exists bytes. auto.
Qed.

(** ** Worker entry point: the run on a source that is not empty *)

Lemma fs_stat_run env path w content :
  fs_verdict env w (CStat path) = Proceed ->
  files w !! path = Some content ->
  fs_stat env path w = (record (CStat path) true w, Ok (mkStats (String.length content))).
Proof. intros Hv Hf. unfold fs_stat. now rewrite Hv, Hf. Qed.

Lemma reading_not_write path (ev : event) :
  is_reading_call (ev_call ev) = true -> writes_rendition path ev = false.
Proof. unfold writes_rendition. destruct ev as [[] ok]; simpl; congruence. Qed.

Lemma propagating_not_write path (ev : event) :
  propagating ev -> writes_rendition path ev = false.
Proof. unfold propagating, writes_rendition. destruct ev as [[] ok]; simpl; congruence. Qed.

(** On a source that [stat] finds and that is not empty, [main] is its
    signing step followed, when that step returns, by the propagation
    step; the disk reaches the signing step as it was. *)
Lemma main_nonempty env source rendition w content :
  fs_verdict env w (CStat (source_path source)) = Proceed ->
  files w !! source_path source = Some content ->
  String.length content <> 0 ->
  files (before_signing env source w) = files w
  /\ grows (fun ev => writes_rendition (rendition_path rendition) ev = false)
           w (before_signing env source w)
  /\ main env source rendition w
     = match signOrCopy env source rendition (before_signing env source w) with
       | (w3, Ok _) =>
           propagateSourceManifest env rendition (source_metadata env source w) w3
       | (w3, Throw e) => (w3, Throw e)
       end.
Proof.
  intros Hv Hf Hlen. unfold before_signing, source_metadata, main.
  rewrite (fs_stat_run _ _ _ _ Hv Hf). simpl fst.
  destruct (readSourceMetadata_total env source (record (CStat (source_path source)) true w))
    as (w2 & metadata & Hread).
  split; [|split].
  - rewrite Hread. simpl. transitivity (files (record (CStat (source_path source)) true w));
      [|reflexivity]. eapply readSourceMetadata_keeps; eauto.
  - rewrite Hread. simpl.
    transitivity (record (CStat (source_path source)) true w).
    + eapply grows_one; [|reflexivity]. reflexivity.
    + eapply grows_mono; [apply reading_not_write|].
      eapply readSourceMetadata_calls; eauto.
  - assert (E : (String.length content =? 0)%nat = false) by now apply Nat.eqb_neq.
    unfold bind at 1. rewrite (fs_stat_run _ _ _ _ Hv Hf). cbn [size]. rewrite E.
    unfold bind at 1. rewrite Hread. simpl.
    unfold bind. destruct (signOrCopy env source rendition w2) as [w3 [[]|e]]; reflexivity.
Qed.

(** ** Signer selection *)

Lemma respects_mono {A} (Q Q' : event -> Prop) (m : M A) :
  (forall ev, Q ev -> Q' ev) -> respects (grows Q) m -> respects (grows Q') m.
Proof. intros H Hm w w' r E. eapply grows_mono; [exact H|]. eapply Hm; eauto. Qed.

Lemma main_calls (env : Env) (source : Source) (rendition : Rendition) (Q : event -> Prop) :
  (forall ok, Q (Event (CStat (source_path source)) ok)) ->
  (forall ev, is_reading_call (ev_call ev) = true -> Q ev) ->
  (forall ev, signing_event source rendition ev -> Q ev) ->
  (forall metadata, respects (grows Q) (propagateSourceManifest env rendition metadata)) ->
  respects (grows Q) (main env source rendition).
Proof.
  intros Hstat Hread Hsign Hprop. unfold main.
  apply respects_bind; try typeclasses eauto.
  - apply fs_stat_grows. exact Hstat.
  - intros stats. destruct (size stats =? 0)%nat.
    + apply respects_throw. typeclasses eauto.
    + apply respects_bind; try typeclasses eauto.
      * eapply respects_mono; [exact Hread | apply readSourceMetadata_calls].
      * intros metadata. apply respects_bind; try typeclasses eauto.
        -- eapply respects_mono; [exact Hsign | apply signOrCopy_calls].
        -- intros _. apply Hprop.
Qed.

Lemma signing_signs_as source rendition (ev : event) :
  signing_event source rendition ev -> signs_as (selected_signer rendition) ev.
Proof. unfold signs_as, signing_event. destruct ev as [[] ok]; simpl; tauto. Qed.

Lemma main_signs_as env source rendition :
  respects (grows (signs_as (selected_signer rendition))) (main env source rendition).
Proof.
  apply main_calls.
  - intros ok. exact I.
  - intros [[] ok]; simpl; try discriminate; intros _; exact I.
  - apply signing_signs_as.
  - intros metadata. eapply respects_mono; [|apply propagateSourceManifest_calls].
    intros [[] ok]; unfold propagating; simpl; try discriminate; intros _; exact I.
Qed.

Lemma selected_remote_iff (rendition : Rendition) :
  selected_signer rendition = remote <->
  nullish (opt_prop (rendition_instructions rendition) "useLocalSigner") = false
  /\ truthy (opt_prop (rendition_instructions rendition) "useLocalSigner") = false.
Proof.
  unfold selected_signer, useLocalSigner_of, selectSigner, js_coalesce.
  destruct (opt_prop (rendition_instructions rendition) "useLocalSigner")
    as [| |[|]|n|s|b|l|l]; simpl;
    try (split; [discriminate | intros [H1 H2]; discriminate]);
    try (split; [auto | reflexivity]).
  - destruct (n =? 0)%Z; simpl;
      [split; [auto | reflexivity] | split; [discriminate | intros [_ H]; discriminate]].
  - destruct s; simpl;
      [split; [auto | reflexivity] | split; [discriminate | intros [_ H]; discriminate]].
Qed.

Lemma grows_extends Q w w' : grows Q w w' -> extends w w'.
Proof. intros (evs & E & _). exists evs. exact E. Qed.

Lemma logged_later w ev w1 w2 : logged_since w ev w1 -> extends w1 w2 -> logged_since w ev w2.
Proof.
  intros (evs & E & Hin) (evs' & E'). exists (evs' ++ evs)%list. split.
  - rewrite E', E. apply app_assoc.
  - apply in_or_app. now right.
Qed.

Lemma logged_earlier w0 w ev w' : extends w0 w -> logged_since w ev w' -> logged_since w0 ev w'.
Proof.
  intros (evs0 & E0) (evs & E & Hin). exists (evs ++ evs0)%list. split.
  - rewrite E, E0. apply app_assoc.
  - apply in_or_app. now left.
Qed.

Lemma respects_extends {A} (Q : event -> Prop) (m : M A) w :
  respects (grows Q) m -> extends w (fst (m w)).
Proof.
  intros H. destruct (m w) as [w' r] eqn:E. simpl. eapply grows_extends, H, E.
Qed.

Lemma createLocalSigner_run env w certificate privateKey :
  (forall w0 path, fs_verdict env w0 (CReadFile path) = Proceed) ->
  files w !! "./certs/certificate.pem" = Some certificate ->
  files w !! "./certs/private-key.pem" = Some privateKey ->
  exists w1,
    createLocalSigner env w
    = (w1, Ok (LocalSigner certificate privateKey "ES256" "http://timestamp.digicert.com"))
    /\ files w1 = files w.
Proof.
  intros Hos Hc Hk. unfold createLocalSigner, bind, settle, lift, ret.
  rewrite (readFile_run _ _ _ _ (Hos _ _) Hc).
  rewrite (readFile_run env "./certs/private-key.pem"
             (record (CReadFile "./certs/certificate.pem") true w) privateKey (Hos _ _) Hk).
  eexists. split; reflexivity.
Qed.

(** Once the source is read and the signer is made, the body of the
    signing [try] hands that signer to the library, with the bytes of the
    source as the asset. *)
Lemma signAndWrite_hands_signer env source rendition w content s :
  fs_verdict env w (CReadFile (source_path source)) = Proceed ->
  files w !! source_path source = Some content ->
  (exists w1, createSigner env (selected_signer rendition)
                (record (CReadFile (source_path source)) true w) = (w1, Ok s)) ->
  exists ok,
    logged_since w (Event (CC2paSign s (asset_of source content) (manifestDefinition source)) ok)
      (fst (signAndWrite env source rendition w)).
Proof.
  intros Hv Hf [w1 Hs].
  destruct (c2pa_sign_call env s (asset_of source content) (manifestDefinition source) w1)
    as [w2 r2] eqn:Hcall.
  destruct (c2pa_sign_call_trace _ _ _ _ _ _ _ Hcall) as (ok & evs & Ht & _).
  exists ok.
  assert (E1 : extends w w1).
  { destruct (createSigner_events env (selected_signer rendition) (fun _ => True)
                (fun _ _ => I) _ _ _ Hs) as (evs1 & E & _).
    exists (evs1 ++ [Event (CReadFile (source_path source)) true])%list.
    rewrite E. simpl. now rewrite <- app_assoc. }
  assert (L2 : logged_since w
                 (Event (CC2paSign s (asset_of source content) (manifestDefinition source)) ok)
                 w2).
  { apply (logged_earlier w w1); [exact E1|].
    exists (Event (CC2paSign s (asset_of source content) (manifestDefinition source)) ok
            :: evs).
    split; [exact Ht | now left]. }
  assert (Hw2 : fst (sign env (asset_of source content) (manifestDefinition source)
                       (useLocalSigner_of rendition)
                       (record (CReadFile (source_path source)) true w)) = w2).
  { rewrite (sign_world _ _ _ _ _ _ _ Hs). now rewrite Hcall. }
  unfold signAndWrite. unfold bind at 1. rewrite (readFile_run _ _ _ _ Hv Hf). cbv zeta.
  unfold bind at 1.
  destruct (sign env _ _ _ _) as [wd [signed|e]] eqn:Hsign; simpl in Hw2; subst wd.
  - eapply logged_later; [exact L2|].
    apply (respects_extends (fun _ => True)). footprint; exact I.
  - exact L2.
Qed.

Lemma signOrCopy_extends env source rendition w :
  extends (fst (signAndWrite env source rendition w)) (fst (signOrCopy env source rendition w)).
Proof.
  unfold signOrCopy, try_catch.
  destruct (signAndWrite env source rendition w) as [w1 [[]|e]]; simpl.
  - exists []. reflexivity.
  - apply (respects_extends (fun _ => True)). apply fs_copyFile_grows. intros; exact I.
Qed.

(** The same for a run of [main] on a source that is not empty. *)
Lemma main_hands_signer env source rendition w content s :
  (forall w0 path, fs_verdict env w0 (CReadFile path) = Proceed) ->
  fs_verdict env w (CStat (source_path source)) = Proceed ->
  files w !! source_path source = Some content ->
  String.length content <> 0 ->
  (forall wa, files wa = files w ->
              exists w1, createSigner env (selected_signer rendition) wa = (w1, Ok s)) ->
  exists ok,
    logged_since w (Event (CC2paSign s (asset_of source content) (manifestDefinition source)) ok)
      (fst (main env source rendition w)).
Proof.
  intros Hos Hv Hf Hlen Hs.
  destruct (main_nonempty env source rendition w content Hv Hf Hlen) as (Hfiles & G0 & Hmain).
  assert (Hf2 : files (before_signing env source w) !! source_path source = Some content)
    by now rewrite Hfiles.
  destruct (signAndWrite_hands_signer env source rendition (before_signing env source w)
              content s (Hos _ _) Hf2 (Hs (record (CReadFile (source_path source)) true (before_signing env source w)) Hfiles)) as [ok L].
  exists ok. apply (logged_earlier w (before_signing env source w));
    [eapply grows_extends; exact G0|].
  eapply logged_later; [exact L|].
  destruct (signOrCopy_extends env source rendition (before_signing env source w))
    as (evs1 & E1).
  rewrite Hmain.
  destruct (signOrCopy env source rendition (before_signing env source w)) as [w3 [[]|e]];
    simpl in E1.
  - destruct (propagateSourceManifest env rendition _ w3) as [w4 r4] eqn:Hp. simpl.
    destruct (propagateSourceManifest_calls _ _ _ _ _ _ Hp) as (evs2 & E2 & _).
    exists (evs2 ++ evs1)%list. rewrite E2, E1. apply app_assoc.
  - simpl. exists evs1. exact E1.
Qed.

(** C6 (as the code has it).  When [useLocalSigner] is omitted
    ([undefined] or [null], or no instruction bag at all) the worker
    selects the local signer.  It selects the remote signer exactly when
    the flag is present and falsy: [false], but also [0] or the empty
    string; for a boolean flag, exactly when it is [false].  The selected
    signer is the one a run hands to the library: every [c2pa.sign] call
    of a run of [main] is made with a signer of the selected kind; and on
    a source that is not empty and can be read, the run does call
    [c2pa.sign] on the bytes of the source, with the local signer made of
    the two credential files when local is selected and they can be
    read, with the remote signer when remote is selected. *)
Theorem local_signer_by_default (env : Env) (source : Source) (rendition : Rendition) :
  (nullish (opt_prop (rendition_instructions rendition) "useLocalSigner") = true ->
   selected_signer rendition = local)
  /\ (selected_signer rendition = remote <->
      nullish (opt_prop (rendition_instructions rendition) "useLocalSigner") = false
      /\ truthy (opt_prop (rendition_instructions rendition) "useLocalSigner") = false)
  /\ (forall b, opt_prop (rendition_instructions rendition) "useLocalSigner" = VBool b ->
                (selected_signer rendition = remote <-> b = false))
  /\ (forall w w' r evs s asset manifest ok,
        main env source rendition w = (w', r) ->
        trace w' = (evs ++ trace w)%list ->
        In (Event (CC2paSign s asset manifest) ok) evs ->
        kind_of s = selected_signer rendition)
  /\ (forall w content,
        (forall w0 path, fs_verdict env w0 (CReadFile path) = Proceed) ->
        fs_verdict env w (CStat (source_path source)) = Proceed ->
        files w !! source_path source = Some content ->
        String.length content <> 0 ->
        (selected_signer rendition = local ->
         forall certificate privateKey,
           files w !! "./certs/certificate.pem" = Some certificate ->
           files w !! "./certs/private-key.pem" = Some privateKey ->
           exists evs ok,
             trace (fst (main env source rendition w)) = (evs ++ trace w)%list
             /\ In (Event (CC2paSign
                             (LocalSigner certificate privateKey "ES256"
                                "http://timestamp.digicert.com")
                             (asset_of source content) (manifestDefinition source)) ok) evs)
        /\ (selected_signer rendition = remote ->
            exists evs ok,
              trace (fst (main env source rendition w)) = (evs ++ trace w)%list
              /\ In (Event (CC2paSign RemoteSigner
                              (asset_of source content) (manifestDefinition source)) ok) evs)).
Proof.
  split; [|split; [|split; [|split]]].
  - unfold selected_signer, useLocalSigner_of, selectSigner, js_coalesce.
    intros H. now rewrite H.
  - apply selected_remote_iff.
  - intros b Hb. rewrite selected_remote_iff, Hb. destruct b; simpl; intuition congruence.
  - intros w w' r evs s asset manifest ok Hmain Htr Hin.
    destruct (main_signs_as _ _ _ _ _ _ Hmain) as (evs0 & E & F).
    rewrite Htr in E. apply app_inv_tail in E. subst evs0.
    rewrite Forall_forall in F. apply list_elem_of_In in Hin.
    exact (F _ Hin).
  - intros w content Hos Hv Hf Hlen. split.
    + intros Hsel certificate privateKey Hc Hk.
      destruct (main_hands_signer env source rendition w content
                  (LocalSigner certificate privateKey "ES256" "http://timestamp.digicert.com")
                  Hos Hv Hf Hlen) as (ok & evs & E & Hin).
      * intros wa Hwa. rewrite Hsel. simpl.
        destruct (createLocalSigner_run env wa certificate privateKey Hos) as (w1 & H1 & _);
          [now rewrite Hwa | now rewrite Hwa | eauto].
      * eauto.
    + intros Hsel.
      destruct (main_hands_signer env source rendition w content RemoteSigner
                  Hos Hv Hf Hlen) as (ok & evs & E & Hin).
      * intros wa _. rewrite Hsel. simpl. eauto.
      * eauto.
Qed.

(** C6, the claim as stated fails.  Instructions [{ useLocalSigner: 0 }]:
    the flag is not [false], yet the worker selects the remote signer and
    hands it to the library, whose calls of the signer's two methods
    reach the signing service. *)
Lemma remote_signer_without_false :
  opt_prop (rendition_instructions zero_rendition) "useLocalSigner" = VNum 0
  /\ selected_signer zero_rendition = remote
  /\ main remote_env sample_source zero_rendition sample_world
     = (mkWorld (<["/out/rendition.jpg" := "C2PA+JPEGDATA"]> sample_disk)
          [Event (CWriteFile "/out/rendition.jpg" "C2PA+JPEGDATA") true;
           Event (CC2paSign RemoteSigner (asset_of sample_source "JPEGDATA")
                    (manifestDefinition sample_source)) true;
           Event (CFetch "https://my.signing.service/sign?boxSize=20000" "POST"
                    [("Content-Type", "application/octet-stream")]
                    (RawBody (VBuf "JPEGDATA"))) true;
           Event (CFetch "https://my.signing.service/box-size" "GET" [] NoBody) true;
           Event (CReadFile "/in/photo.jpg") true;
           Event (CC2paRead "JPEGDATA" (VStr "image/jpeg")) true;
           Event (CReadFile "/in/photo.jpg") true;
           Event (CStat "/in/photo.jpg") true],
        Ok tt).
Proof. repeat split; vm_compute; reflexivity. Qed.

(** ** CLI runs *)

Lemma addAuthToCommand_form env command signParams w w' final :
  addAuthToCommand env command signParams w = (w', Ok final) ->
  exists auth, final = command ++ auth.
Proof.
  unfold addAuthToCommand. destruct (truthy _).
  - unfold bind. destruct (exchangeServiceTokenForSignature env signParams w) as [w1 [t|e]];
      [|discriminate].
    intros [= <- <-]. eauto.
  - intros [= <- <-]. exists EmptyString. now rewrite append_empty_r.
Qed.

Lemma internal_of_default signParams :
  internal_of (default_param signParams (VObj [])) = internal_of signParams.
Proof. now destruct signParams. Qed.

Lemma default_not_null signParams :
  signParams <> VNull -> default_param signParams (VObj []) <> VNull.
Proof. destruct signParams; simpl; congruence. Qed.

Lemma addC2PAManifest_cli env file manifest signParams :
  signParams <> VNull ->
  respects (grows (runs_cli_on (command_variant (internal_of signParams) None file manifest)))
           (addC2PAManifest env file manifest VNull signParams).
Proof.
  intros Hsp w w' r. unfold addC2PAManifest. cbv zeta.
  rewrite (buildExtractionCommand_eq _ _ _ _ (default_not_null _ Hsp)).
  rewrite internal_of_default.
  change (parent_of (default_param VNull VNull)) with (@None string).
  set (base := command_variant (internal_of signParams) None file manifest).
  unfold bind at 1, lift at 1. unfold bind at 1, try_catch.
  destruct (addAuthToCommand env base _ w) as [w1 [final|e]] eqn:Hauth.
  - destruct (addAuthToCommand_form _ _ _ _ _ _ Hauth) as [auth Hfinal].
    intros H. transitivity w1.
    + eapply addAuthToCommand_events; [|exact Hauth]. intros; exact I.
    + revert H. generalize w1 w' r.
      apply respects_bind; try typeclasses eauto.
      * apply executeJsonOutputCommand_events. intros ok.
        unfold runs_cli_on. simpl. exists auth. exact Hfinal.
      * intros json. destruct (_ && _); apply respects_ret; typeclasses eauto.
  - intros [= <- <-]. eapply addAuthToCommand_events; [|exact Hauth]. intros; exact I.
Qed.

Lemma addAssetManifestToRendition_cli env metadata path name tmpDir signParams :
  signParams <> VNull ->
  respects
    (grows (runs_cli_on (command_variant (internal_of signParams) None path
                           (manifestPath env tmpDir name))))
    (addAssetManifestToRendition env metadata path name tmpDir signParams).
Proof.
  intros Hsp. unfold addAssetManifestToRendition.
  destruct (negb (truthy metadata)); [apply respects_ret; typeclasses eauto|].
  apply respects_try_catch; try typeclasses eauto;
    [|intros; apply respects_ret; typeclasses eauto].
  cbv zeta. destruct (negb (truthy _)); [apply respects_ret; typeclasses eauto|].
  apply respects_bind; try typeclasses eauto.
  - apply fse_writeJson_grows. intros; exact I.
  - intros _. apply respects_bind; try typeclasses eauto.
    + now apply addC2PAManifest_cli.
    + intros added. footprint; exact I.
Qed.

Lemma signParams_of_not_null rendition : signParams_of rendition <> VNull.
Proof.
  unfold signParams_of, js_or.
  destruct (truthy (opt_prop _ _)) eqn:E; [|discriminate].
  intros H. rewrite H in E. discriminate.
Qed.

Lemma propagateSourceManifest_cli env rendition metadata :
  respects (grows (runs_cli_on (propagation_command env rendition)))
           (propagateSourceManifest env rendition metadata).
Proof.
  unfold propagateSourceManifest.
  apply respects_try_catch; try typeclasses eauto;
    [|intros; apply respects_ret; typeclasses eauto].
  destruct (shouldPropagate rendition metadata); [|apply respects_ret; typeclasses eauto].
  cbv zeta. apply respects_bind; try typeclasses eauto.
  - apply (addAssetManifestToRendition_cli env metadata (rendition_path rendition)
             (js_or (rendition_name rendition) (VStr "rendition")) "/tmp"
             (signParams_of rendition)).
    apply signParams_of_not_null.
  - intros _. apply respects_ret. typeclasses eauto.
Qed.

Lemma main_cli env source rendition :
  respects (grows (runs_cli_on (propagation_command env rendition)))
           (main env source rendition).
Proof.
  apply main_calls.
  - intros ok. exact I.
  - intros [[] ok]; simpl; try discriminate; intros _; exact I.
  - intros [[] ok]; unfold signing_event, runs_cli_on; simpl; tauto.
  - intros metadata. apply propagateSourceManifest_cli.
Qed.

(** ** The rendition after a run *)

Lemma fs_stat_ok env path w w' stats :
  fs_stat env path w = (w', Ok stats) ->
  exists content, files w !! path = Some content /\ size stats = String.length content.
Proof.
  unfold fs_stat. destruct (fs_verdict env w _); [|discriminate].
  destruct (files w !! path) as [content|]; [|discriminate].
  intros [= <- <-]. eauto.
Qed.

Lemma propagation_not_run env rendition metadata w :
  propagation_runs rendition metadata = false ->
  propagateSourceManifest env rendition metadata w = (w, Ok tt).
Proof.
  unfold propagation_runs. intros H.
  destruct (shouldPropagate rendition metadata) eqn:Hgate;
    [|now apply propagate_skipped].
  simpl in H. unfold propagateSourceManifest, try_catch. rewrite Hgate.
  unfold bind, addAssetManifestToRendition.
  destruct (negb (truthy metadata)); [reflexivity|].
  unfold try_catch. cbv zeta. rewrite H. reflexivity.
Qed.

#[local] Instance keeps_path_refl p : Reflexive (keeps_path p).
Proof. intros w. reflexivity. Qed.

#[local] Instance keeps_path_trans p : Transitive (keeps_path p).
Proof. intros w1 w2 w3 H1 H2. unfold keeps_path in *. congruence. Qed.

Lemma respects_weaken {A} (R R' : World -> World -> Prop) (m : M A) :
  (forall w w', R w w' -> R' w w') -> respects R m -> respects R' m.
Proof. intros H Hm w w' r E. apply H. eapply Hm; eauto. Qed.

Lemma keeps_files_path p w w' : keeps_files w w' -> keeps_path p w w'.
Proof. unfold keeps_files, keeps_path. now intros ->. Qed.

Lemma write_bytes_keeps_path env c path data p :
  path <> p -> respects (keeps_path p) (write_bytes env c path data).
Proof.
  intros Hne w w' r. unfold write_bytes, keeps_path.
  destruct (fs_verdict env w c) as [|e [n|]]; intros [= <- <-]; simpl;
    try reflexivity; now rewrite lookup_insert_ne.
Qed.

Lemma fse_unlink_keeps_path env path p :
  path <> p -> respects (keeps_path p) (fse_unlink env path).
Proof.
  intros Hne w w' r. unfold fse_unlink, keeps_path.
  destruct (fs_verdict env w _); [destruct (files w !! path)|]; intros [= <- <-]; simpl;
    try reflexivity. now rewrite lookup_delete_ne.
Qed.

Lemma exec_keeps_path env command p :
  cli_spares env p -> respects (keeps_path p) (exec env command).
Proof.
  intros Hcli w w' r. unfold exec, keeps_path. specialize (Hcli w command).
  destruct (child_process env w command) as [disk [out|e]]; intros [= <- <-]; exact Hcli.
Qed.

Lemma exchange_keeps env signParams :
  respects keeps_files (exchangeServiceTokenForSignature env signParams).
Proof. unfold exchangeServiceTokenForSignature. keeps. Qed.

Lemma addAuthToCommand_keeps env command signParams :
  respects keeps_files (addAuthToCommand env command signParams).
Proof.
  unfold addAuthToCommand. destruct (truthy _).
  - apply respects_bind; try typeclasses eauto; [apply exchange_keeps|].
    intros t. apply respects_ret. typeclasses eauto.
  - apply respects_ret. typeclasses eauto.
Qed.

Ltac keeps_path :=
  repeat first
    [ apply respects_ret | apply respects_throw | apply respects_lift
    | apply respects_bind | apply respects_try_catch
    | apply exec_keeps_path; assumption
    | apply write_bytes_keeps_path; assumption
    | apply fse_unlink_keeps_path; assumption
    | (eapply respects_weaken; [apply keeps_files_path | apply addAuthToCommand_keeps])
    | typeclasses eauto
    | match goal with
      | |- respects _ (if ?b then _ else _) => destruct b
      | |- respects _ (match ?x with _ => _ end) => destruct x
      | |- respects _ (let _ := _ in _) => cbv zeta
      | |- forall _, _ => intro
      end ].

(** The propagation step leaves a file alone when the CLI does and the
    file is not the scratch file. *)
Lemma propagateSourceManifest_keeps_path env rendition metadata p :
  cli_spares env p -> scratch_of env rendition <> p ->
  respects (keeps_path p) (propagateSourceManifest env rendition metadata).
Proof.
  intros Hcli Hne. unfold scratch_of in Hne.
  unfold propagateSourceManifest, addAssetManifestToRendition, fse_writeJson,
    addC2PAManifest, executeJsonOutputCommand.
  keeps_path.
Qed.

(** A run of [main] on a source that is not empty, up to the end of the
    signing step and beyond. *)
Lemma main_rendition (env : Env) (source : Source) (rendition : Rendition)
    (w : World) (content : string) :
  fs_verdict env w (CStat (source_path source)) = Proceed ->
  files w !! source_path source = Some content ->
  String.length content <> 0 ->
  exists w' r evs,
    main env source rendition w = (w', r)
    /\ trace w' = (evs ++ trace w)%list
    /\ (signing_result env source rendition w = Ok tt ->
        r = Ok tt
        /\ count_events (writes_rendition (rendition_path rendition)) evs = 1
        /\ exists s w1 result data,
             snd (c2pa_sign_call env s (asset_of source content) (manifestDefinition source)
                    w1) = Ok result
             /\ kind_of s = selected_signer rendition
             /\ signed_bytes result = Some data
             /\ In (Event (CWriteFile (rendition_path rendition) data) true) evs
             /\ files (after_signing env source rendition w)
                = <[rendition_path rendition := data]> (files w))
    /\ (forall e,
          signing_result env source rendition w = Throw e ->
          fs_verdict env (before_copy env source rendition w)
            (CCopyFile (source_path source) (rendition_path rendition)) = Proceed ->
          r = Ok tt
          /\ count_events (writes_rendition (rendition_path rendition)) evs = 1
          /\ In (Event (CCopyFile (source_path source) (rendition_path rendition)) true) evs
          /\ signOrCopy env source rendition (before_signing env source w)
             = (after_signing env source rendition w, Ok tt)
          /\ hd_error (trace (after_signing env source rendition w))
             = Some (Event (CCopyFile (source_path source) (rendition_path rendition)) true)
          /\ exists bytes,
               files (after_signing env source rendition w) !! rendition_path rendition
               = Some bytes
               /\ files (after_signing env source rendition w) !! source_path source
                  = Some bytes
               /\ (source_path source <> rendition_path rendition ->
                   bytes = content
                   /\ files (after_signing env source rendition w)
                      = <[rendition_path rendition := content]> (files w)))
    /\ (forall e e' written,
          signing_result env source rendition w = Throw e ->
          fs_verdict env (before_copy env source rendition w)
            (CCopyFile (source_path source) (rendition_path rendition))
          = Reject e' written ->
          r = Throw e'
          /\ count_events (writes_rendition (rendition_path rendition)) evs = 0)
    /\ (r = Ok tt ->
        (propagation_runs rendition (source_metadata env source w) = false ->
         w' = after_signing env source rendition w)
        /\ (cli_spares env (rendition_path rendition) ->
            scratch_of env rendition <> rendition_path rendition ->
            files w' !! rendition_path rendition
            = files (after_signing env source rendition w) !! rendition_path rendition))
    /\ (forall command ok,
          In (Event (CExec command) ok) evs ->
          exists auth, command = propagation_command env rendition ++ auth).
Proof.
  intros Hv Hf Hlen.
  destruct (main_nonempty env source rendition w content Hv Hf Hlen)
    as (Hfiles & (evs0 & E0 & F0) & Hmain).
  assert (Hf2 : files (before_signing env source w) !! source_path source = Some content)
    by now rewrite Hfiles.
  destruct (signOrCopy_cases env source rendition (before_signing env source w) content Hf2)
    as (evs1 & E1 & F1 & Hcase).
  assert (Hcli : forall w' r evs command ok,
             main env source rendition w = (w', r) ->
             trace w' = (evs ++ trace w)%list ->
             In (Event (CExec command) ok) evs ->
             exists auth, command = propagation_command env rendition ++ auth).
  { intros w' r evs command ok Hm Htr Hin.
    destruct (main_cli _ _ _ _ _ _ Hm) as (evs' & E & F).
    rewrite Htr in E. apply app_inv_tail in E. subst evs'.
    rewrite Forall_forall in F. apply list_elem_of_In in Hin.
    exact (F _ Hin). }
  unfold signing_result, before_copy, after_signing.
  destruct (signAndWrite env source rendition (before_signing env source w))
    as [w3 [[]|e3]] eqn:Hsw; simpl in E1, F1, Hcase |- *.
  - destruct Hcase as (Hsoc & s & wa & wb & result & data & Hcall & Hk & Hd & Hhd & Hf3).
    rewrite Hsoc in Hmain |- *. simpl fst.
    destruct (propagate_total env rendition (source_metadata env source w) w3) as [w' Hp].
    rewrite Hp in Hmain.
    destruct (propagateSourceManifest_calls _ _ _ _ _ _ Hp) as (evs2 & E2 & F2).
    destruct evs1 as [|ev1 evs1]; [discriminate|]. simpl in Hhd, F1.
    injection Hhd as ->.
    assert (Htr : trace w' = ((evs2 ++ Event (CWriteFile (rendition_path rendition) data) true
                                 :: evs1 ++ evs0) ++ trace w)%list).
    { rewrite E2, E1, E0. rewrite <- !app_assoc. simpl. now rewrite <- app_assoc. }
    exists w', (Ok tt), (evs2 ++ Event (CWriteFile (rendition_path rendition) data) true
                           :: evs1 ++ evs0)%list.
    split; [exact Hmain|]. split; [exact Htr|].
    split; [|split; [discriminate|split; [discriminate|split]]].
    + intros _. split; [reflexivity|]. split.
      * rewrite count_events_app. simpl. rewrite writes_rendition_write, count_events_app.
        rewrite (count_events_none _ evs1 F1), (count_events_none _ evs0 F0).
        rewrite (count_events_none _ evs2); [reflexivity|].
        eapply Forall_impl; [exact F2|]. apply propagating_not_write.
      * exists s, wa, result, data. rewrite Hcall. repeat split; auto.
        -- apply in_or_app. right. now left.
        -- rewrite Hf3. now rewrite Hfiles.
    + intros _. split.
      * intros Hrun. rewrite (propagation_not_run _ _ _ _ Hrun) in Hp. congruence.
      * intros Hspare Hne.
        eapply (propagateSourceManifest_keeps_path env rendition _ _ Hspare Hne); eauto.
    + intros command ok. apply (Hcli _ _ _ _ _ Hmain Htr).
  - destruct Hcase as (bytes & Hb & Hne & Hsoc).
    rewrite (fs_copyFile_run _ _ _ _ _ Hb) in Hsoc.
    destruct (fs_verdict env w3 (CCopyFile (source_path source) (rendition_path rendition)))
      as [|e' written] eqn:Hverdict.
    + rewrite Hsoc in Hmain |- *. simpl fst.
      set (w4 := record (CCopyFile (source_path source) (rendition_path rendition)) true
                   (store (rendition_path rendition) bytes w3)) in *.
      destruct (propagate_total env rendition (source_metadata env source w) w4) as [w' Hp].
      rewrite Hp in Hmain.
      destruct (propagateSourceManifest_calls _ _ _ _ _ _ Hp) as (evs2 & E2 & F2).
      assert (Htr : trace w'
                    = ((evs2 ++ Event (CCopyFile (source_path source)
                                         (rendition_path rendition)) true
                          :: evs1 ++ evs0) ++ trace w)%list).
      { rewrite E2. unfold w4. simpl. rewrite E1, E0. rewrite <- !app_assoc. simpl.
        now rewrite <- app_assoc. }
      exists w', (Ok tt), (evs2 ++ Event (CCopyFile (source_path source)
                                            (rendition_path rendition)) true
                             :: evs1 ++ evs0)%list.
      split; [exact Hmain|]. split; [exact Htr|].
      split; [discriminate|]. split; [|split; [|split]].
      * intros e _ _. split; [reflexivity|]. split; [|split; [|split; [|split]]].
        -- rewrite count_events_app. simpl. rewrite writes_rendition_copy, count_events_app.
           rewrite (count_events_none _ evs1 F1), (count_events_none _ evs0 F0).
           rewrite (count_events_none _ evs2); [reflexivity|].
           eapply Forall_impl; [exact F2|]. apply propagating_not_write.
        -- apply in_or_app. right. now left.
        -- reflexivity.
        -- reflexivity.
        -- exists bytes. unfold w4. simpl. split; [apply lookup_insert_eq|]. split.
           ++ destruct (decide (rendition_path rendition = source_path source)) as [E|N].
              ** rewrite E. apply lookup_insert_eq.
              ** now rewrite lookup_insert_ne.
           ++ intros N. destruct (Hne N) as [-> Hins]. split; [reflexivity|].
              rewrite <- Hfiles, <- Hins.
              apply map_eq. intros p.
              destruct (decide (rendition_path rendition = p)) as [<-|Np].
              ** now rewrite !lookup_insert_eq.
              ** now rewrite !lookup_insert_ne.
      * intros e e'' written _ H. discriminate.
      * intros _. split.
        -- intros Hrun. rewrite (propagation_not_run _ _ _ _ Hrun) in Hp. congruence.
        -- intros Hspare Hne'.
           eapply (propagateSourceManifest_keeps_path env rendition _ _ Hspare Hne'); eauto.
      * intros command ok. apply (Hcli _ _ _ _ _ Hmain Htr).
    + rewrite Hsoc in Hmain |- *. simpl fst.
      set (w4 := record (CCopyFile (source_path source) (rendition_path rendition)) false
                   (leftover (rendition_path rendition) bytes written w3)) in *.
      assert (Htr : trace w4
                    = ((Event (CCopyFile (source_path source) (rendition_path rendition))
                          false :: evs1 ++ evs0) ++ trace w)%list).
      { unfold w4. simpl.
        assert (T : trace (leftover (rendition_path rendition) bytes written w3) = trace w3)
          by (destruct written; reflexivity).
        rewrite T, E1, E0. now rewrite <- app_assoc. }
      exists w4, (Throw e'), (Event (CCopyFile (source_path source) (rendition_path rendition))
                                false :: evs1 ++ evs0)%list.
      split; [exact Hmain|]. split; [exact Htr|].
      split; [discriminate|]. split; [|split; [|split; [discriminate|]]].
      * intros e _ H. discriminate.
      * intros e e'' written' _ [= <- <-]. split; [reflexivity|].
        simpl. unfold writes_rendition at 1. simpl. rewrite andb_false_r. simpl.
        rewrite count_events_app.
        now rewrite (count_events_none _ evs1 F1), (count_events_none _ evs0 F0).
      * intros command ok. apply (Hcli _ _ _ _ _ Hmain Htr).
Qed.

Lemma main_stat_rejected env source rendition w e written :
  fs_verdict env w (CStat (source_path source)) = Reject e written ->
  main env source rendition w = (record (CStat (source_path source)) false w, Throw e).
Proof. intros Hv. unfold main, bind, fs_stat. now rewrite Hv. Qed.

(** C1 (as the code has it).  On a source that is not empty [main]
    completes normally unless the [stat] of the source is rejected (it
    then throws that error, having done nothing else), or the body of the
    signing [try] throws and the fallback copy is rejected as well.
    Whenever the body succeeds, or it throws and the file system lets the
    copy through, the worker's own [fs.writeFile] and [fs.copyFile] calls
    write the rendition path successfully exactly once, and when the
    signing step ends the rendition path holds, in full, the signed
    buffer, respectively the bytes of the source.  When the copy is
    rejected [main] throws the error of the copy and no write of the
    rendition has succeeded.  After a normal return the rendition is
    still the file of the signing step if manifest propagation does not
    run, and also if it runs with a CLI that leaves the rendition alone
    (the scratch file being another file); every CLI command the run
    executes is the propagation command, whose input and forced output
    are the rendition, followed at most by the auth flag. *)
Theorem rendition_written_once (env : Env) (source : Source) (rendition : Rendition)
    (w : World) (content : string) :
  files w !! source_path source = Some content ->
  String.length content <> 0 ->
  exists w' r evs,
    main env source rendition w = (w', r)
    /\ trace w' = (evs ++ trace w)%list
    /\ (forall e written,
          fs_verdict env w (CStat (source_path source)) = Reject e written ->
          r = Throw e
          /\ evs = [Event (CStat (source_path source)) false]
          /\ files w' = files w)
    /\ (fs_verdict env w (CStat (source_path source)) = Proceed ->
        (signing_result env source rendition w = Ok tt ->
         r = Ok tt
         /\ count_events (writes_rendition (rendition_path rendition)) evs = 1
         /\ exists s w1 result data,
              snd (c2pa_sign_call env s (asset_of source content) (manifestDefinition source)
                     w1) = Ok result
              /\ kind_of s = selected_signer rendition
              /\ signed_bytes result = Some data
              /\ In (Event (CWriteFile (rendition_path rendition) data) true) evs
              /\ files (after_signing env source rendition w)
                 = <[rendition_path rendition := data]> (files w))
        /\ (forall e,
              signing_result env source rendition w = Throw e ->
              fs_verdict env (before_copy env source rendition w)
                (CCopyFile (source_path source) (rendition_path rendition)) = Proceed ->
              r = Ok tt
              /\ count_events (writes_rendition (rendition_path rendition)) evs = 1
              /\ In (Event (CCopyFile (source_path source) (rendition_path rendition)) true)
                    evs
              /\ signOrCopy env source rendition (before_signing env source w)
                 = (after_signing env source rendition w, Ok tt)
              /\ hd_error (trace (after_signing env source rendition w))
                 = Some (Event (CCopyFile (source_path source) (rendition_path rendition))
                           true)
              /\ exists bytes,
                   files (after_signing env source rendition w) !! rendition_path rendition
                   = Some bytes
                   /\ files (after_signing env source rendition w) !! source_path source
                      = Some bytes
                   /\ (source_path source <> rendition_path rendition ->
                       bytes = content
                       /\ files (after_signing env source rendition w)
                          = <[rendition_path rendition := content]> (files w)))
        /\ (forall e e' written,
              signing_result env source rendition w = Throw e ->
              fs_verdict env (before_copy env source rendition w)
                (CCopyFile (source_path source) (rendition_path rendition))
              = Reject e' written ->
              r = Throw e'
              /\ count_events (writes_rendition (rendition_path rendition)) evs = 0)
        /\ (r = Ok tt ->
            (propagation_runs rendition (source_metadata env source w) = false ->
             w' = after_signing env source rendition w)
            /\ (cli_spares env (rendition_path rendition) ->
                scratch_of env rendition <> rendition_path rendition ->
                files w' !! rendition_path rendition
                = files (after_signing env source rendition w) !! rendition_path rendition))
        /\ (forall command ok,
              In (Event (CExec command) ok) evs ->
              exists auth, command = propagation_command env rendition ++ auth)).
Proof.
  intros Hf Hlen.
  destruct (fs_verdict env w (CStat (source_path source))) as [|e0 written0] eqn:Hv.
  - destruct (main_rendition env source rendition w content Hv Hf Hlen)
      as (w' & r & evs & Hmain & Htr & Hrest).
    exists w', r, evs. split; [exact Hmain|]. split; [exact Htr|].
    split; [discriminate|]. intros _. exact Hrest.
  - exists (record (CStat (source_path source)) false w), (Throw e0),
      [Event (CStat (source_path source)) false].
    split; [now apply (main_stat_rejected _ _ _ _ _ written0)|]. split; [reflexivity|].
    split; [|discriminate].
    intros e written [= <- <-]. auto.
Qed.

(** Instructions [{}], everything succeeds. *)
Lemma rendition_written_once_witness :
  exists w' evs,
    main quiet_env sample_source plain_rendition sample_world = (w', Ok tt)
    /\ trace w' = (evs ++ trace sample_world)%list
    /\ count_events (writes_rendition "/out/rendition.jpg") evs = 1.
Proof.
  destruct (rendition_written_once quiet_env sample_source plain_rendition sample_world
              "JPEGDATA" eq_refl)
    as (w' & r & evs & Hmain & Htr & _ & Hrun).
  - discriminate.
  - destruct (Hrun eq_refl) as (Hok & _).
    destruct (Hok eq_refl) as (-> & Hcount & _). exists w', evs. auto.
Defined.

(** C1, the claim as stated fails.  Source with a manifest, instructions
    [{ addSourceManifest: true }], everything succeeds: the worker writes
    the signed buffer to the rendition path, then starts the CLI with the
    rendition as forced output, and when [main] returns normally the
    rendition is neither the signed buffer nor a copy of the source.
    Second run: signing and the fallback copy both fail on a source that
    is not empty; the invocation ends with the error of the copy and the
    rendition was never written.  Third run: the [stat] of a source that
    is not empty is rejected; the invocation ends there. *)
Lemma rendition_rewritten_by_cli :
  (snd (main embedding_env sample_source propagating_rendition sample_world) = Ok tt
   /\ files sample_world !! "/in/photo.jpg" = Some "JPEGDATA"
   /\ files (after_signing embedding_env sample_source propagating_rendition sample_world)
        !! "/out/rendition.jpg" = Some "C2PA+JPEGDATA"
   /\ files (fst (main embedding_env sample_source propagating_rendition sample_world))
        !! "/out/rendition.jpg" = Some "C2PA+JPEGDATA+MANIFEST"
   /\ In (Event (CWriteFile "/out/rendition.jpg" "C2PA+JPEGDATA") true)
         (trace (fst (main embedding_env sample_source propagating_rendition
                        sample_world)))
   /\ hd_error
        (trace (fst (main embedding_env sample_source propagating_rendition sample_world)))
      = Some (Event (CExec embed_command) true))
  /\ (snd (main locked_env sample_source plain_rendition sample_world)
      = Throw (SystemError "EACCES")
      /\ count_events (writes_rendition "/out/rendition.jpg")
           (trace (fst (main locked_env sample_source plain_rendition sample_world))) = 0
      /\ files (fst (main locked_env sample_source plain_rendition sample_world))
           !! "/out/rendition.jpg" = None)
  /\ main hidden_env sample_source plain_rendition sample_world
     = (mkWorld sample_disk [Event (CStat "/in/photo.jpg") false],
        Throw (SystemError "EACCES")).
Proof.
  split; [|split].
  - split; [vm_compute; reflexivity|]. split; [vm_compute; reflexivity|].
    split; [vm_compute; reflexivity|]. split; [vm_compute; reflexivity|].
    split; [|vm_compute; reflexivity].
    vm_compute. tauto.
  - repeat split; vm_compute; reflexivity.
  - vm_compute. reflexivity.
Qed.

(** C2 (as the code has it).  On a source that is not empty, when the
    body of the signing [try] throws and the file system lets the
    fallback copy through, the signing step returns normally with the
    copy as its last call, [main] returns normally, and the rendition
    path then holds exactly the bytes the source file has (the bytes it
    had when the run started, the two paths being different).  The
    rendition still holds them when [main] returns if manifest
    propagation does not run, and also if it runs with a CLI that leaves
    the rendition alone (the scratch file being another file). *)
Theorem fallback_copy_exact (env : Env) (source : Source) (rendition : Rendition)
    (w : World) (content : string) (e : error) :
  fs_verdict env w (CStat (source_path source)) = Proceed ->
  files w !! source_path source = Some content ->
  String.length content <> 0 ->
  signing_result env source rendition w = Throw e ->
  fs_verdict env (before_copy env source rendition w)
    (CCopyFile (source_path source) (rendition_path rendition)) = Proceed ->
  exists w' bytes,
    main env source rendition w = (w', Ok tt)
    /\ signOrCopy env source rendition (before_signing env source w)
       = (after_signing env source rendition w, Ok tt)
    /\ hd_error (trace (after_signing env source rendition w))
       = Some (Event (CCopyFile (source_path source) (rendition_path rendition)) true)
    /\ files (after_signing env source rendition w) !! rendition_path rendition = Some bytes
    /\ files (after_signing env source rendition w) !! source_path source = Some bytes
    /\ (source_path source <> rendition_path rendition -> bytes = content)
    /\ (propagation_runs rendition (source_metadata env source w) = false ->
        files w' !! rendition_path rendition = Some bytes
        /\ files w' !! source_path source = Some bytes)
    /\ (cli_spares env (rendition_path rendition) ->
        scratch_of env rendition <> rendition_path rendition ->
        files w' !! rendition_path rendition = Some bytes).
Proof.
  intros Hv Hf Hlen Hthrow Hcopy.
  destruct (main_rendition env source rendition w content Hv Hf Hlen)
    as (w' & r & evs & Hmain & Htr & _ & Hcase & _ & Hafter & _).
  destruct (Hcase e Hthrow Hcopy) as (-> & _ & _ & Hsoc & Hhd & bytes & Hr & Hs & Hne).
  destruct (Hafter eq_refl) as [Hnorun Hspare].
  exists w', bytes. split; [exact Hmain|].
  split; [exact Hsoc|]. split; [exact Hhd|].
  split; [exact Hr|]. split; [exact Hs|]. split; [intros N; now apply Hne|]. split.
  - intros Hrun. rewrite (Hnorun Hrun). auto.
  - intros Hspare' Hne'. rewrite (Hspare Hspare' Hne'). exact Hr.
Qed.

(** Instructions [{}], the signing library fails. *)
Lemma fallback_copy_exact_witness :
  exists w',
    main unsigned_env sample_source plain_rendition sample_world = (w', Ok tt)
    /\ files w' !! "/out/rendition.jpg" = Some "JPEGDATA".
Proof.
  destruct (fallback_copy_exact unsigned_env sample_source plain_rendition sample_world
              "JPEGDATA" (SystemError "signing failed") eq_refl eq_refl)
    as (w' & bytes & Hmain & _ & _ & _ & _ & Hne & Hnorun & _).
  - discriminate.
  - vm_compute. reflexivity.
  - reflexivity.
  - exists w'. split; [exact Hmain|].
    rewrite <- (Hne ltac:(discriminate)). apply Hnorun. reflexivity.
Defined.

(** C2, the claim as stated fails.  Signing throws, the source is copied
    to the rendition path, and manifest propagation then has the CLI
    rewrite the rendition: when [main] returns normally the rendition's
    bytes are not the source's bytes.  Second run: signing throws and the
    copy is rejected too; no file is left at the rendition path. *)
Lemma fallback_copy_rewritten_by_cli :
  (snd (main unsigned_embedding_env sample_source propagating_rendition sample_world)
   = Ok tt
   /\ signing_result unsigned_embedding_env sample_source propagating_rendition sample_world
      = Throw (SystemError "signing failed")
   /\ files (fst (main unsigned_embedding_env sample_source propagating_rendition
                    sample_world)) !! "/in/photo.jpg" = Some "JPEGDATA"
   /\ files (fst (main unsigned_embedding_env sample_source propagating_rendition
                    sample_world)) !! "/out/rendition.jpg" = Some "JPEGDATA+MANIFEST")
  /\ (signing_result locked_env sample_source plain_rendition sample_world
      = Throw (SystemError "signing failed")
      /\ fs_verdict locked_env (before_copy locked_env sample_source plain_rendition
                                  sample_world)
           (CCopyFile "/in/photo.jpg" "/out/rendition.jpg")
         = Reject (SystemError "EACCES") None
      /\ snd (main locked_env sample_source plain_rendition sample_world)
         = Throw (SystemError "EACCES")
      /\ files (fst (main locked_env sample_source plain_rendition sample_world))
           !! "/out/rendition.jpg" = None).
Proof. repeat split; vm_compute; reflexivity. Qed.

(** ** Sample runs *)

Example executor_on_text_that_is_not_json :
  snd (executeJsonOutputCommand chatty_env "c2patool --version" sample_world) = Ok VNull.
Proof. reflexivity. Qed.

Example add_manifest_on_empty_object :
  snd (addC2PAManifest empty_object_env "/out/rendition.jpg" "/tmp/m.json" VNull (VObj [])
         sample_world) = Ok VNull.
Proof. vm_compute. reflexivity. Qed.

Example exchange_with_tier_DEV :
  exchangeServiceTokenForSignature rejecting_env
    (VObj [("clientSecret", VStr "s3cret"); ("accessCode", VStr "code-1");
           ("tier", VStr "DEV")]) sample_world
  = (sample_world,
     Throw (Error "Unable to exchange service token: DEV is not a valid tier (only stage or prod are supported)")).
Proof. vm_compute. reflexivity. Qed.

Example selection_samples :
  selected_signer plain_rendition = local
  /\ selected_signer (mkRendition "/out/r.jpg" VUndefined VUndefined) = local
  /\ selected_signer (mkRendition "/out/r.jpg" VUndefined
                        (VObj [("useLocalSigner", VNull)])) = local
  /\ selected_signer (mkRendition "/out/r.jpg" VUndefined
                        (VObj [("useLocalSigner", VBool false)])) = remote.
Proof. repeat split. Qed.

(** Instructions [{}] on a source without a manifest: the rendition is
    the buffer signed with the local signer and nothing of the
    propagation path runs. *)
Example end_to_end_plain :
  main quiet_env sample_source plain_rendition sample_world
  = (mkWorld (<["/out/rendition.jpg" := "C2PA+JPEGDATA"]> sample_disk)
       [Event (CWriteFile "/out/rendition.jpg" "C2PA+JPEGDATA") true;
        Event (CC2paSign (LocalSigner "CERT" "KEY" "ES256" "http://timestamp.digicert.com")
                 (asset_of sample_source "JPEGDATA") (manifestDefinition sample_source))
              true;
        Event (CReadFile "./certs/private-key.pem") true;
        Event (CReadFile "./certs/certificate.pem") true;
        Event (CReadFile "/in/photo.jpg") true;
        Event (CC2paRead "JPEGDATA" (VStr "image/jpeg")) true;
        Event (CReadFile "/in/photo.jpg") true;
        Event (CStat "/in/photo.jpg") true],
     Ok tt).
Proof. vm_compute. reflexivity. Qed.

(** Instructions [{ useLocalSigner: false }]: the library, handed the
    remote signer, has its two methods call the signing service, and the
    rendition is the signed buffer. *)
Example end_to_end_remote :
  main remote_env sample_source remote_rendition sample_world
  = (mkWorld (<["/out/rendition.jpg" := "C2PA+JPEGDATA"]> sample_disk)
       [Event (CWriteFile "/out/rendition.jpg" "C2PA+JPEGDATA") true;
        Event (CC2paSign RemoteSigner (asset_of sample_source "JPEGDATA")
                 (manifestDefinition sample_source)) true;
        Event (CFetch "https://my.signing.service/sign?boxSize=20000" "POST"
                 [("Content-Type", "application/octet-stream")]
                 (RawBody (VBuf "JPEGDATA"))) true;
        Event (CFetch "https://my.signing.service/box-size" "GET" [] NoBody) true;
        Event (CReadFile "/in/photo.jpg") true;
        Event (CC2paRead "JPEGDATA" (VStr "image/jpeg")) true;
        Event (CReadFile "/in/photo.jpg") true;
        Event (CStat "/in/photo.jpg") true],
     Ok tt).
Proof. vm_compute. reflexivity. Qed.

(** The same instructions while the signing service is down: the size
    request fails, the library gives up, and the source is copied. *)
Example end_to_end_remote_offline :
  main quiet_env sample_source remote_rendition sample_world
  = (mkWorld (<["/out/rendition.jpg" := "JPEGDATA"]> sample_disk)
       [Event (CCopyFile "/in/photo.jpg" "/out/rendition.jpg") true;
        Event (CC2paSign RemoteSigner (asset_of sample_source "JPEGDATA")
                 (manifestDefinition sample_source)) false;
        Event (CFetch "https://my.signing.service/box-size" "GET" [] NoBody) false;
        Event (CReadFile "/in/photo.jpg") true;
        Event (CC2paRead "JPEGDATA" (VStr "image/jpeg")) true;
        Event (CReadFile "/in/photo.jpg") true;
        Event (CStat "/in/photo.jpg") true],
     Ok tt).
Proof. vm_compute. reflexivity. Qed.

(** * Further properties of the worker's functions *)

(** ** The builder on missing sign parameters *)

(** X17.  Sign parameters left out ([undefined]) are the empty object:
    the builder returns the public variant; sign parameters [null] make
    the builder throw a [TypeError], with or without a parent asset. *)
Theorem buildExtractionCommand_missing_signParams
    (file manifest : string) (parentAsset : value) :
  buildExtractionCommand file manifest parentAsset VUndefined
  = Ok (command_variant false (parent_of parentAsset) file manifest)
  /\ exists msg, buildExtractionCommand file manifest parentAsset VNull
                 = Throw (TypeError msg).
Proof.
  split.
  - rewrite buildExtractionCommand_eq by discriminate. reflexivity.
  - unfold buildExtractionCommand. cbv zeta. simpl default_param at 2 4.
    destruct (truthy (default_param parentAsset VNull)); simpl; eauto.
Qed.

(** ** The entry point on a missing source *)

(** X18.  When the source path names no file the [stat] fails and [main]
    throws that error, [ENOENT], not [SourceCorruptError]; the failed
    [stat] is the only call and the disk is untouched. *)
Theorem main_missing_source (env : Env) (source : Source) (rendition : Rendition)
    (w : World) :
  fs_verdict env w (CStat (source_path source)) = Proceed ->
  files w !! source_path source = None ->
  main env source rendition w
  = (mkWorld (files w) (Event (CStat (source_path source)) false :: trace w),
     Throw (SystemError "ENOENT")).
Proof.
  intros Hv Hf. unfold main, bind, fs_stat. rewrite Hv, Hf. reflexivity.
Qed.

(** A source path that is not on the sample disk. *)
Lemma main_missing_source_witness :
  main quiet_env (mkSource "/in/missing.jpg" VUndefined VUndefined) plain_rendition
    sample_world
  = (mkWorld (files sample_world) [Event (CStat "/in/missing.jpg") false],
     Throw (SystemError "ENOENT")).
Proof.
  exact (main_missing_source quiet_env (mkSource "/in/missing.jpg" VUndefined VUndefined)
           plain_rendition sample_world eq_refl eq_refl).
Defined.

(** ** Reading the provenance data *)

Lemma c2pa_read_call_keeps env buffer mimeType :
  respects keeps_files (c2pa_read_call env buffer mimeType).
Proof.
  intros w w' r. unfold c2pa_read_call.
  destruct (c2pa_read env _ _); intros [= <- <-]; reflexivity.
Qed.

Lemma read_value env path mimeType w w' v :
  read env path mimeType w = (w', Ok v) -> v = VNull \/ truthy v = true.
Proof.
  unfold read, bind, ret.
  destruct (readFile env path w) as [w1 [buffer|e]]; [|discriminate].
  destruct (c2pa_read_call env buffer mimeType w1) as [w2 [result|e]]; [|discriminate].
  intros [= <- <-]. unfold js_or. destruct (truthy result) eqn:E; auto.
Qed.

(** X13.  The metadata read of [main] always returns and leaves the disk
    as it is; what it returns is [undefined] exactly when [read] threw,
    and otherwise [null] or the truthy answer of the library, never
    another falsy value. *)
Theorem readSourceMetadata_value (env : Env) (source : Source) (w : World) :
  exists w' metadata,
    readSourceMetadata env source w = (w', Ok metadata)
    /\ files w' = files w
    /\ (forall e,
          snd (read env (source_path source)
                 (js_or (source_mimeType source) (VStr "image/jpeg")) w) = Throw e ->
          metadata = VUndefined)
    /\ (forall v,
          snd (read env (source_path source)
                 (js_or (source_mimeType source) (VStr "image/jpeg")) w) = Ok v ->
          metadata = v /\ (v = VNull \/ truthy v = true)).
Proof.
  destruct (readSourceMetadata_total env source w) as (w' & metadata & H).
  exists w', metadata. split; [exact H|]. split.
  - eapply readSourceMetadata_keeps; eauto.
  - revert H. unfold readSourceMetadata, try_catch.
    destruct (read env _ _ w) as [w1 [v|e]] eqn:Hr; simpl.
    + intros [= <- <-]. split; [discriminate|].
      intros v' [= <-]. split; [reflexivity|]. eapply read_value; eauto.
    + intros [= <- <-]. split; [reflexivity | discriminate].
Qed.

(** ** The signers *)

(** X10.  [createLocalSigner] always asks for both files, the certificate
    first, whatever happens to the first read, and writes nothing; it
    resolves exactly when both reads succeed, to a signer that carries
    the two contents, [ES256] and the DigiCert timestamp URL. *)
Theorem createLocalSigner_reads_both (env : Env) (w w' : World) (r : outcome signer) :
  createLocalSigner env w = (w', r) ->
  files w' = files w
  /\ exists ok_certificate ok_key,
       trace w' = Event (CReadFile "./certs/private-key.pem") ok_key
                  :: Event (CReadFile "./certs/certificate.pem") ok_certificate
                  :: trace w
       /\ ((ok_certificate = true /\ ok_key = true) <->
           exists certificate privateKey,
             files w !! "./certs/certificate.pem" = Some certificate
             /\ files w !! "./certs/private-key.pem" = Some privateKey
             /\ r = Ok (LocalSigner certificate privateKey "ES256"
                          "http://timestamp.digicert.com")).
Proof.
  unfold createLocalSigner, bind, settle, lift, ret, readFile.
  destruct (fs_verdict env w (CReadFile "./certs/certificate.pem")) as [|e1 n1];
    [destruct (files w !! "./certs/certificate.pem") as [c|] eqn:Hc|];
    cbn [record files trace];
    (destruct (fs_verdict env _ (CReadFile "./certs/private-key.pem")) as [|e2 n2];
     [destruct (files w !! "./certs/private-key.pem") as [k|] eqn:Hk|]);
    intros [= <- <-]; (split; [reflexivity|]); do 2 eexists;
    (split; [reflexivity|]);
    (split;
     [ intros [H1 H2]; try discriminate; eauto
     | intros (c' & k' & H1 & H2 & H3); try discriminate; auto ]).
Qed.

(** The sample disk holds both files. *)
Lemma createLocalSigner_reads_both_witness :
  files (fst (createLocalSigner quiet_env sample_world)) = files sample_world.
Proof.
  exact (proj1 (createLocalSigner_reads_both quiet_env sample_world
                  (fst (createLocalSigner quiet_env sample_world))
                  (snd (createLocalSigner quiet_env sample_world)) eq_refl)).
Defined.

(** X11.  [sign] called without its third argument, or with a falsy one,
    takes the remote signer: it touches no file, and its log is the
    library's [sign] with the remote signer, preceded only by the
    requests the signer's two methods made to the signing service while
    the library was at work. *)
Theorem sign_defaults_to_remote (env : Env) (asset manifest useLocalSigner : value)
    (w w' : World) (r : outcome value) :
  useLocalSigner = VUndefined \/ truthy useLocalSigner = false ->
  sign env asset manifest useLocalSigner w = (w', r) ->
  files w' = files w
  /\ exists ok evs,
       trace w' = (Event (CC2paSign RemoteSigner asset manifest) ok :: evs ++ trace w)%list
       /\ Forall (fun ev => signer_request (ev_call ev)) evs.
Proof.
  intros Hu. assert (Hsel : selectSigner (default_param useLocalSigner (VBool false)) = remote).
  { unfold selectSigner. destruct Hu as [-> | Hu]; [reflexivity|].
    destruct useLocalSigner; simpl in *; try discriminate; try reflexivity;
      now rewrite Hu. }
  intros H. split; [eapply sign_keeps; eauto|].
  assert (Hw : w' = fst (c2pa_sign_call env RemoteSigner asset manifest w)).
  { rewrite <- (sign_world env asset manifest useLocalSigner w w RemoteSigner);
      [now rewrite H|]. rewrite Hsel. reflexivity. }
  destruct (c2pa_sign_call env RemoteSigner asset manifest w) as [w2 r2] eqn:Hcall.
  simpl in Hw. subst w2.
  destruct (c2pa_sign_call_trace _ _ _ _ _ _ _ Hcall) as (ok & evs & Ht & F).
  exists ok, evs. split; [exact Ht|].
  eapply Forall_impl; [exact F|]. intros ev [_ Hr]. exact Hr.
Qed.

(** The third argument left out. *)
Lemma sign_defaults_to_remote_witness :
  files (fst (sign quiet_env (asset_of sample_source "JPEGDATA")
                (manifestDefinition sample_source) VUndefined sample_world))
  = files sample_world.
Proof.
  exact (proj1 (sign_defaults_to_remote quiet_env (asset_of sample_source "JPEGDATA")
                  (manifestDefinition sample_source) VUndefined sample_world _ _
                  (or_introl eq_refl) eq_refl)).
Defined.

(** ** Token exchange: success and silence *)

Lemma exchange_success_run (env : Env) (signParams : value) (w : World)
    (host : string) (res : Response) (json : value) :
  incomplete signParams = false ->
  identity_endpoint env (prop signParams "tier") = Some host ->
  http env w (token_request host signParams) = Ok (Some res) ->
  res_ok res = true ->
  res_json res = Ok json ->
  exchangeServiceTokenForSignature env signParams w
  = (mkWorld (files w) (Event (token_request host signParams) true :: trace w),
     member json "access_token").
Proof.
  intros Hi Hh Hhttp Hok Hjson.
  rewrite (exchange_after_validation env signParams w host Hi Hh).
  unfold after_validation, bind, lift. rewrite Hhttp, Hjson, Hok. reflexivity.
Qed.

(** X6.  Once the validations pass, a success response makes the
    exchange return the [access_token] property of the JSON body, after
    the one POST; a body that is [null] makes it throw a [TypeError]. *)
Theorem exchange_success (env : Env) (signParams : value) (w : World)
    (host : string) (res : Response) (json : value) :
  incomplete signParams = false ->
  identity_endpoint env (prop signParams "tier") = Some host ->
  http env w (token_request host signParams) = Ok (Some res) ->
  res_ok res = true ->
  res_json res = Ok json ->
  fst (exchangeServiceTokenForSignature env signParams w)
  = mkWorld (files w) (Event (token_request host signParams) true :: trace w)
  /\ (nullish json = false ->
      snd (exchangeServiceTokenForSignature env signParams w)
      = Ok (prop json "access_token"))
  /\ (nullish json = true ->
      exists msg, snd (exchangeServiceTokenForSignature env signParams w)
                  = Throw (TypeError msg)).
Proof.
  intros Hi Hh Hhttp Hok Hjson.
  rewrite (exchange_success_run env signParams w host res json Hi Hh Hhttp Hok Hjson).
  unfold member. destruct (nullish json); simpl; repeat split; try discriminate; eauto.
Qed.

(** A token is granted on the staging tier. *)
Lemma exchange_success_witness :
  snd (exchangeServiceTokenForSignature granting_env sample_signParams sample_world)
  = Ok (VStr "tok-1").
Proof.
  exact (proj1 (proj2 (exchange_success granting_env sample_signParams sample_world
                         AUTH_STAGE_ENDPOINT
                         (json_response true 200 "OK" (VObj [("access_token", VStr "tok-1")]))
                         (VObj [("access_token", VStr "tok-1")])
                         eq_refl eq_refl eq_refl eq_refl eq_refl)) eq_refl).
Defined.

(** X8.  Once the validations pass, a transport that hands back no
    response makes the exchange throw [No response from token exchange
    service], after the one POST. *)
Theorem exchange_no_response (env : Env) (signParams : value) (w : World) (host : string) :
  incomplete signParams = false ->
  identity_endpoint env (prop signParams "tier") = Some host ->
  http env w (token_request host signParams) = Ok None ->
  exchangeServiceTokenForSignature env signParams w
  = (mkWorld (files w) (Event (token_request host signParams) true :: trace w),
     Throw (Error "No response from token exchange service")).
Proof.
  intros Hi Hh Hhttp.
  rewrite (exchange_after_validation env signParams w host Hi Hh).
  unfold after_validation, bind. rewrite Hhttp. reflexivity.
Qed.

(** No response on the staging tier. *)
Lemma exchange_no_response_witness :
  snd (exchangeServiceTokenForSignature silent_env sample_signParams sample_world)
  = Throw (Error "No response from token exchange service").
Proof.
  exact (f_equal snd (exchange_no_response silent_env sample_signParams sample_world
                        AUTH_STAGE_ENDPOINT eq_refl eq_refl eq_refl)).
Defined.

(** X7.  With internal tooling requested and a success response, the
    command gets [ --adobe-auth ] and the token as the template prints
    it; a body without [access_token] is not refused: the flag then
    reads [undefined]. *)
Theorem addAuthToCommand_splices_token (env : Env) (command : string)
    (signParams : value) (w : World) (host : string) (res : Response) (json : value) :
  truthy (prop signParams "useInternalTooling") = true ->
  incomplete signParams = false ->
  identity_endpoint env (prop signParams "tier") = Some host ->
  http env w (token_request host signParams) = Ok (Some res) ->
  res_ok res = true ->
  res_json res = Ok json ->
  nullish json = false ->
  snd (addAuthToCommand env command signParams w)
  = Ok (command ++ " --adobe-auth " ++ js_toString (prop json "access_token"))
  /\ (prop json "access_token" = VUndefined ->
      snd (addAuthToCommand env command signParams w)
      = Ok (command ++ " --adobe-auth undefined")).
Proof.
  intros Hflag Hi Hh Hhttp Hok Hjson Hnull.
  assert (Hsp : truthy signParams = true).
  { apply not_false_iff_true. intros F.
    assert (incomplete signParams = true) by (apply incomplete_iff; auto). congruence. }
  assert (Hrun : snd (addAuthToCommand env command signParams w)
                 = Ok (command ++ " --adobe-auth " ++ js_toString (prop json "access_token"))).
  { unfold addAuthToCommand, js_and. rewrite Hsp, Hflag. unfold bind.
    rewrite (exchange_success_run env signParams w host res json Hi Hh Hhttp Hok Hjson).
    unfold member. rewrite Hnull. reflexivity. }
  split; [exact Hrun|]. intros Hu. rewrite Hrun, Hu. reflexivity.
Qed.

(** Internal tooling against a service whose body has no token. *)
Lemma addAuthToCommand_splices_token_witness :
  snd (addAuthToCommand tokenless_env "adobe_c2patool add-manifest" sample_signParams
         sample_world)
  = Ok "adobe_c2patool add-manifest --adobe-auth undefined".
Proof.
  exact (proj2 (addAuthToCommand_splices_token tokenless_env "adobe_c2patool add-manifest"
                  sample_signParams sample_world AUTH_STAGE_ENDPOINT
                  (json_response true 200 "OK" (VObj [])) (VObj [])
                  eq_refl eq_refl eq_refl eq_refl eq_refl eq_refl eq_refl) eq_refl).
Defined.

(** ** The add-manifest operation, step by step *)

Lemma addAuthToCommand_fetches env command signParams :
  respects (grows (fun ev => exists url method headers b,
                               ev_call ev = CFetch url method headers b))
           (addAuthToCommand env command signParams).
Proof. apply addAuthToCommand_events. intros; simpl; eauto. Qed.

Lemma addAuthToCommand_plain env command signParams w :
  truthy (prop signParams "useInternalTooling") = false ->
  addAuthToCommand env command signParams w = (w, Ok command).
Proof.
  intros H. unfold addAuthToCommand, js_and.
  destruct (truthy signParams) eqn:E; [rewrite H | rewrite E]; reflexivity.
Qed.

Lemma addAuthToCommand_throws env command signParams w w' e :
  addAuthToCommand env command signParams w = (w', Throw e) ->
  truthy (prop signParams "useInternalTooling") = true.
Proof.
  destruct (truthy (prop signParams "useInternalTooling")) eqn:H; [reflexivity|].
  rewrite (addAuthToCommand_plain _ _ _ _ H). discriminate.
Qed.

(** The three ways a run of add-manifest can go. *)
Lemma addC2PAManifest_run env file manifest parentAsset signParams w w' r :
  addC2PAManifest env file manifest parentAsset signParams w = (w', r) ->
  (exists e,
      buildExtractionCommand file manifest (default_param parentAsset VNull)
        (default_param signParams (VObj [])) = Throw e
      /\ w' = w /\ r = Throw e)
  \/ (exists command e,
        buildExtractionCommand file manifest (default_param parentAsset VNull)
          (default_param signParams (VObj [])) = Ok command
        /\ addAuthToCommand env command (default_param signParams (VObj [])) w
           = (w', Throw e)
        /\ r = Throw (Error "Failed to add auth to C2PA command"))
  \/ (exists command w1 final json,
        buildExtractionCommand file manifest (default_param parentAsset VNull)
          (default_param signParams (VObj [])) = Ok command
        /\ addAuthToCommand env command (default_param signParams (VObj [])) w
           = (w1, Ok final)
        /\ executeJsonOutputCommand env final w1 = (w', Ok json)
        /\ r = Ok (if truthy json && (0 <? length (Object_keys json))%nat
                   then json else VNull)).
Proof.
  unfold addC2PAManifest. cbv zeta. unfold bind at 1, lift at 1.
  destruct (buildExtractionCommand _ _ _ _) as [command|e].
  2:{ intros [= <- <-]. left. eauto. }
  unfold bind at 1, try_catch.
  destruct (addAuthToCommand env command _ w) as [w1 [final|e]] eqn:Hauth.
  - unfold bind. destruct (executor_cases env final w1) as (w2 & json & Hrun & _).
    rewrite Hrun. intros H. right. right. exists command, w1, final, json.
    destruct (truthy json && (0 <? length (Object_keys json))%nat);
      unfold ret in H; injection H as <- <-; auto.
  - intros [= <- <-]. right. left. eauto.
Qed.

(** X4.  When add-manifest throws, the CLI has not been run and the disk
    is untouched; with sign parameters other than [null] the only cause
    is a token exchange that failed while internal tooling was
    requested, and the error is always [Failed to add auth to C2PA
    command], whatever the exchange threw. *)
Theorem addC2PAManifest_throws_before_cli (env : Env) (file manifest : string)
    (parentAsset signParams : value) (w w' : World) (e : error) :
  addC2PAManifest env file manifest parentAsset signParams w = (w', Throw e) ->
  files w' = files w
  /\ (forall evs command ok,
        trace w' = (evs ++ trace w)%list -> ~ In (Event (CExec command) ok) evs)
  /\ (signParams <> VNull ->
      e = Error "Failed to add auth to C2PA command"
      /\ internal_of signParams = true).
Proof.
  intros H. apply addC2PAManifest_run in H
    as [(e' & Hb & -> & [= ->]) | [(command & e' & Hb & Hauth & [= ->]) | Hok]].
  - split; [reflexivity|]. split.
    + intros evs command ok Htr Hin.
      rewrite <- (app_nil_l (trace w)) in Htr at 1. apply app_inv_tail in Htr.
      subst evs. destruct Hin.
    + intros Hsp. rewrite (buildExtractionCommand_eq _ _ _ _ (default_not_null _ Hsp)) in Hb.
      discriminate.
  - split; [eapply addAuthToCommand_keeps; eauto|]. split.
    + intros evs c ok Htr Hin.
      destruct (addAuthToCommand_fetches _ _ _ _ _ _ Hauth) as (evs' & E & F).
      rewrite Htr in E. apply app_inv_tail in E. subst evs'.
      rewrite Forall_forall in F. apply list_elem_of_In in Hin.
      destruct (F _ Hin) as (url & m & h & f & Hc). discriminate.
    + intros _. split; [reflexivity|].
      apply addAuthToCommand_throws in Hauth. exact Hauth.
  - destruct Hok as (command & w1 & final & json & _ & _ & _ & Hr). discriminate.
Qed.

(** Internal tooling requested while the network is down. *)
Lemma addC2PAManifest_throws_before_cli_witness :
  files (fst (addC2PAManifest quiet_env "/out/rendition.jpg" "/tmp/m.json" VNull
                sample_signParams sample_world)) = files sample_world.
Proof.
  refine (proj1 (addC2PAManifest_throws_before_cli quiet_env "/out/rendition.jpg"
                   "/tmp/m.json" VNull sample_signParams sample_world _
                   (Error "Failed to add auth to C2PA command") _)).
  vm_compute. reflexivity.
Defined.

(** X5.  Without internal tooling add-manifest makes exactly one call,
    the public CLI command, contacts no service and always returns; the
    disk afterwards is what the CLI left. *)
Theorem addC2PAManifest_public_single_call (env : Env) (file manifest : string)
    (parentAsset signParams : value) (w w' : World) (r : outcome value) :
  signParams <> VNull ->
  internal_of signParams = false ->
  addC2PAManifest env file manifest parentAsset signParams w = (w', r) ->
  (exists ok,
      trace w' = Event (CExec (command_variant false (parent_of parentAsset) file manifest))
                       ok :: trace w)
  /\ files w'
     = fst (child_process env w (command_variant false (parent_of parentAsset) file manifest))
  /\ exists v, r = Ok v.
Proof.
  intros Hsp Hint H.
  assert (Hb : buildExtractionCommand file manifest (default_param parentAsset VNull)
                 (default_param signParams (VObj []))
               = Ok (command_variant false (parent_of parentAsset) file manifest)).
  { rewrite (buildExtractionCommand_eq _ _ _ _ (default_not_null _ Hsp)).
    rewrite internal_of_default, Hint. unfold parent_of.
    rewrite truthy_default_null.
    destruct (truthy parentAsset) eqn:E; [|reflexivity].
    now rewrite (toString_default_null _ E). }
  assert (Hplain : forall c, addAuthToCommand env c (default_param signParams (VObj [])) w
                             = (w, Ok c)).
  { intros c. apply addAuthToCommand_plain. exact Hint. }
  apply addC2PAManifest_run in H
    as [(e' & Hb' & _) | [(command & e' & _ & Hauth & _) | Hok]].
  - congruence.
  - rewrite Hplain in Hauth. discriminate.
  - destruct Hok as (command & w1 & final & json & Hb' & Hauth & Hrun & ->).
    rewrite Hb in Hb'. injection Hb' as <-.
    rewrite Hplain in Hauth. injection Hauth as <- <-.
    destruct (executor_world _ _ _ _ _ Hrun) as [Hf [ok Ht]].
    split; [eauto|]. split; [exact Hf | eauto].
Qed.

(** The public CLI on the sample disk. *)
Lemma addC2PAManifest_public_single_call_witness :
  exists v, snd (addC2PAManifest printing_env "/out/rendition.jpg" "/tmp/m.json" VNull
                   (VObj []) sample_world) = Ok v.
Proof.
  refine (proj2 (proj2 (addC2PAManifest_public_single_call printing_env
                          "/out/rendition.jpg" "/tmp/m.json" VNull (VObj []) sample_world
                          (fst (addC2PAManifest printing_env "/out/rendition.jpg"
                                  "/tmp/m.json" VNull (VObj []) sample_world))
                          _ _ eq_refl _))).
  - discriminate.
  - vm_compute. reflexivity.
Defined.

(** ** The propagator, step by step *)

Lemma addC2PAManifest_trace env file manifest parentAsset signParams w w' r :
  addC2PAManifest env file manifest parentAsset signParams w = (w', r) ->
  exists evs,
    trace w' = (evs ++ trace w)%list
    /\ Forall (fun ev => is_fetch_or_exec (ev_call ev) = true) evs
    /\ (forall e, r = Throw e ->
          files w' = files w /\ forall c ok, ~ In (Event (CExec c) ok) evs)
    /\ (forall v, r = Ok v -> exists c ok rest, evs = Event (CExec c) ok :: rest).
Proof.
  intros H. apply addC2PAManifest_run in H
    as [(e' & Hb & -> & ->) | [(command & e' & Hb & Hauth & ->) | Hok]].
  - exists []. split; [reflexivity|]. split; [constructor|]. split.
    + intros e _. split; [reflexivity|]. intros c ok [].
    + discriminate.
  - destruct (addAuthToCommand_fetches _ _ _ _ _ _ Hauth) as (evs & E & F).
    exists evs. split; [exact E|]. split; [|split].
    + eapply Forall_impl; [exact F|]. intros ev (u & m & h & f & ->). reflexivity.
    + intros e _. split; [eapply addAuthToCommand_keeps; eauto|].
      intros c ok Hin. rewrite Forall_forall in F. apply list_elem_of_In in Hin.
      destruct (F _ Hin) as (u & m & h & f & Hc). discriminate.
    + discriminate.
  - destruct Hok as (command & w1 & final & json & Hb & Hauth & Hrun & ->).
    destruct (addAuthToCommand_fetches _ _ _ _ _ _ Hauth) as (evs & E & F).
    destruct (executor_world _ _ _ _ _ Hrun) as [_ [ok Ht]].
    exists (Event (CExec final) ok :: evs). split; [rewrite Ht, E; reflexivity|].
    split; [|split].
    + constructor; [reflexivity|].
      eapply Forall_impl; [exact F|]. intros ev (u & m & h & f & ->). reflexivity.
    + discriminate.
    + intros v _. eauto.
Qed.

Lemma fse_unlink_run env path w w' r :
  fse_unlink env path w = (w', r) ->
  (exists ok, trace w' = Event (CUnlink path) ok :: trace w)
  /\ (fs_verdict env w (CUnlink path) = Proceed -> files w' !! path = None).
Proof.
  unfold fse_unlink. destruct (fs_verdict env w _);
    [destruct (files w !! path) eqn:E|]; intros [= <- <-]; simpl.
  - split; [eauto|]. intros _. apply lookup_delete_eq.
  - split; [eauto|]. intros _. exact E.
  - split; [eauto|]. discriminate.
Qed.

Lemma fse_writeJson_run env path obj w w' r :
  fse_writeJson env path obj w = (w', r) ->
  (exists ok, trace w' = Event (CWriteJson path obj) ok :: trace w)
  /\ (r = Ok tt -> files w' = <[path := JSON_stringify env obj ++ newline]> (files w)).
Proof.
  unfold fse_writeJson, write_bytes. destruct (fs_verdict env w _) as [|e [n|]];
    intros [= <- <-]; simpl; (split; [eauto|]); try discriminate.
  intros _. reflexivity.
Qed.

Lemma extract_truthy metadata :
  truthy (extractContentProvenanceActiveManifestContents metadata) = false <->
  truthy metadata = false \/ truthy (prop metadata "active_manifest") = false.
Proof.
  unfold extractContentProvenanceActiveManifestContents.
  destruct (truthy metadata); simpl.
  - destruct (truthy (prop metadata "active_manifest")) eqn:E; simpl.
    + rewrite E. split; [discriminate | intros [H|H]; discriminate].
    + split; auto.
  - split; auto.
Qed.

(** The four ways a run of the propagator can go. *)
Lemma addAssetManifestToRendition_run env metadata path name tmpDir signParams w w' r :
  addAssetManifestToRendition env metadata path name tmpDir signParams w = (w', r) ->
  (truthy (extractContentProvenanceActiveManifestContents metadata) = false
   /\ w' = w /\ r = Ok VNull)
  \/ (truthy (extractContentProvenanceActiveManifestContents metadata) = true
      /\ ((exists e,
              fse_writeJson env (manifestPath env tmpDir name)
                (extractContentProvenanceActiveManifestContents metadata) w
              = (w', Throw e)
              /\ r = Ok VNull)
          \/ (exists w1 e,
                fse_writeJson env (manifestPath env tmpDir name)
                  (extractContentProvenanceActiveManifestContents metadata) w
                = (w1, Ok tt)
                /\ addC2PAManifest env path (manifestPath env tmpDir name) VNull
                     signParams w1 = (w', Throw e)
                /\ r = Ok VNull)
          \/ (exists w1 w2 added,
                fse_writeJson env (manifestPath env tmpDir name)
                  (extractContentProvenanceActiveManifestContents metadata) w
                = (w1, Ok tt)
                /\ addC2PAManifest env path (manifestPath env tmpDir name) VNull
                     signParams w1 = (w2, Ok added)
                /\ r = Ok added
                /\ w' = if truthy signParams && is_true (prop signParams "cleanUpTmpFiles")
                        then fst (fse_unlink env (manifestPath env tmpDir name) w2)
                        else w2))).
Proof.
  unfold addAssetManifestToRendition.
  destruct (truthy metadata) eqn:Hm; simpl.
  2:{ intros [= <- <-]. left. split; [|auto]. apply extract_truthy. auto. }
  unfold try_catch at 1. cbv zeta.
  destruct (truthy (extractContentProvenanceActiveManifestContents metadata)) eqn:Hc; simpl.
  2:{ intros [= <- <-]. left. auto. }
  unfold bind at 1.
  destruct (fse_writeJson env _ _ w) as [w1 [[]|e]] eqn:Hw.
  2:{ intros [= <- <-]. right. split; [reflexivity|]. left. eauto. }
  unfold bind at 1.
  destruct (addC2PAManifest env path _ VNull signParams w1) as [w2 [added|e]] eqn:Ha.
  2:{ intros [= <- <-]. right. split; [reflexivity|]. right. left. eauto. }
  intros H. right. split; [reflexivity|]. right. right. exists w1, w2, added.
  split; [first [exact Hw | reflexivity]|]. split; [first [exact Ha | reflexivity]|].
  revert H. unfold try_catch, bind, ret.
  destruct (truthy signParams && is_true (prop signParams "cleanUpTmpFiles")).
  - destruct (fse_unlink env _ w2) as [w3 [[]|e]]; simpl; intros [= <- <-]; auto.
  - intros [= <- <-]; auto.
Qed.

(** X1.  Given metadata that is falsy, or whose [active_manifest] is
    missing or falsy, the propagator returns [null] at once: no scratch
    file, no call, the world as it was. *)
Theorem propagator_needs_active_manifest (env : Env) (metadata : value) (path : string)
    (name : value) (tmpDir : string) (signParams : value) (w : World) :
  truthy metadata = false \/ truthy (prop metadata "active_manifest") = false ->
  addAssetManifestToRendition env metadata path name tmpDir signParams w = (w, Ok VNull).
Proof.
  intros H. apply extract_truthy in H.
  destruct (addAssetManifestToRendition env metadata path name tmpDir signParams w)
    as [w' r] eqn:E.
  apply addAssetManifestToRendition_run in E as [(_ & -> & ->) | [Ht _]];
    [reflexivity | congruence].
Qed.

(** Metadata whose active manifest is [null]. *)
Lemma propagator_needs_active_manifest_witness :
  addAssetManifestToRendition embedding_env (VObj [("active_manifest", VNull)])
    "/out/rendition.jpg" (VStr "rendition.jpg") "/tmp" (VObj []) sample_world
  = (sample_world, Ok VNull).
Proof.
  exact (propagator_needs_active_manifest embedding_env (VObj [("active_manifest", VNull)])
           "/out/rendition.jpg" (VStr "rendition.jpg") "/tmp" (VObj []) sample_world
           (or_intror eq_refl)).
Defined.

(** X2.  The propagator deletes only on request and only its own scratch
    file: an [unlink] in its log means [cleanUpTmpFiles === true], it
    names the scratch path, it is the last call, and the CLI has been
    run before it. *)
Theorem cleanup_only_on_request (env : Env) (metadata : value) (path : string)
    (name : value) (tmpDir : string) (signParams : value) (w w' : World)
    (r : outcome value) (evs : list event) (target : string) (ok : bool) :
  addAssetManifestToRendition env metadata path name tmpDir signParams w = (w', r) ->
  trace w' = (evs ++ trace w)%list ->
  In (Event (CUnlink target) ok) evs ->
  prop signParams "cleanUpTmpFiles" = VBool true
  /\ target = manifestPath env tmpDir name
  /\ (exists rest, evs = Event (CUnlink target) ok :: rest)
  /\ (exists command ok', In (Event (CExec command) ok') evs).
Proof.
  intros Hrun Htr Hin.
  apply addAssetManifestToRendition_run in Hrun
    as [(_ & -> & _) | [_ [(e & Hw & _) | [(w1 & e & Hw & Ha & _) | Hok]]]].
  - assert (evs = []) by (apply (app_inv_tail (trace w)); symmetry; exact Htr).
    subst evs. destruct Hin.
  - destruct (fse_writeJson_run _ _ _ _ _ _ Hw) as [[ok1 E] _].
    rewrite Htr in E.
    assert (evs = [Event (CWriteJson (manifestPath env tmpDir name)
                     (extractContentProvenanceActiveManifestContents metadata)) ok1])
      by (apply (app_inv_tail (trace w)); exact E).
    subst evs. destruct Hin as [H|[]]. discriminate.
  - destruct (fse_writeJson_run _ _ _ _ _ _ Hw) as [[ok1 E1] _].
    destruct (addC2PAManifest_trace _ _ _ _ _ _ _ _ Ha) as (evs2 & E2 & F2 & _).
    rewrite E2, E1 in Htr.
    assert (evs = (evs2 ++ [Event (CWriteJson (manifestPath env tmpDir name)
                     (extractContentProvenanceActiveManifestContents metadata)) ok1])%list)
      by (apply (app_inv_tail (trace w)); rewrite <- app_assoc; symmetry; exact Htr).
    subst evs.
    apply in_app_or in Hin as [Hin | [H|[]]]; [|discriminate].
    rewrite Forall_forall in F2. apply list_elem_of_In in Hin.
    specialize (F2 _ Hin). discriminate.
  - destruct Hok as (w1 & w2 & added & Hw & Ha & _ & Hw').
    destruct (fse_writeJson_run _ _ _ _ _ _ Hw) as [[ok1 E1] _].
    destruct (addC2PAManifest_trace _ _ _ _ _ _ _ _ Ha) as (evs2 & E2 & F2 & _ & Hexec).
    destruct (Hexec added eq_refl) as (c & okc & rest & ->).
    inversion F2 as [|? ? _ F2']. subst.
    assert (Hrest : forall target' ok',
               ~ In (Event (CUnlink target') ok')
                    (rest ++ [Event (CWriteJson (manifestPath env tmpDir name)
                       (extractContentProvenanceActiveManifestContents metadata)) ok1])%list).
    { intros t' o' Hi. apply in_app_or in Hi as [Hi | [H|[]]]; [|discriminate].
      rewrite Forall_forall in F2'. apply list_elem_of_In in Hi.
      specialize (F2' _ Hi). discriminate. }
    destruct (truthy signParams && is_true (prop signParams "cleanUpTmpFiles")) eqn:G.
    + destruct (fse_unlink env (manifestPath env tmpDir name) w2) as [w3 r3] eqn:Hu.
      simpl in Htr.
      destruct (fse_unlink_run _ _ _ _ _ Hu) as [[ok3 E3] _].
      rewrite E3, E2, E1 in Htr.
      assert (evs = Event (CUnlink (manifestPath env tmpDir name)) ok3
                    :: Event (CExec c) okc
                    :: (rest ++ [Event (CWriteJson (manifestPath env tmpDir name)
                          (extractContentProvenanceActiveManifestContents metadata)) ok1])%list)
        by (apply (app_inv_tail (trace w)); simpl; rewrite <- app_assoc; symmetry; exact Htr).
      subst evs.
      destruct Hin as [H | [H | Hin]]; [| discriminate | now apply Hrest in Hin].
      injection H as <- <-. apply andb_prop in G as [_ G].
      split; [|split; [reflexivity|split; [eauto|]]].
      * destruct (prop signParams "cleanUpTmpFiles") as [| |[|]| | | | |];
          simpl in G; try discriminate; reflexivity.
      * exists c, okc. right. left. reflexivity.
    + rewrite E2, E1 in Htr.
      assert (evs = Event (CExec c) okc
                    :: (rest ++ [Event (CWriteJson (manifestPath env tmpDir name)
                          (extractContentProvenanceActiveManifestContents metadata)) ok1])%list)
        by (apply (app_inv_tail (trace w)); simpl; rewrite <- app_assoc; symmetry; exact Htr).
      subst evs. exfalso.
      destruct Hin as [H | Hin]; [discriminate | now apply Hrest in Hin].
Qed.

Lemma cleanup_flag_object signParams :
  prop signParams "cleanUpTmpFiles" = VBool true ->
  truthy signParams && is_true (prop signParams "cleanUpTmpFiles") = true.
Proof. intros H. rewrite H. destruct signParams; simpl in H; try discriminate. reflexivity. Qed.

(** A CLI run in the log of the propagator: add-manifest has returned. *)
Lemma propagator_ran_cli env metadata path name tmpDir signParams w w' r evs command ok :
  addAssetManifestToRendition env metadata path name tmpDir signParams w = (w', r) ->
  trace w' = (evs ++ trace w)%list ->
  In (Event (CExec command) ok) evs ->
  exists w1 w2 added,
    fse_writeJson env (manifestPath env tmpDir name)
      (extractContentProvenanceActiveManifestContents metadata) w = (w1, Ok tt)
    /\ addC2PAManifest env path (manifestPath env tmpDir name) VNull signParams w1
       = (w2, Ok added)
    /\ r = Ok added
    /\ w' = if truthy signParams && is_true (prop signParams "cleanUpTmpFiles")
            then fst (fse_unlink env (manifestPath env tmpDir name) w2)
            else w2.
Proof.
  intros Hrun Htr Hin.
  apply addAssetManifestToRendition_run in Hrun
    as [(_ & -> & _) | [_ [(e & Hw & _) | [(w1 & e & Hw & Ha & _) | Hok]]]].
  - assert (evs = []) by (apply (app_inv_tail (trace w)); symmetry; exact Htr).
    subst evs. destruct Hin.
  - destruct (fse_writeJson_run _ _ _ _ _ _ Hw) as [[ok1 E] _].
    rewrite Htr in E.
    assert (evs = [Event (CWriteJson (manifestPath env tmpDir name)
                     (extractContentProvenanceActiveManifestContents metadata)) ok1])
      by (apply (app_inv_tail (trace w)); exact E).
    subst evs. destruct Hin as [H|[]]. discriminate.
  - destruct (fse_writeJson_run _ _ _ _ _ _ Hw) as [[ok1 E1] _].
    destruct (addC2PAManifest_trace _ _ _ _ _ _ _ _ Ha) as (evs2 & E2 & _ & Hthrow & _).
    destruct (Hthrow e eq_refl) as [_ Hno].
    rewrite E2, E1 in Htr.
    assert (evs = (evs2 ++ [Event (CWriteJson (manifestPath env tmpDir name)
                     (extractContentProvenanceActiveManifestContents metadata)) ok1])%list)
      by (apply (app_inv_tail (trace w)); rewrite <- app_assoc; symmetry; exact Htr).
    subst evs.
    apply in_app_or in Hin as [Hin | [H|[]]]; [|discriminate].
    now apply Hno in Hin.
  - exact Hok.
Qed.

(** X3.  With [cleanUpTmpFiles === true], once the CLI has been run and
    if the operating system lets the [unlink] through, the scratch file
    is gone when the propagator returns. *)
Theorem cleanup_removes_scratch (env : Env) (metadata : value) (path : string)
    (name : value) (tmpDir : string) (signParams : value) (w w' : World)
    (r : outcome value) (evs : list event) (command : string) (ok : bool) :
  addAssetManifestToRendition env metadata path name tmpDir signParams w = (w', r) ->
  trace w' = (evs ++ trace w)%list ->
  In (Event (CExec command) ok) evs ->
  prop signParams "cleanUpTmpFiles" = VBool true ->
  (forall w2, fs_verdict env w2 (CUnlink (manifestPath env tmpDir name)) = Proceed) ->
  files w' !! manifestPath env tmpDir name = None.
Proof.
  intros Hrun Htr Hin Hflag Hos.
  destruct (propagator_ran_cli _ _ _ _ _ _ _ _ _ _ _ _ Hrun Htr Hin)
    as (w1 & w2 & added & _ & _ & _ & ->).
  rewrite (cleanup_flag_object _ Hflag).
  destruct (fse_unlink env (manifestPath env tmpDir name) w2) as [w3 r3] eqn:Hu.
  simpl. destruct (fse_unlink_run _ _ _ _ _ Hu) as [_ Hgone]. apply Hgone, Hos.
Qed.

(** X19.  When the scratch file has been written and add-manifest then
    throws, the propagator returns [null] without any [unlink]: the
    scratch file stays on disk, with the JSON of the active manifest and
    a line feed, whether or not cleanup was requested. *)
Theorem scratch_left_when_add_manifest_throws (env : Env) (metadata : value)
    (path : string) (name : value) (tmpDir : string) (signParams : value)
    (w w1 w2 : World) (e : error) :
  truthy (extractContentProvenanceActiveManifestContents metadata) = true ->
  fse_writeJson env (manifestPath env tmpDir name)
    (extractContentProvenanceActiveManifestContents metadata) w = (w1, Ok tt) ->
  addC2PAManifest env path (manifestPath env tmpDir name) VNull signParams w1
    = (w2, Throw e) ->
  addAssetManifestToRendition env metadata path name tmpDir signParams w = (w2, Ok VNull)
  /\ files w2 !! manifestPath env tmpDir name
     = Some (JSON_stringify env (extractContentProvenanceActiveManifestContents metadata)
             ++ newline)
  /\ (forall evs target ok,
        trace w2 = (evs ++ trace w)%list -> ~ In (Event (CUnlink target) ok) evs).
Proof.
  intros Hc Hw Ha.
  assert (Hm : truthy metadata = true).
  { destruct (truthy metadata) eqn:E; [reflexivity|].
    assert (truthy (extractContentProvenanceActiveManifestContents metadata) = false)
      by (apply extract_truthy; auto). congruence. }
  split; [eapply addAsset_addManifest_fails; eauto|].
  destruct (fse_writeJson_run _ _ _ _ _ _ Hw) as [[ok1 E1] Hf].
  destruct (addC2PAManifest_trace _ _ _ _ _ _ _ _ Ha) as (evs2 & E2 & F2 & Hthrow & _).
  destruct (Hthrow e eq_refl) as [Hkeep _]. split.
  - rewrite Hkeep, (Hf eq_refl). apply lookup_insert_eq.
  - intros evs target ok Htr Hin. rewrite E2, E1 in Htr.
    assert (evs = (evs2 ++ [Event (CWriteJson (manifestPath env tmpDir name)
                     (extractContentProvenanceActiveManifestContents metadata)) ok1])%list)
      by (apply (app_inv_tail (trace w)); rewrite <- app_assoc; symmetry; exact Htr).
    subst evs.
    apply in_app_or in Hin as [Hin | [H|[]]]; [|discriminate].
    rewrite Forall_forall in F2. apply list_elem_of_In in Hin.
    specialize (F2 _ Hin). discriminate.
Qed.

(** The propagator with cleanup on a system where everything works. *)
Lemma cleanup_only_on_request_witness :
  prop tidy_signParams "cleanUpTmpFiles" = VBool true
  /\ scratch_path = manifestPath embedding_env "/tmp" (VStr "rendition.jpg")
  /\ (exists rest,
        trace (fst (addAssetManifestToRendition embedding_env sample_metadata
                      "/out/rendition.jpg" (VStr "rendition.jpg") "/tmp" tidy_signParams
                      signed_world))
        = Event (CUnlink scratch_path) true :: rest)
  /\ (exists command ok',
        In (Event (CExec command) ok')
           (trace (fst (addAssetManifestToRendition embedding_env sample_metadata
                          "/out/rendition.jpg" (VStr "rendition.jpg") "/tmp"
                          tidy_signParams signed_world)))).
Proof.
  refine (cleanup_only_on_request embedding_env sample_metadata "/out/rendition.jpg"
            (VStr "rendition.jpg") "/tmp" tidy_signParams signed_world _ _ _
            scratch_path true _ _ _).
  - vm_compute. reflexivity.
  - symmetry. apply app_nil_r.
  - vm_compute. left. reflexivity.
Defined.

Lemma cleanup_removes_scratch_witness :
  files (fst (addAssetManifestToRendition embedding_env sample_metadata
                "/out/rendition.jpg" (VStr "rendition.jpg") "/tmp" tidy_signParams
                signed_world)) !! scratch_path = None.
Proof.
  refine (cleanup_removes_scratch embedding_env sample_metadata "/out/rendition.jpg"
            (VStr "rendition.jpg") "/tmp" tidy_signParams signed_world _ _ _
            embed_command true _ _ _ eq_refl (fun _ => eq_refl)).
  - vm_compute. reflexivity.
  - symmetry. apply app_nil_r.
  - vm_compute. right. left. reflexivity.
Defined.

(** Internal tooling requested while the network is down: the scratch
    file stays. *)
Lemma scratch_left_when_add_manifest_throws_witness :
  files (fst (addAssetManifestToRendition quiet_env sample_metadata
                "/out/rendition.jpg" (VStr "rendition.jpg") "/tmp" internal_signParams
                signed_world)) !! scratch_path
  = Some (sample_stringify (VObj [("label", VStr "urn:uuid:0")]) ++ newline).
Proof.
  refine (eq_trans (f_equal (fun x => files (fst x) !! scratch_path)
                      (proj1 (scratch_left_when_add_manifest_throws quiet_env
                                sample_metadata "/out/rendition.jpg" (VStr "rendition.jpg")
                                "/tmp" internal_signParams signed_world _ _ _ eq_refl _ _)))
                   (proj1 (proj2 (scratch_left_when_add_manifest_throws quiet_env
                                sample_metadata "/out/rendition.jpg" (VStr "rendition.jpg")
                                "/tmp" internal_signParams signed_world _ _ _ eq_refl _ _)))).
  all: vm_compute; reflexivity.
Defined.

(** ** What a run of main touches *)

#[local] Instance only_touches_refl path : Reflexive (only_touches path).
Proof. intros w p _. reflexivity. Qed.

#[local] Instance only_touches_trans path : Transitive (only_touches path).
Proof. intros w1 w2 w3 H1 H2 p Hp. rewrite (H2 p Hp). apply H1, Hp. Qed.

Lemma keeps_only_touches path w w' : keeps_files w w' -> only_touches path w w'.
Proof. intros H p _. now rewrite H. Qed.

Lemma write_bytes_touches env c path data :
  respects (only_touches path) (write_bytes env c path data).
Proof.
  intros w w' r. unfold write_bytes.
  destruct (fs_verdict env w c) as [|e [n|]]; intros [= <- <-] p Hp; simpl;
    try reflexivity; now rewrite lookup_insert_ne by congruence.
Qed.

Lemma signOrCopy_touches env source rendition :
  respects (only_touches (rendition_path rendition)) (signOrCopy env source rendition).
Proof.
  unfold signOrCopy. apply respects_try_catch; try typeclasses eauto.
  - unfold signAndWrite. apply respects_bind; try typeclasses eauto.
    + eapply respects_weaken; [apply keeps_only_touches | apply readFile_keeps].
    + intros buffer. cbv zeta. apply respects_bind; try typeclasses eauto.
      * eapply respects_weaken; [apply keeps_only_touches | apply sign_keeps].
      * intros signed.
        repeat (apply respects_bind; try typeclasses eauto;
                [apply respects_lift; typeclasses eauto | intro]).
        unfold fs_writeFile.
        match goal with |- respects _ (match ?v with _ => _ end) => destruct v end;
          try (apply respects_throw; typeclasses eauto); apply write_bytes_touches.
  - intros e w w' r. unfold fs_copyFile.
    destruct (files w !! source_path source).
    + apply write_bytes_touches.
    + intros [= <- <-] p _. reflexivity.
Qed.

(** X15.  A run of [main] that does not return normally, or in which
    manifest propagation does not run, leaves every file other than the
    rendition as it was: the source is only read, the certificate files
    are only read, nothing is created elsewhere. *)
Theorem main_touches_only_rendition (env : Env) (source : Source) (rendition : Rendition)
    (w w' : World) (r : outcome unit) :
  main env source rendition w = (w', r) ->
  r <> Ok tt \/ propagation_runs rendition (source_metadata env source w) = false ->
  forall p, p <> rendition_path rendition -> files w' !! p = files w !! p.
Proof.
  intros Hmain Hcase.
  assert (Hgoal : only_touches (rendition_path rendition) w w'); [|exact Hgoal].
  revert Hmain. unfold main. unfold bind at 1.
  destruct (fs_stat env (source_path source) w) as [w1 [stats|e]] eqn:Hstat.
  2:{ intros [= <- <-]. apply keeps_only_touches. eapply fs_stat_keeps; eauto. }
  assert (K1 : only_touches (rendition_path rendition) w w1).
  { apply keeps_only_touches. eapply fs_stat_keeps; eauto. }
  destruct (size stats =? 0)%nat; [intros [= <- <-]; exact K1|].
  unfold bind at 1.
  destruct (readSourceMetadata_total env source w1) as (w2 & metadata & Hread).
  rewrite Hread.
  assert (K2 : only_touches (rendition_path rendition) w w2).
  { transitivity w1; [exact K1|]. apply keeps_only_touches.
    eapply readSourceMetadata_keeps; eauto. }
  unfold bind at 1.
  destruct (signOrCopy env source rendition w2) as [w3 [[]|e]] eqn:Hsign.
  - assert (K3 : only_touches (rendition_path rendition) w w3).
    { transitivity w2; [exact K2|]. eapply signOrCopy_touches; eauto. }
    intros Hprop.
    destruct (propagate_total env rendition metadata w3) as [w4 Hp].
    rewrite Hp in Hprop. injection Hprop as <- <-.
    destruct Hcase as [Hne | Hrun]; [now elim Hne|].
    unfold source_metadata in Hrun. rewrite Hstat in Hrun. simpl in Hrun.
    rewrite Hread in Hrun. simpl in Hrun.
    rewrite (propagation_not_run _ _ _ _ Hrun) in Hp. injection Hp as <-. exact K3.
  - intros [= <- <-]. transitivity w2; [exact K2|]. eapply signOrCopy_touches; eauto.
Qed.

(** Instructions [{}]: the source and the certificates are as before. *)
Lemma main_touches_only_rendition_witness :
  files (fst (main quiet_env sample_source plain_rendition sample_world)) !! "/in/photo.jpg"
  = files sample_world !! "/in/photo.jpg".
Proof.
  refine (main_touches_only_rendition quiet_env sample_source plain_rendition sample_world
            _ _ _ (or_intror eq_refl) "/in/photo.jpg" _).
  - vm_compute. reflexivity.
  - discriminate.
Defined.

(** X14.  [main] throws in three cases only: the [stat] of the source
    threw (that error), the source is empty ([SourceCorruptError]), or
    the signing step threw and the fallback copy threw too (the error of
    the copy).  In each case nothing of the propagation path has run. *)
Theorem main_throws_only (env : Env) (source : Source) (rendition : Rendition)
    (w w' : World) (e : error) :
  main env source rendition w = (w', Throw e) ->
  (snd (fs_stat env (source_path source) w) = Throw e
   \/ (e = SourceCorruptError "source file is empty"
       /\ files w !! source_path source = Some EmptyString)
   \/ (exists e0 w2,
         signAndWrite env source rendition (before_signing env source w) = (w2, Throw e0)
         /\ snd (fs_copyFile env (source_path source) (rendition_path rendition) w2)
            = Throw e))
  /\ forall evs ev, trace w' = (evs ++ trace w)%list -> In ev evs -> quiet ev.
Proof.
  intros Hmain. split.
  - revert Hmain. unfold main. unfold bind at 1. unfold before_signing.
    destruct (fs_stat env (source_path source) w) as [w1 [stats|e1]] eqn:Hstat.
    2:{ intros [= <- <-]. left. reflexivity. }
    destruct (size stats =? 0)%nat eqn:Hsize.
    { intros [= <- <-]. right. left. split; [reflexivity|].
      destruct (fs_stat_ok _ _ _ _ _ Hstat) as (content & Hc & Hs).
      apply Nat.eqb_eq in Hsize. rewrite Hs in Hsize.
      destruct content; [exact Hc | discriminate]. }
    unfold bind at 1. simpl fst.
    destruct (readSourceMetadata_total env source w1) as (w2 & metadata & Hread).
    rewrite Hread. simpl fst. unfold bind at 1.
    destruct (signOrCopy env source rendition w2) as [w3 [[]|e3]] eqn:Hsign.
    + intros Hprop. destruct (propagate_total env rendition metadata w3) as [w4 Hp].
      rewrite Hp in Hprop. discriminate.
    + intros [= <- <-]. right. right. revert Hsign. unfold signOrCopy, try_catch.
      destruct (signAndWrite env source rendition w2) as [w2' [[]|e0]]; [discriminate|].
      intros Hcopy. exists e0, w2'. split; [reflexivity|]. now rewrite Hcopy.
  - intros evs ev Htr Hin.
    apply main_steps in Hmain as [[(evs0 & E & F) _] | Hright].
    + rewrite Htr in E. apply app_inv_tail in E. subst evs0.
      rewrite Forall_forall in F. apply F. now apply list_elem_of_In.
    + destruct Hright as (stats & w1 & w2 & metadata & w3 & _ & _ & _ & _ & Hprop & _).
      destruct (propagate_total env rendition metadata w3) as [w4 Hp].
      rewrite Hp in Hprop. discriminate.
Qed.

(** Signing fails and the rendition directory is not writable. *)
Lemma main_throws_only_witness :
  snd (fs_stat locked_env "/in/photo.jpg" sample_world) = Throw (SystemError "EACCES")
  \/ (SystemError "EACCES" = SourceCorruptError "source file is empty"
      /\ files sample_world !! "/in/photo.jpg" = Some EmptyString)
  \/ (exists e0 w2,
        signAndWrite locked_env sample_source plain_rendition
          (before_signing locked_env sample_source sample_world) = (w2, Throw e0)
        /\ snd (fs_copyFile locked_env "/in/photo.jpg" "/out/rendition.jpg" w2)
           = Throw (SystemError "EACCES")).
Proof.
  refine (proj1 (main_throws_only locked_env sample_source plain_rendition sample_world
                   _ (SystemError "EACCES") _)).
  vm_compute. reflexivity.
Defined.

(** ** The network calls of a run *)

Lemma exchange_token_call env signParams :
  respects (grows (fun ev =>
              match ev_call ev with
              | CFetch _ _ _ _ =>
                  exists host,
                    identity_endpoint env (prop signParams "tier") = Some host
                    /\ ev_call ev = token_request host signParams
              | _ => True
              end))
           (exchangeServiceTokenForSignature env signParams).
Proof.
  intros w w' r. rewrite exchange_cases.
  destruct (incomplete signParams); [intros [= <- <-]; reflexivity|].
  destruct (prop signParams "tier") as [| |b|n|t|b|l|l] eqn:Ht;
    try (intros [= <- <-]; reflexivity).
  destruct (identity_endpoint env (VStr t)) as [host|] eqn:Hh;
    [|intros [= <- <-]; reflexivity].
  intros H. apply after_validation_trace in H as [_ [ok E]].
  eapply grows_one; [|exact E]. simpl. eauto.
Qed.

Lemma addAuthToCommand_token_call env command signParams :
  respects (grows (token_call_only env signParams))
           (addAuthToCommand env command signParams).
Proof.
  unfold addAuthToCommand, js_and.
  destruct (truthy signParams) eqn:Hsp;
    [destruct (truthy (prop signParams "useInternalTooling")) eqn:Hflag|rewrite Hsp];
    try (apply respects_ret; typeclasses eauto).
  apply respects_bind; try typeclasses eauto.
  - eapply respects_mono; [|apply exchange_token_call].
    intros [[] ok]; unfold token_call_only; simpl; auto.
  - intros t. apply respects_ret. typeclasses eauto.
Qed.

Lemma addC2PAManifest_token_call env file manifest parentAsset signParams :
  signParams <> VUndefined ->
  respects (grows (token_call_only env signParams))
           (addC2PAManifest env file manifest parentAsset signParams).
Proof.
  intros Hsp. assert (Hd : default_param signParams (VObj []) = signParams)
    by (destruct signParams; try reflexivity; now elim Hsp).
  intros w w' r H. apply addC2PAManifest_run in H
    as [(e' & Hb & -> & ->) | [(command & e' & Hb & Hauth & ->) | Hok]].
  - reflexivity.
  - rewrite Hd in Hauth. eapply addAuthToCommand_token_call; eauto.
  - destruct Hok as (command & w1 & final & json & _ & Hauth & Hrun & _).
    rewrite Hd in Hauth. transitivity w1.
    + eapply addAuthToCommand_token_call; eauto.
    + destruct (executor_world _ _ _ _ _ Hrun) as [_ [ok E]].
      eapply grows_one; [|exact E]. exact I.
Qed.

Lemma signParams_of_defined rendition : signParams_of rendition <> VUndefined.
Proof.
  unfold signParams_of, js_or.
  destruct (truthy (opt_prop _ _)) eqn:E; [|discriminate].
  intros H. rewrite H in E. discriminate.
Qed.

Lemma propagateSourceManifest_token_call env rendition metadata :
  respects (grows (token_call_only env (signParams_of rendition)))
           (propagateSourceManifest env rendition metadata).
Proof.
  unfold propagateSourceManifest.
  apply respects_try_catch; try typeclasses eauto;
    [|intros; apply respects_ret; typeclasses eauto].
  destruct (shouldPropagate rendition metadata); [|apply respects_ret; typeclasses eauto].
  cbv zeta. fold (signParams_of rendition).
  apply respects_bind; try typeclasses eauto;
    [|intros; apply respects_ret; typeclasses eauto].
  unfold addAssetManifestToRendition.
  destruct (negb (truthy metadata)); [apply respects_ret; typeclasses eauto|].
  apply respects_try_catch; try typeclasses eauto;
    [|intros; apply respects_ret; typeclasses eauto].
  cbv zeta. destruct (negb (truthy _)); [apply respects_ret; typeclasses eauto|].
  apply respects_bind; try typeclasses eauto.
  - apply fse_writeJson_grows. intros; exact I.
  - intros _. apply respects_bind; try typeclasses eauto.
    + apply addC2PAManifest_token_call. apply signParams_of_defined.
    + intros added. footprint; exact I.
Qed.

Lemma main_network env source rendition :
  respects (grows (network_call_of env rendition)) (main env source rendition).
Proof.
  apply main_calls.
  - intros ok. exact I.
  - intros [[] ok]; simpl; try discriminate; intros _; exact I.
  - intros [c ok]. unfold signing_event, network_call_of. simpl.
    destruct c; tauto.
  - intros metadata. eapply respects_mono; [|apply propagateSourceManifest_token_call].
    intros [c ok]. unfold token_call_only, network_call_of. simpl.
    destruct c; tauto.
Qed.

(** X9.  The worker calls the network for two things only.  A network
    call in the log of [main] is either a request of the remote signer's
    methods to the signing service (the size request, or the POST of the
    bytes to sign with the size in the query), and then the remote signer
    is the selected one; or it is the token exchange, and then
    [addSourceManifest === true], internal tooling is requested in the
    sign parameters, and the call is the POST of the four form fields to
    [/ims/token/v3] on the production or the staging identity host. *)
Theorem main_network_calls (env : Env) (source : Source) (rendition : Rendition)
    (w w' : World) (r : outcome unit) (evs : list event)
    (url method : string) (headers : list (string * string)) (b : body) (ok : bool) :
  main env source rendition w = (w', r) ->
  trace w' = (evs ++ trace w)%list ->
  In (Event (CFetch url method headers b) ok) evs ->
  (selected_signer rendition = remote
   /\ ((url = "https://my.signing.service/box-size" /\ method = "GET"
        /\ headers = [] /\ b = NoBody)
       \/ exists reserveSize toBeSigned,
            url = "https://my.signing.service/sign?boxSize=" ++ js_toString reserveSize
            /\ method = "POST"
            /\ headers = [("Content-Type", "application/octet-stream")]
            /\ b = RawBody toBeSigned))
  \/ (opt_prop (rendition_instructions rendition) "addSourceManifest" = VBool true
      /\ truthy (prop (signParams_of rendition) "useInternalTooling") = true
      /\ (url = "https://ims-na1.adobelogin.com/ims/token/v3"
          \/ url = "https://ims-na1-stg1.adobelogin.com/ims/token/v3")
      /\ method = "post"
      /\ headers = []
      /\ b = FormData [("grant_type", VStr "authorization_code");
                       ("client_id", VStr "asset_compute_cai_integration");
                       ("client_secret", prop (signParams_of rendition) "clientSecret");
                       ("code", prop (signParams_of rendition) "accessCode")]).
Proof.
  intros Hmain Htr Hin.
  destruct (main_network _ _ _ _ _ _ Hmain) as (evs0 & E & F).
  rewrite Htr in E. apply app_inv_tail in E. subst evs0.
  rewrite Forall_forall in F.
  destruct (F _ (proj2 (list_elem_of_In _ _) Hin)) as [[Hsel Hreq] | (Hflag & host & Hhost & Hcall)].
  - left. split; [exact Hsel|]. simpl in Hreq.
    destruct Hreq as [[= -> -> -> ->] | (size & bytes & [= -> -> -> ->])]; [left | right];
      eauto 10.
  - right. simpl in Hcall. unfold token_request in Hcall. injection Hcall as -> -> -> ->.
    split.
    + eapply (main_propagation_gated env source rendition w w' r evs); eauto. reflexivity.
    + split; [exact Hflag|].
      assert (Hh : host = AUTH_PROD_ENDPOINT \/ host = AUTH_STAGE_ENDPOINT).
      { unfold identity_endpoint in Hhost.
        destruct (prop (signParams_of rendition) "tier"); try discriminate.
        destruct (String.eqb (toUpperCase env s) "PROD"); [injection Hhost as <-; auto|].
        destruct (String.eqb (toUpperCase env s) "STAGE"); [injection Hhost as <-; auto|].
        discriminate. }
      split; [destruct Hh as [-> | ->]; [left | right]; reflexivity|].
      repeat split.
Qed.

(** Propagation with internal tooling on the staging tier. *)
Lemma main_network_calls_witness :
  (selected_signer internal_rendition = remote
   /\ (("https://ims-na1-stg1.adobelogin.com/ims/token/v3"
        = "https://my.signing.service/box-size" /\ "post" = "GET"
        /\ @nil (string * string) = [] /\ token_form = NoBody)
       \/ exists reserveSize toBeSigned,
            "https://ims-na1-stg1.adobelogin.com/ims/token/v3"
            = "https://my.signing.service/sign?boxSize=" ++ js_toString reserveSize
            /\ "post" = "POST"
            /\ [] = [("Content-Type", "application/octet-stream")]
            /\ token_form = RawBody toBeSigned))
  \/ (opt_prop (rendition_instructions internal_rendition) "addSourceManifest" = VBool true
      /\ truthy (prop (signParams_of internal_rendition) "useInternalTooling") = true
      /\ ("https://ims-na1-stg1.adobelogin.com/ims/token/v3"
          = "https://ims-na1.adobelogin.com/ims/token/v3"
          \/ "https://ims-na1-stg1.adobelogin.com/ims/token/v3"
             = "https://ims-na1-stg1.adobelogin.com/ims/token/v3")
      /\ "post" = "post"
      /\ @nil (string * string) = []
      /\ token_form
         = FormData [("grant_type", VStr "authorization_code");
                     ("client_id", VStr "asset_compute_cai_integration");
                     ("client_secret", prop (signParams_of internal_rendition) "clientSecret");
                     ("code", prop (signParams_of internal_rendition) "accessCode")]).
Proof.
  refine (main_network_calls internal_env sample_source internal_rendition sample_world
            _ _ _ "https://ims-na1-stg1.adobelogin.com/ims/token/v3" "post" []
            token_form true _ _ _).
  - vm_compute. reflexivity.
  - symmetry. apply app_nil_r.
  - vm_compute. tauto.
Defined.

(** ** The signer: what [sign] gives back *)

(** X12.  [sign] never changes the disk.  It returns normally only when
    the library's call, made with a signer of the selected kind, resolved
    to something other than [null] and [undefined], and what it returns
    is an object of exactly the [signedAsset] and [signedManifest]
    properties of that answer. *)
Theorem sign_result (env : Env) (asset manifest useLocalSigner : value)
    (w w' : World) (r : outcome value) :
  sign env asset manifest useLocalSigner w = (w', r) ->
  files w' = files w
  /\ forall signed,
       r = Ok signed ->
       exists s w1 result,
         c2pa_sign_call env s asset manifest w1 = (w', Ok result)
         /\ nullish result = false
         /\ kind_of s = selectSigner (default_param useLocalSigner (VBool false))
         /\ signed = VObj [("signedAsset", prop result "signedAsset");
                           ("signedManifest", prop result "signedManifest")].
Proof.
  intros H. split; [eapply sign_keeps; eauto|]. intros signed ->.
  eapply sign_ok; eauto.
Qed.

(** Signing the sample asset with the local signer. *)
Lemma sign_result_witness :
  files (fst (sign quiet_env (asset_of sample_source "JPEGDATA")
                (manifestDefinition sample_source) (VBool true) sample_world))
  = files sample_world.
Proof.
  exact (proj1 (sign_result quiet_env (asset_of sample_source "JPEGDATA")
                  (manifestDefinition sample_source) (VBool true) sample_world _ _
                  eq_refl)).
Defined.

(** ** The remote signer's size request *)

(** X16.  The size request of the remote signer makes one [fetch] of the
    box-size URL and does not look at the status: from any response
    whose body reads as a JSON value other than [null] it returns the
    [boxSize] property, [undefined] when there is none; without a
    response object it throws a [TypeError]. *)
Theorem reserveSize_ignores_status (env : Env) (w : World) :
  (exists ok,
      fst (reserveSize env w)
      = mkWorld (files w)
          (Event (CFetch "https://my.signing.service/box-size" "GET" [] NoBody) ok
           :: trace w))
  /\ (forall res data,
        http env w (CFetch "https://my.signing.service/box-size" "GET" [] NoBody)
        = Ok (Some res) ->
        res_json res = Ok data ->
        nullish data = false ->
        snd (reserveSize env w) = Ok (prop data "boxSize"))
  /\ (http env w (CFetch "https://my.signing.service/box-size" "GET" [] NoBody) = Ok None ->
      exists msg, snd (reserveSize env w) = Throw (TypeError msg)).
Proof.
  unfold reserveSize, bind, fetch, lift, member, throw. cbv zeta.
  destruct (http env w _) as [[res|]|e]; simpl.
  - destruct (res_json res) as [data|e] eqn:Hj; simpl.
    + destruct (nullish data) eqn:Hn; simpl; (split; [eauto|]);
        (split; [|discriminate]); intros res' data' [= <-] H2 H3;
        rewrite Hj in H2; injection H2 as <-; congruence.
    + split; [eauto|]. split; [|discriminate].
      intros res' data' [= <-] H2. congruence.
  - split; [eauto|]. split; [discriminate | eauto].
  - split; [eauto|]. split; discriminate.
Qed.

Example reserveSize_on_404 :
  snd (reserveSize misrouted_env sample_world) = Ok (VNum 20000).
Proof. reflexivity. Qed.

(** ** The remote signer's signing request *)

(** X20.  The [sign] method of the remote signer, given an argument
    other than [null] and [undefined], makes one [fetch]: a POST to the
    sign URL with the [reserveSize] property printed into the query, the
    octet-stream content type, and the [toBeSigned] property as the body.
    It does not look at the status: whatever bytes the body of the
    response holds are returned as the signature.  Without a response
    object, and on an argument that is [null] or [undefined] (no request
    is made then), it throws a [TypeError]. *)
Theorem remoteSign_posts_bytes (env : Env) (args : value) (w : World) :
  (nullish args = true ->
   exists msg, remoteSign env args w = (w, Throw (TypeError msg)))
  /\ (nullish args = false ->
      (exists ok,
          fst (remoteSign env args w)
          = mkWorld (files w)
              (Event (CFetch ("https://my.signing.service/sign?boxSize="
                              ++ js_toString (prop args "reserveSize"))
                        "POST" [("Content-Type", "application/octet-stream")]
                        (RawBody (prop args "toBeSigned"))) ok
               :: trace w))
      /\ (forall res bytes,
            http env w (CFetch ("https://my.signing.service/sign?boxSize="
                                ++ js_toString (prop args "reserveSize"))
                          "POST" [("Content-Type", "application/octet-stream")]
                          (RawBody (prop args "toBeSigned")))
            = Ok (Some res) ->
            res_buffer res = Ok bytes ->
            snd (remoteSign env args w) = Ok (VBuf bytes))
      /\ (http env w (CFetch ("https://my.signing.service/sign?boxSize="
                              ++ js_toString (prop args "reserveSize"))
                        "POST" [("Content-Type", "application/octet-stream")]
                        (RawBody (prop args "toBeSigned")))
          = Ok None ->
          exists msg, snd (remoteSign env args w) = Throw (TypeError msg))).
Proof.
  unfold remoteSign, bind, lift, member, fetch, throw, ret. cbv zeta. split.
  - intros ->. eauto.
  - intros ->.
    destruct (http env w _) as [[res|]|e]; simpl.
    + destruct (res_buffer res) as [bytes|e] eqn:Hb; simpl; (split; [eauto|]);
        (split; [|discriminate]); intros res' bytes' [= <-] H2; congruence.
    + split; [eauto|]. split; [discriminate | eauto].
    + split; [eauto|]. split; discriminate.
Qed.

Example remoteSign_on_sample :
  snd (remoteSign remote_env
         (VObj [("reserveSize", VNum 20000); ("toBeSigned", VBuf "JPEGDATA")]) sample_world)
  = Ok (VBuf "SIGNATURE").
Proof. reflexivity. Qed.

